(** * ratesystem: project analysis and scoring engine

    A shallow embedding of the text-driven analysis and scoring core of the
    repository ([backend/ml_models/*.py], [backend/scoring.py],
    [backend/schemas.py], [backend/routers/scoring.py]) together with the
    properties established about it.

    Modelling conventions
    - Python [str] values are Rocq [string]s holding the UTF-8 encoding of
      the text; [len] counts code points.  Character classes ([\w], [\d],
      [\s], [str.lower], [str.strip], [str.split]) follow Python on code
      points below 128; a code point from 128 on is kept as it is and counts
      as neither a word character, a digit nor white space.  A property
      that depends on the class of such a code point is stated for ASCII
      text.
    - Python [int] and [float] values are exact rationals ([Q]);
      [round(x, 2)] rounds the exact value to the nearest hundredth, ties to
      even.  The code computes in binary floating point: its results
      differ from the exact ones by rounding error, and by more once an
      intermediate value leaves the range of [float].  A property that
      compares a computed value with a threshold, or a rounded value with
      an exact one, therefore carries a bound on its inputs and a margin
      that covers the rounding error.
    - Dynamically typed values ([Dict[str, Any]] payloads) are terms of
      [pyval]; an operation that raises in Python returns [Raise] in the
      error monad [exn].
    - A [dict] whose iteration order matters is an association list in
      insertion order ([odict]); a [dict] only ever looked up is a [gmap];
      a [set] is a [gset]. *)

From Stdlib Require Import Ascii String QArith Qround Qminmax Qabs Lqa.
From stdpp Require Import base decidable option list sorting strings pretty gmap.

Local Open Scope string_scope.
Local Open Scope list_scope.

(** ** Python values *)

#[warnings="-register-all"]
Inductive pyval : Type :=
  | PNone
  | PBool (b : bool)
  | PNum (q : Q)
  | PStr (s : string)
  | PList (xs : list pyval)
  | PDict (kvs : list (string * pyval)).

(** ** Exceptions *)

Module Exn.

Inductive exn (A : Type) : Type :=
  | Ok (a : A)
  | Raise (msg : string).
Arguments Ok {A} a.
Arguments Raise {A} msg.

Definition bind {A B} (m : exn A) (k : A -> exn B) : exn B :=
  match m with
  | Ok a => k a
  | Raise e => Raise e
  end.

(** [try: m except: h] *)
Definition catch {A} (m : exn A) (h : string -> A) : A :=
  match m with
  | Ok a => a
  | Raise e => h e
  end.

Definition raises {A} (m : exn A) : Prop :=
  match m with
  | Ok _ => False
  | Raise _ => True
  end.

End Exn.
Import Exn.

#[global] Instance exn_ret : MRet exn := fun _ a => Ok a.
#[global] Instance exn_bind : MBind exn := fun _ _ k m => bind m k.

(** ** Ordered dictionaries *)

Section odict.
Context {V : Type}.

Definition odict := list (string * V).

Fixpoint od_get (d : list (string * V)) (k : string) : option V :=
  match d with
  | [] => None
  | (k', v) :: d' => if String.eqb k' k then Some v else od_get d' k
  end.

Definition od_mem (d : list (string * V)) (k : string) : bool :=
  match od_get d k with Some _ => true | None => false end.

(** [d[k] = v]: an existing key keeps its position, a new key goes last. *)
Fixpoint od_set (d : list (string * V)) (k : string) (v : V) : list (string * V) :=
  match d with
  | [] => [(k, v)]
  | (k', v') :: d' =>
      if String.eqb k' k then (k', v) :: d' else (k', v') :: od_set d' k v
  end.

Definition od_keys (d : list (string * V)) : list string := map fst d.

(** [d.update(e)] *)
Definition od_update (d e : list (string * V)) : list (string * V) :=
  fold_left (fun acc kv => od_set acc (fst kv) (snd kv)) e d.

End odict.
Arguments odict V : clear implicits.

(** ** Strings *)

Module Str.

Definition code (c : ascii) : N := N_of_ascii c.

Definition is_digit (c : ascii) : bool :=
  (48 <=? code c)%N && (code c <=? 57)%N.

Definition is_upper (c : ascii) : bool :=
  (65 <=? code c)%N && (code c <=? 90)%N.

Definition is_lower (c : ascii) : bool :=
  (97 <=? code c)%N && (code c <=? 122)%N.

(** [\w] *)
Definition is_word (c : ascii) : bool :=
  is_digit c || is_upper c || is_lower c || (code c =? 95)%N.

(** [str.isspace] and [\s]: TAB LF VT FF CR, FS GS RS US, SPACE *)
Definition is_space (c : ascii) : bool :=
  ((9 <=? code c)%N && (code c <=? 13)%N)
  || ((28 <=? code c)%N && (code c <=? 32)%N).

Definition to_lower (c : ascii) : ascii :=
  if is_upper c then ascii_of_N (code c + 32) else c.

Definition chars : string -> list ascii := list_ascii_of_string.
Definition of_chars : list ascii -> string := string_of_list_ascii.

(** [s.lower()] *)
Definition lower (s : string) : string := of_chars (map to_lower (chars s)).

Fixpoint drop_space (l : list ascii) : list ascii :=
  match l with
  | c :: l' => if is_space c then drop_space l' else l
  | [] => []
  end.

(** [s.strip()] *)
Definition strip (s : string) : string :=
  of_chars (rev (drop_space (rev (drop_space (chars s))))).

(** [needle in hay] *)
Fixpoint contains (hay needle : string) : bool :=
  String.prefix needle hay
  || match hay with
     | EmptyString => false
     | String _ hay' => contains hay' needle
     end.

(** Maximal runs of the characters satisfying [p]; [cur] is the run being
    read, in reverse. *)
Fixpoint runs (p : ascii -> bool) (cur : list ascii) (l : list ascii)
  : list string :=
  match l with
  | [] => match cur with [] => [] | _ => [of_chars (rev cur)] end
  | c :: l' =>
      if p c then runs p (c :: cur) l'
      else match cur with
           | [] => runs p [] l'
           | _ => of_chars (rev cur) :: runs p [] l'
           end
  end.

(** [s.split()] *)
Definition split (s : string) : list string :=
  runs (fun c => negb (is_space c)) [] (chars s).

(** [re.findall(r'\b\w+\b', s)] *)
Definition findall_words (s : string) : list string :=
  runs is_word [] (chars s).

(** [sep.join(l)] *)
Fixpoint join (sep : string) (l : list string) : string :=
  match l with
  | [] => ""
  | [x] => x
  | x :: l' => x +:+ sep +:+ join sep l'
  end.

(** [re.sub(r'[...]+', '', s)] for a character class [p] *)
Definition remove (p : ascii -> bool) (s : string) : string :=
  of_chars (filter (fun c => negb (p c)) (chars s)).

Definition is_empty (s : string) : bool :=
  match s with EmptyString => true | _ => false end.

(** A byte that continues a UTF-8 character. *)
Definition is_continuation (c : ascii) : bool :=
  (128 <=? code c)%N && (code c <? 192)%N.

(** [len(s)]: the number of code points. *)
Definition len (s : string) : nat :=
  length (filter (fun c => negb (is_continuation c)) (chars s)).

(** The first [n] code points of a list of bytes. *)
Fixpoint take_points (n : nat) (l : list ascii) : list ascii :=
  match l with
  | [] => []
  | c :: l' =>
      if is_continuation c then c :: take_points n l'
      else match n with
           | O => []
           | S n' => c :: take_points n' l'
           end
  end.

(** [s[:n]] *)
Definition prefix_of (n : nat) (s : string) : string :=
  of_chars (take_points n (chars s)).

(** Every code point is below 128. *)
Definition is_ascii (s : string) : bool :=
  forallb (fun c => (code c <? 128)%N) (chars s).

End Str.

Local Open Scope Q_scope.

(** ** Operations on Python values *)

Module Py.

(** [v.get(k, default)]; only a dictionary has [get]. *)
Definition get (v : pyval) (k : string) (default : pyval) : exn pyval :=
  match v with
  | PDict kvs => Ok (match od_get kvs k with Some x => x | None => default end)
  | _ => Raise "AttributeError"
  end.

(** [k in v] for a string [k]. *)
Definition contains (v : pyval) (k : string) : exn bool :=
  match v with
  | PDict kvs => Ok (od_mem kvs k)
  | PStr s => Ok (Str.contains s k)
  | PList xs =>
      Ok (existsb (fun x => match x with
                            | PStr s => String.eqb s k
                            | _ => false
                            end) xs)
  | PNone | PBool _ | PNum _ => Raise "TypeError"
  end.

(** [v[k]] for a string [k]. *)
Definition getitem (v : pyval) (k : string) : exn pyval :=
  match v with
  | PDict kvs =>
      match od_get kvs k with Some x => Ok x | None => Raise "KeyError" end
  | _ => Raise "TypeError"
  end.

(** [list(v.keys())] *)
Definition keys (v : pyval) : exn (list string) :=
  match v with
  | PDict kvs => Ok (od_keys kvs)
  | _ => Raise "AttributeError"
  end.

(** The operand of an arithmetic operation or comparison with a float.
    A [str] or [list] can be multiplied by an [int], but the product
    cannot be added to a float: in the expressions of the scoring
    module every operand that is not a number ends in [TypeError]. *)
Definition as_num (v : pyval) : exn Q :=
  match v with
  | PNum q => Ok q
  | PBool b => Ok (if b then 1 else 0)
  | _ => Raise "TypeError"
  end.

(** Truth value. *)
Definition truthy (v : pyval) : bool :=
  match v with
  | PNone => false
  | PBool b => b
  | PNum q => negb (Qeq_bool q 0)
  | PStr s => negb (Str.is_empty s)
  | PList xs => match xs with [] => false | _ => true end
  | PDict kvs => match kvs with [] => false | _ => true end
  end.

(** [v == s] for a string literal [s]. *)
Definition eq_str (v : pyval) (s : string) : bool :=
  match v with PStr s' => String.eqb s' s | _ => false end.

(** [v == n] for a number literal [n]. *)
Definition eq_num (v : pyval) (n : Q) : bool :=
  match v with
  | PNum q => Qeq_bool q n
  | PBool b => Qeq_bool (if b then 1 else 0) n
  | _ => false
  end.

(** [v in l] for a list [l] of string literals. *)
Definition in_strs (v : pyval) (l : list string) : bool :=
  existsb (eq_str v) l.

(** [v > n] and [v < n] for a number literal [n]. *)
Definition gt (v : pyval) (n : Q) : exn bool :=
  q ← as_num v; Ok (negb (Qle_bool q n)).
Definition lt (v : pyval) (n : Q) : exn bool :=
  q ← as_num v; Ok (negb (Qle_bool n q)).

(** [d.get(k, default)] on a value known to be a dictionary. *)
Definition dget (d : odict pyval) (k : string) (default : pyval) : pyval :=
  match od_get d k with Some x => x | None => default end.

(** [d.get(k1, {}).get(k2, {}).get(k3, default)] *)
Definition get3 (d : odict pyval) (k1 k2 k3 : string) (default : pyval)
  : exn pyval :=
  v2 ← get (dget d k1 (PDict [])) k2 (PDict []);
  get v2 k3 default.

(** [d.get(k1, {}).get(k2, default)] *)
Definition get2 (d : odict pyval) (k1 k2 : string) (default : pyval)
  : exn pyval :=
  get (dget d k1 (PDict [])) k2 default.

(** [len(v)] *)
Definition len (v : pyval) : exn nat :=
  match v with
  | PList xs => Ok (length xs)
  | PStr s => Ok (Str.len s)
  | PDict kvs => Ok (length kvs)
  | PNone | PBool _ | PNum _ => Raise "TypeError"
  end.

(** [list(v)]: the values a [for] loop over [v] visits. *)
Definition iter (v : pyval) : exn (list pyval) :=
  match v with
  | PList xs => Ok xs
  | PStr s => Ok (map (fun c => PStr (String c "")) (Str.chars s))
  | PDict kvs => Ok (map PStr (od_keys kvs))
  | PNone | PBool _ | PNum _ => Raise "TypeError"
  end.

Definition str_items (xs : list pyval) : exn (list string) :=
  foldr (fun x acc =>
           match x with
           | PStr s => l ← acc; Ok (s :: l)
           | _ => Raise "TypeError"
           end) (Ok []) xs.

(** [sep.join(v)]: every item has to be a string. *)
Definition join (sep : string) (v : pyval) : exn string :=
  xs ← iter v;
  l ← str_items xs;
  Ok (Str.join sep l).

(** [features.get(k, default)] where the value, if any, is a number. *)
Definition fnum (d : odict pyval) (k : string) (default : Q) : Q :=
  match od_get d k with
  | Some (PNum q) => q
  | Some (PBool b) => if b then 1 else 0
  | _ => default
  end.

Definition num_dict (d : odict Q) : pyval :=
  PDict (map (fun kv => (fst kv, PNum (snd kv))) d).

End Py.

(** ** Numbers *)

Module Num.

(** [min(max(x, 0), 100)] *)
Definition clamp (x : Q) : Q := Qmin (Qmax x 0) 100.

(** [max(0, min(100, x))] *)
Definition clamp' (x : Q) : Q := Qmax 0 (Qmin 100 x).

Definition round_half_even (x : Q) : Z :=
  let f := Qfloor x in
  match Qcompare (x - inject_Z f) (1 # 2) with
  | Lt => f
  | Gt => (f + 1)%Z
  | Eq => if Z.even f then f else (f + 1)%Z
  end.

(** [round(x, 2)] *)
Definition round2 (x : Q) : Q := inject_Z (round_half_even (x * 100)) / 100.

(** [sum(l)] *)
Definition sum (l : list Q) : Q := fold_left Qplus l 0.

Definition of_nat (n : nat) : Q := inject_Z (Z.of_nat n).

(** [np.mean(l)] for a non-empty [l] *)
Definition mean (l : list Q) : Q := sum l / of_nat (length l).

End Num.

(** ** Technology lexicon ([TechStackAnalyzer]) *)

(** The project record handed to the analysis functions.  [name] and
    [description] are strings (empty when the field is missing or [None],
    which every reader treats alike), [tech_stack] is a list of strings
    ([ProjectCreate] declares [List[str]]) and [metadata] a dictionary of
    arbitrary values. *)
Record project_data := {
  pd_name : string;
  pd_description : string;
  pd_tech_stack : list string;
  pd_metadata : odict pyval
}.

Module Tech.

Record tech_info := {
  ti_name : string;
  ti_category : string;
  ti_aliases : list string
}.

(** The analyzer's tables. *)
Record analyzer := {
  tech_definitions : odict tech_info;
  tech_categories : odict string;
  tech_aliases : gmap string string;
  popularity_scores : gmap string Q
}.

(** The fitted [vectorizer] and [clustering_model] (scikit-learn), when
    there are any: the mean pairwise cosine similarity they give for a
    list of detected technologies, or the exception they raise. *)
Definition vectorizer := option (list string -> exn Q).

Definition common_aliases : list (string * list string) :=
  [ ("javascript", ["js"; "ecmascript"]);
    ("python", ["py"]);
    ("c++", ["cpp"]);
    ("c#", ["csharp"]);
    ("go", ["golang"]);
    ("react", ["reactjs"]);
    ("vue", ["vuejs"]);
    ("angular", ["angularjs"]);
    ("postgresql", ["postgres"]);
    ("elasticsearch", ["es"]);
    ("google_cloud", ["gcp"]);
    ("kubernetes", ["k8s"]) ].

(** [_get_tech_aliases] *)
Definition get_tech_aliases (tech_name : string) : list string :=
  match od_get common_aliases (Str.lower tech_name) with
  | Some l => l
  | None => []
  end.

Definition first_char (w : string) : string :=
  match w with
  | EmptyString => ""
  | String c _ => String (Str.to_lower c) ""
  end.

(** One iteration of the loop of [_build_alias_mapping]. *)
Definition alias_step (m : gmap string string) (kv : string * tech_info)
  : gmap string string :=
  let tech_name := fst kv in
  let info := snd kv in
  let m1 := <[tech_name := tech_name]> m in
  let m2 := fold_left (fun acc alias => <[Str.lower alias := tech_name]> acc)
                      (ti_aliases info) m1 in
  if Str.contains (ti_name info) " " then
    let words := Str.split (ti_name info) in
    if (1 <? length words)%nat
    then <[Str.join "" (map first_char words) := tech_name]> m2
    else m2
  else m2.

(** [_build_alias_mapping] *)
Definition build_alias_mapping (defs : odict tech_info) : gmap string string :=
  fold_left alias_step defs ∅.

(** Both loaders end with [self._build_alias_mapping()] on the tables
    they have filled. *)
Definition make_analyzer (defs : odict tech_info) (cats : odict string)
  : analyzer :=
  {| tech_definitions := defs;
     tech_categories := cats;
     tech_aliases := build_alias_mapping defs;
     popularity_scores := ∅ |}.

(** The loop of [_load_tech_definitions] over [settings.TECH_STACKS]. *)
Definition add_tech (category : string)
    (acc : odict tech_info * odict string) (tech : string)
  : odict tech_info * odict string :=
  let tech_lower := Str.lower tech in
  (od_set (fst acc) tech_lower
     {| ti_name := tech; ti_category := category;
        ti_aliases := get_tech_aliases tech |},
   od_set (snd acc) tech_lower category).

Definition add_category (acc : odict tech_info * odict string)
    (entry : string * list string) : odict tech_info * odict string :=
  fold_left (add_tech (fst entry)) (snd entry) acc.

(** [_load_tech_definitions], for a given [TECH_STACKS] table.
    [popularity_scores] is only filled by the database branch, which the
    source leaves commented out. *)
Definition load_tech_definitions (TECH_STACKS : list (string * list string))
  : analyzer :=
  let tabs := fold_left add_category TECH_STACKS ([], []) in
  make_analyzer (fst tabs) (snd tabs).

(** The only [TECH_STACKS] table of the repository
    ([backend/config_cloud.py]). *)
Definition TECH_STACKS : list (string * list string) :=
  [ ("web", ["Python"; "JavaScript"; "TypeScript"; "Java"; "Go"; "Rust"]);
    ("frontend", ["React"; "Vue"; "Angular"; "Svelte"; "Next.js"]);
    ("backend", ["Django"; "Flask"; "FastAPI"; "Spring"; "Express"; "NestJS"]);
    ("database", ["PostgreSQL"; "MySQL"; "MongoDB"; "Redis"; "SQLite"]);
    ("cloud", ["AWS"; "Azure"; "GCP"; "阿里云"; "腾讯云"]);
    ("devops", ["Docker"; "Kubernetes"; "GitHub Actions"; "Jenkins"; "GitLab CI"]) ].

Definition cloud_analyzer : analyzer := load_tech_definitions TECH_STACKS.

Definition basic_tech : list (string * (string * list string)) :=
  [ ("python", ("language", ["py"]));
    ("javascript", ("language", ["js"; "ecmascript"]));
    ("java", ("language", []));
    ("c++", ("language", ["cpp"]));
    ("c#", ("language", ["csharp"]));
    ("go", ("language", ["golang"]));
    ("rust", ("language", []));
    ("ruby", ("language", []));
    ("php", ("language", []));
    ("swift", ("language", []));
    ("django", ("framework", []));
    ("flask", ("framework", []));
    ("fastapi", ("framework", []));
    ("express", ("framework", ["expressjs"]));
    ("react", ("framework", ["reactjs"]));
    ("vue", ("framework", ["vuejs"]));
    ("angular", ("framework", ["angularjs"]));
    ("spring", ("framework", ["spring boot"]));
    ("laravel", ("framework", []));
    ("postgresql", ("database", ["postgres"]));
    ("mysql", ("database", []));
    ("mongodb", ("database", ["mongo"]));
    ("redis", ("database", []));
    ("elasticsearch", ("database", ["es"]));
    ("cassandra", ("database", []));
    ("aws", ("cloud", ["amazon web services"]));
    ("azure", ("cloud", ["microsoft azure"]));
    ("google_cloud", ("cloud", ["gcp"]));
    ("aliyun", ("cloud", ["alibaba cloud"]));
    ("heroku", ("cloud", []));
    ("docker", ("tool", []));
    ("kubernetes", ("tool", ["k8s"]));
    ("git", ("tool", ["github"; "gitlab"]));
    ("jenkins", ("tool", []));
    ("terraform", ("tool", [])) ].

Definition add_basic (acc : odict tech_info * odict string)
    (entry : string * (string * list string))
  : odict tech_info * odict string :=
  let tech_name := fst entry in
  (od_set (fst acc) tech_name
     {| ti_name := tech_name; ti_category := fst (snd entry);
        ti_aliases := snd (snd entry) |},
   od_set (snd acc) tech_name (fst (snd entry))).

(** [_create_basic_definitions], on top of the tables built so far. *)
Definition create_basic_definitions
    (defs : odict tech_info) (cats : odict string) : analyzer :=
  let tabs := fold_left add_basic basic_tech (defs, cats) in
  make_analyzer (fst tabs) (snd tabs).

(** The lexicon the analyzer holds when [settings.TECH_STACKS] cannot be
    read: the handler of [_load_tech_definitions] runs
    [_create_basic_definitions] on the tables it has just reset. *)
Definition basic_analyzer : analyzer := create_basic_definitions [] [].

(** [_clean_tech_name] *)
Definition clean_tech_name (tech_name : string) : string :=
  let s1 := Str.remove (fun c => Str.is_digit c || Ascii.eqb c "."%char) tech_name in
  let s2 := Str.remove (fun c => negb (Str.is_word c || Str.is_space c)) s1 in
  let s3 := Str.join " " (Str.split s2) in
  Str.strip s3.

(** The test of the fourth stage of [_normalize_tech_name]. *)
Definition partial_match (tech_lower defined_tech : string) : bool :=
  Str.contains tech_lower defined_tech || Str.contains defined_tech tech_lower.

(** [_normalize_tech_name], on a [str] argument. *)
Definition normalize_tech_name (a : analyzer) (tech_name : string)
  : option string :=
  if Str.is_empty tech_name then None
  else
    let tech_lower := Str.lower (Str.strip tech_name) in
    if od_mem (tech_definitions a) tech_lower then Some tech_lower
    else
      match tech_aliases a !! tech_lower with
      | Some canonical => Some canonical
      | None =>
          let clean_name := clean_tech_name tech_lower in
          if negb (Str.is_empty clean_name)
             && od_mem (tech_definitions a) clean_name
          then Some clean_name
          else find (partial_match tech_lower) (od_keys (tech_definitions a))
      end.

(** *** Detection ([_detect_technologies]) *)

(** [if normalized: detected.add(normalized)] *)
Definition detected_of (normalized : option string) : gset string :=
  match normalized with
  | Some n => if Str.is_empty n then ∅ else {[ n ]}
  | None => ∅
  end.

(** The loop of [_extract_from_text] over [words[i:]]. *)
Fixpoint scan_words (a : analyzer) (words : list string) : gset string :=
  match words with
  | [] => ∅
  | w :: rest =>
      detected_of (normalize_tech_name a w)
      ∪ match rest with
        | w2 :: _ => detected_of (normalize_tech_name a (w +:+ " " +:+ w2))
        | [] => ∅
        end
      ∪ scan_words a rest
  end.

(** [_extract_from_text] *)
Definition extract_from_text (a : analyzer) (text : string) : gset string :=
  if Str.is_empty text then ∅
  else scan_words a (Str.findall_words (Str.lower text)).

Definition from_tech_stack (a : analyzer) (tech : string) : gset string :=
  detected_of (normalize_tech_name a tech).

Definition from_metadata (a : analyzer) (value : pyval) : gset string :=
  match value with
  | PStr s => extract_from_text a (Str.lower s)
  | _ => ∅
  end.

(** The set [detected] at the end of [_detect_technologies]. *)
Definition detected_set (a : analyzer) (p : project_data) : gset string :=
  ⋃ (from_tech_stack a <$> pd_tech_stack p)
  ∪ (if Str.is_empty (pd_description p) then ∅
     else extract_from_text a (Str.lower (pd_description p)))
  ∪ (if Str.is_empty (pd_name p) then ∅
     else extract_from_text a (Str.lower (pd_name p)))
  ∪ ⋃ (from_metadata a <$> (snd <$> pd_metadata p)).

(** [list(detected)]: Python fixes no iteration order for a set of
    strings, so the conversion is any enumeration of the set. *)
Record set_lister := {
  to_list : gset string -> list string;
  to_list_perm : forall s, to_list s ≡ₚ elements s
}.

Definition sorted_lister : set_lister :=
  {| to_list := elements; to_list_perm := fun s => reflexivity _ |}.

(** [_detect_technologies] *)
Definition detect_technologies (L : set_lister) (a : analyzer)
    (p : project_data) : list string :=
  merge_sort String.le (to_list L (detected_set a p)).

(** *** Analysis of the detected technologies *)

(** [sorted(l, key=key, reverse=True)], which keeps the order of equal
    keys. *)
Fixpoint insert_desc {A} (key : A -> Q) (x : A) (l : list A) : list A :=
  match l with
  | [] => [x]
  | y :: l' =>
      if negb (Qle_bool (key y) (key x)) then y :: insert_desc key x l'
      else x :: l
  end.

Definition sort_desc {A} (key : A -> Q) (l : list A) : list A :=
  foldr (insert_desc key) [] l.

(** [dict(Counter(l))] *)
Definition counter (l : list string) : odict Q :=
  fold_left (fun acc x =>
               od_set acc x (match od_get acc x with
                             | Some n => n + 1
                             | None => 1
                             end)) l [].

Definition category_of (a : analyzer) (default tech : string) : string :=
  match od_get (tech_categories a) tech with Some c => c | None => default end.

Definition popularity_of (a : analyzer) (tech : string) : Q :=
  match popularity_scores a !! tech with Some q => q | None => 0.5 end.

(** [_calculate_cohesion] *)
Definition calculate_cohesion (v : vectorizer) (detected_tech : list string)
  : Q :=
  if (length detected_tech <=? 1)%nat then 1
  else catch (match v with
              | None => Ok 0.5
              | Some similarity => similarity detected_tech
              end)
             (fun _ => 0.5).

(** [_analyze_tech_features] *)
Definition analyze_tech_features (a : analyzer) (v : vectorizer)
    (detected_tech : list string) : odict pyval :=
  match detected_tech with
  | [] => [ ("diversity", PNum 0); ("maturity", PNum 0);
            ("complexity", PNum 0); ("cohesion", PNum 0) ]
  | _ :: _ =>
      let categories := map (category_of a "unknown") detected_tech in
      let unique_categories := remove_dups categories in
      let diversity :=
        Num.of_nat (length unique_categories)
        / Num.of_nat (Nat.max (length (tech_categories a)) 1) in
      let maturity := Num.mean (map (popularity_of a) detected_tech) in
      let complexity := Qmin (Num.of_nat (length detected_tech) / 10) 1 in
      let cohesion := calculate_cohesion v detected_tech in
      [ ("diversity", PNum diversity); ("maturity", PNum maturity);
        ("complexity", PNum complexity); ("cohesion", PNum cohesion);
        ("category_distribution", Py.num_dict (counter categories)) ]
  end.

(** [_is_outdated_tech] *)
Definition is_outdated_tech (tech_name : string) : bool :=
  existsb (String.eqb tech_name)
    [ "jquery"; "backbone"; "ember"; "knockout";
      "php5"; "python2"; "ruby1.8";
      "mysql4"; "mongodb2";
      "flash"; "silverlight" ].

Definition tech_detail (a : analyzer) (tech : string) : Q * odict pyval :=
  let info := od_get (tech_definitions a) tech in
  (popularity_of a tech,
   [ ("name", PStr (match info with Some i => ti_name i | None => tech end));
     ("normalized_name", PStr tech);
     ("category", PStr (category_of a "unknown" tech));
     ("popularity_score", PNum (popularity_of a tech));
     ("aliases",
      PList (map PStr (match info with Some i => ti_aliases i | None => [] end)));
     ("is_outdated", PBool (is_outdated_tech tech)) ]).

(** [_get_tech_details] *)
Definition get_tech_details (a : analyzer) (detected_tech : list string)
  : list pyval :=
  map (fun d => PDict (snd d))
      (sort_desc fst (map (tech_detail a) detected_tech)).

(** [_calculate_confidence] *)
Definition calculate_confidence (a : analyzer) (detected_tech : list string)
    (p : project_data) : Q :=
  let confidence := 0 in
  let confidence :=
    match pd_tech_stack p with
    | _ :: _ => confidence + 0.4
    | [] => confidence
    end in
  let tech_count := length detected_tech in
  let confidence :=
    if (0 <? tech_count)%nat
    then confidence + Qmin (Num.of_nat tech_count * 0.1) 0.3
    else confidence in
  let confidence :=
    if (100 <? Str.len (pd_description p))%nat
    then confidence + 0.2 else confidence in
  let normalized_count :=
    length (filter (fun tech => od_mem (tech_definitions a) tech)
                   detected_tech) in
  let confidence :=
    match detected_tech with
    | _ :: _ =>
        confidence
        + (Num.of_nat normalized_count / Num.of_nat (length detected_tech))
          * 0.1
    | [] => confidence
    end in
  Qmin confidence 1.

(** [_categorize_technologies] *)
Definition categorize_technologies (a : analyzer)
    (detected_tech : list string) : odict (list string) :=
  fold_left
    (fun categories tech =>
       let category := category_of a "other" tech in
       od_set categories category
         (match od_get categories category with
          | Some l => l ++ [tech]
          | None => [tech]
          end))
    detected_tech [].

Definition missing_category_advice (category : string) : string :=
  if String.eqb category "language"
  then "建议指定主要编程语言（如Python、JavaScript等）"
  else if String.eqb category "framework"
  then "建议使用合适的框架以提高开发效率"
  else "建议选择合适的数据库系统".

(** [_generate_tech_recommendations]; the comparisons of the diversity
    and of the cohesion raise when the entry of [analysis] is not a
    number. *)
Definition generate_tech_recommendations (a : analyzer)
    (detected_tech : list string) (analysis : odict pyval)
  : exn (list string) :=
  let categories := categorize_technologies a detected_tech in
  let recommendations :=
    map missing_category_advice
        (filter (fun c => negb (od_mem categories c))
                ["language"; "framework"; "database"]) in
  let diversity := Py.dget analysis "diversity" (PNum 0) in
  uniform ← Py.lt diversity 0.3;
  recommendations ←
    (if uniform : bool
     then Ok (recommendations ++ ["技术栈过于单一，考虑引入互补技术"])
     else
       scattered ← Py.gt diversity 0.8;
       Ok (if scattered : bool
           then recommendations ++ ["技术栈过于复杂，考虑简化架构"]
           else recommendations));
  let outdated_tech := filter is_outdated_tech detected_tech in
  let recommendations :=
    match outdated_tech with
    | _ :: _ =>
        recommendations
        ++ ["发现过时技术: " +:+ Str.join ", " outdated_tech
            +:+ "，建议升级或替换"]
    | [] => recommendations
    end in
  let cohesion := Py.dget analysis "cohesion" (PNum 0.5) in
  loose ← Py.lt cohesion 0.3;
  let recommendations :=
    if loose : bool
    then recommendations ++ ["技术栈内聚性较低，考虑选择更兼容的技术组合"]
    else recommendations in
  let recommendations :=
    if (length recommendations <? 3)%nat
    then recommendations
         ++ take (3 - length recommendations)
              [ "考虑添加自动化测试框架"; "建议实施CI/CD流程";
                "考虑添加监控和日志系统"; "建议使用容器化技术（如Docker）" ]
    else recommendations in
  Ok (take 5 recommendations).

(** [analyze_tech_stack], once the definitions are loaded. *)
Definition analyze_tech_stack (L : set_lister) (a : analyzer)
    (v : vectorizer) (p : project_data) : odict pyval :=
  catch
    (let detected_tech := detect_technologies L a p in
     let analysis := analyze_tech_features a v detected_tech in
     let tech_details := get_tech_details a detected_tech in
     let confidence := calculate_confidence a detected_tech p in
     recommendations ←
       generate_tech_recommendations a detected_tech analysis;
     Ok [ ("detected_tech", PList (map PStr detected_tech));
          ("tech_details", PList tech_details);
          ("analysis", PDict analysis);
          ("confidence", PNum confidence);
          ("recommendations", PList (map PStr recommendations));
          ("tech_categories",
           PDict (map (fun kv => (fst kv, PList (map PStr (snd kv))))
                      (categorize_technologies a detected_tech))) ])
    (fun e => [ ("detected_tech", PList []); ("analysis", PDict []);
                ("confidence", PNum 0); ("error", PStr e) ]).

(** *** The resolution order in the words of the specification *)







End Tech.

(** ** Feature extraction ([FeatureExtractor]) *)

Module Features.

(** What the extractor takes from scikit-learn and NumPy.  [topic_model]
    stands for [vectorizer] and [lda_model] together: [None] when either
    is missing, else the topic distribution they give when fitted on a
    text, or the exception they raise. *)
Record extractor := {
  topic_model : option (string -> exn (list Q));
  entropy : list Q -> Q;
  np_std : list Q -> Q
}.

Definition quality_keywords : list (string * list string) :=
  [ ("code", ["clean"; "maintainable"; "readable"; "modular"; "tested"]);
    ("architecture",
     ["scalable"; "microservices"; "modular"; "decoupled"; "layered"]);
    ("documentation",
     ["documented"; "api docs"; "readme"; "comments"; "tutorial"]);
    ("testing",
     ["unit test"; "integration test"; "coverage"; "tdd"; "bdd"]);
    ("security",
     ["secure"; "encrypted"; "authentication"; "authorization"; "ssl"]) ].

Definition innovation_keywords : list (string * list string) :=
  [ ("novelty",
     ["innovative"; "novel"; "unique"; "groundbreaking"; "original"]);
    ("complexity",
     ["complex"; "sophisticated"; "advanced"; "cutting-edge"; "state-of-art"]);
    ("automation",
     ["automated"; "ai"; "machine learning"; "intelligent"; "smart"]) ].

Definition business_keywords : list (string * list string) :=
  [ ("market", ["market"; "business"; "commercial"; "revenue"; "profit"]);
    ("user", ["user"; "customer"; "audience"; "demand"; "need"]);
    ("scale",
     ["scalable"; "growth"; "expansion"; "large-scale"; "enterprise"]) ].

Definition str_values (metadata : odict pyval) : list string :=
  omap (fun kv => match snd kv with PStr s => Some s | _ => None end) metadata.

Definition nonempty (s : string) : list string :=
  if Str.is_empty s then [] else [s].

Definition num (n : nat) : pyval := PNum (Num.of_nat n).

(** [len(re.split(r'[.!?]+', s))]: one piece more than there are maximal
    runs of the three characters. *)
Definition is_stop (c : ascii) : bool :=
  Ascii.eqb c "."%char || Ascii.eqb c "!"%char || Ascii.eqb c "?"%char.

Definition sentence_pieces (s : string) : nat :=
  S (length (Str.runs is_stop [] (Str.chars s))).

(** [np.argmax(l)] for a non-empty [l]: the first index of the maximum. *)
Fixpoint argmax_from (best : Q) (best_i i : nat) (l : list Q) : nat :=
  match l with
  | [] => best_i
  | x :: l' =>
      if negb (Qle_bool x best) then argmax_from x i (S i) l'
      else argmax_from best best_i (S i) l'
  end.

Definition argmax (l : list Q) : exn nat :=
  match l with
  | [] => Raise "ValueError"
  | x :: l' => Ok (argmax_from x 0%nat 1%nat l')
  end.

(** The topic features of a distribution, in the order they are set. *)
Definition topic_features (E : extractor) (distribution : list Q)
  : odict pyval :=
  let weights :=
    imap (fun i w => ("topic_" +:+ pretty i +:+ "_weight", PNum w))
         (take 5 distribution) in
  match argmax distribution with
  | Ok main_topic =>
      weights ++ [ ("main_topic", num main_topic);
                   ("topic_entropy", PNum (entropy E distribution)) ]
  | Raise _ => weights
  end.

(** [_extract_text_features] *)
Definition extract_text_features (E : extractor) (p : project_data)
  : odict pyval :=
  let text_parts :=
    nonempty (pd_name p) ++ nonempty (pd_description p)
    ++ str_values (pd_metadata p) in
  let full_text := Str.join " " text_parts in
  let text_length := Str.len full_text in
  let word_count := length (Str.split full_text) in
  let sentence_count := sentence_pieces full_text in
  let words := Str.split (Str.lower full_text) in
  let unique_words := remove_dups words in
  let lexical_diversity :=
    match words with
    | [] => 0
    | _ => Num.of_nat (length unique_words) / Num.of_nat (length words)
    end in
  let avg_word_length :=
    match words with
    | [] => 0
    | _ => Num.mean (map (fun w => Num.of_nat (Str.len w)) words)
    end in
  let readability_score :=
    if (0 <? sentence_count)%nat && (0 <? word_count)%nat
    then 206.835
         - 1.015 * (Num.of_nat word_count / Num.of_nat sentence_count)
         - 84.6 * (if Qeq_bool avg_word_length 0 then 5 else avg_word_length)
    else 0 in
  let features :=
    [ ("text_length", num text_length);
      ("word_count", num word_count);
      ("sentence_count", num sentence_count);
      ("vocabulary_size", num (length unique_words));
      ("lexical_diversity", PNum lexical_diversity);
      ("avg_word_length", PNum avg_word_length);
      ("readability_score", PNum readability_score) ] in
  if (100 <? text_length)%nat then
    match topic_model E with
    | Some fit =>
        match fit full_text with
        | Ok distribution =>
            od_update features (topic_features E distribution)
        | Raise _ => features
        end
    | None => features
    end
  else features.

Definition category_map : list (string * list string) :=
  [ ("language",
     ["python"; "javascript"; "java"; "c++"; "c#"; "go"; "rust"; "ruby";
      "php"; "swift"]);
    ("framework",
     ["django"; "flask"; "fastapi"; "express"; "react"; "vue"; "angular";
      "spring"; "laravel"]);
    ("database",
     ["postgresql"; "mysql"; "mongodb"; "redis"; "elasticsearch";
      "cassandra"]);
    ("cloud", ["aws"; "azure"; "google_cloud"; "aliyun"; "heroku"]);
    ("tool", ["docker"; "kubernetes"; "git"; "jenkins"; "terraform"]) ].

Definition mem (x : string) (l : list string) : bool :=
  existsb (String.eqb x) l.

Definition category_of (tech : string) : string :=
  match find (fun entry => mem (Str.lower tech) (snd entry)) category_map with
  | Some entry => fst entry
  | None => "other"
  end.

(** [_categorize_technologies] *)
Definition categorize_technologies (tech_stack : list string)
  : odict (list string) :=
  fold_left
    (fun categories tech =>
       let category := category_of tech in
       od_set categories category
         (match od_get categories category with
          | Some l => l ++ [tech]
          | None => [tech]
          end))
    tech_stack [].

(** [_extract_tech_features], for a [tech_stack] that is a list *)
Definition extract_tech_features (p : project_data) : odict pyval :=
  let tech_stack := pd_tech_stack p in
  let n := Num.of_nat (Nat.max (length tech_stack) 1) in
  let popular_tech := ["python"; "javascript"; "react"; "docker"; "postgresql"] in
  let popular_count :=
    length (filter (fun tech => mem (Str.lower tech) popular_tech) tech_stack) in
  [ ("tech_count", num (length tech_stack));
    ("tech_diversity",
     PNum (Qmin (Num.of_nat (length (remove_dups tech_stack)) / n) 1));
    ("tech_category_count",
     num (length (categorize_technologies tech_stack)));
    ("popular_tech_ratio", PNum (Num.of_nat popular_count / n)) ].

(** The least magnitude of an [int] that [float] does not convert:
    2^1024 - 2^970, half way between the largest [float] and 2^1024. *)
Definition float_overflow : Q :=
  inject_Z (2 ^ 1024 - 2 ^ 970).

(** [float(value)] of a number. *)
Definition to_float (q : Q) : exn Q :=
  if Qle_bool float_overflow (Qabs q) then Raise "OverflowError" else Ok q.

(** The numbers among the metadata values, as [float]s. *)
Definition numeric_values (metadata : odict pyval) : exn (list Q) :=
  foldr (fun kv acc =>
           match snd kv with
           | PNum q => x ← to_float q; l ← acc; Ok (x :: l)
           | PBool b => l ← acc; Ok ((if b then 1 else 0) :: l)
           | _ => acc
           end) (Ok []) metadata.

Definition list_counts (metadata : odict pyval) : odict pyval :=
  fold_left
    (fun features kv =>
       match snd kv with
       | PList xs =>
           od_set features ("metadata_list_" +:+ fst kv +:+ "_count")
                  (num (length xs))
       | _ => features
       end)
    metadata [].

(** [_extract_metadata_features] *)
Definition extract_metadata_features (E : extractor) (p : project_data)
  : exn (odict pyval) :=
  let metadata := pd_metadata p in
  numeric_values ← numeric_values metadata;
  let features :=
    od_update [ ("metadata_field_count", num (length metadata)) ]
              (list_counts metadata) in
  let features :=
    od_update features
      [ ("metadata_text_length",
         num (list_sum (map Str.len (str_values metadata))));
        ("metadata_numeric_count", num (length numeric_values)) ] in
  Ok match numeric_values with
     | [] => features
     | values =>
         od_update features
           [ ("metadata_numeric_mean", PNum (Num.mean values));
             ("metadata_numeric_std", PNum (np_std E values)) ]
     end.

(** [count / max(len(keywords), 1)] for one keyword list *)
Definition keyword_score (text : string) (keywords : list string) : Q :=
  Num.of_nat (length (filter (Str.contains text) keywords))
  / Num.of_nat (Nat.max (length keywords) 1).

Definition keyword_scores (text : string)
    (dictionary : list (string * list string)) : odict Q :=
  map (fun entry => (fst entry, keyword_score text (snd entry))) dictionary.

Definition score_of (scores : odict Q) (category : string) : pyval :=
  PNum (match od_get scores category with Some q => q | None => 0 end).

Definition overall_of (scores : odict Q) : pyval :=
  PNum (match scores with [] => 0 | _ => Num.mean (map snd scores) end).

(** [_extract_keyword_features] *)
Definition extract_keyword_features (p : project_data) : odict pyval :=
  let text := "" in
  let text :=
    if Str.is_empty (pd_name p) then text else text +:+ " " +:+ pd_name p in
  let text :=
    if Str.is_empty (pd_description p) then text
    else text +:+ " " +:+ pd_description p in
  let text := Str.lower text in
  let quality_scores := keyword_scores text quality_keywords in
  let innovation_scores := keyword_scores text innovation_keywords in
  let business_scores := keyword_scores text business_keywords in
  [ ("quality_score_code", score_of quality_scores "code");
    ("quality_score_architecture", score_of quality_scores "architecture");
    ("quality_score_documentation", score_of quality_scores "documentation");
    ("quality_score_testing", score_of quality_scores "testing");
    ("quality_score_security", score_of quality_scores "security");
    ("overall_quality_score", overall_of quality_scores);
    ("innovation_score_novelty", score_of innovation_scores "novelty");
    ("innovation_score_complexity", score_of innovation_scores "complexity");
    ("innovation_score_automation", score_of innovation_scores "automation");
    ("overall_innovation_score", overall_of innovation_scores);
    ("business_score_market", score_of business_scores "market");
    ("business_score_user", score_of business_scores "user");
    ("business_score_scale", score_of business_scores "scale");
    ("overall_business_score", overall_of business_scores) ].

(** [_extract_complexity_features] *)
Definition extract_complexity_features (existing_features : odict pyval)
  : odict pyval :=
  let tech_count := Py.fnum existing_features "tech_count" 0 in
  let tech_category_count :=
    Py.fnum existing_features "tech_category_count" 0 in
  let tech_complexity :=
    Qmin (tech_count * 0.2 + tech_category_count * 0.3) 1 in
  let text_length := Py.fnum existing_features "text_length" 0 in
  let word_count := Py.fnum existing_features "word_count" 0 in
  let text_complexity :=
    Qmin ((text_length / 10000 + word_count / 500) / 2) 1 in
  let metadata_count := Py.fnum existing_features "metadata_field_count" 0 in
  let metadata_complexity := Qmin (metadata_count / 20) 1 in
  let project_size :=
    if negb (Qle_bool tech_count 10) then 3
    else if negb (Qle_bool tech_count 5) then 2
    else if negb (Qle_bool tech_count 0) then 1
    else 0 in
  [ ("tech_complexity", PNum tech_complexity);
    ("text_complexity", PNum text_complexity);
    ("metadata_complexity", PNum metadata_complexity);
    ("overall_complexity",
     PNum (Num.mean [tech_complexity; text_complexity; metadata_complexity]));
    ("project_size", PNum project_size) ].

(** [_calculate_derived_features] *)
Definition calculate_derived_features (features : odict pyval)
  : odict pyval :=
  let quality_score := Py.fnum features "overall_quality_score" 0 in
  let tech_maturity := Py.fnum features "popular_tech_ratio" 0 in
  let complexity := Py.fnum features "overall_complexity" 0.5 in
  let quality := Py.fnum features "overall_quality_score" 0.5 in
  let tech_diversity := Py.fnum features "tech_diversity" 0 in
  let standardization := Py.fnum features "popular_tech_ratio" 0 in
  let documentation := Py.fnum features "quality_score_documentation" 0 in
  let code_quality := Py.fnum features "quality_score_code" 0 in
  let innovation := Py.fnum features "overall_innovation_score" 0 in
  let novelty := Py.fnum features "innovation_score_novelty" 0 in
  [ ("maturity_score", PNum ((quality_score + tech_maturity) / 2));
    ("risk_score", PNum (complexity * (1 - quality)));
    ("feasibility_score", PNum ((standardization + (1 - tech_diversity)) / 2));
    ("maintainability_score", PNum ((documentation + code_quality) / 2));
    ("innovation_potential", PNum ((innovation + novelty) / 2)) ].

(** [extract_features]; every value set above is a number, which
    [_make_serializable] keeps as it is.  On the typed project record
    the [try] block raises only for a metadata number that [float] does
    not convert. *)
Definition extract_features (E : extractor) (p : project_data)
  : odict pyval :=
  catch
    (let features := od_update [] (extract_text_features E p) in
     let features := od_update features (extract_tech_features p) in
     metadata_features ← extract_metadata_features E p;
     let features := od_update features metadata_features in
     let features := od_update features (extract_keyword_features p) in
     let features :=
       od_update features (extract_complexity_features features) in
     let features :=
       od_update features (calculate_derived_features features) in
     Ok features)
    (fun e => [ ("feature_extraction_error", PStr e);
                ("text_length", PNum 0); ("tech_count", PNum 0) ]).

End Features.

(** ** Text analysis ([NLPProcessor]) *)

Module Nlp.

(** What the processor takes from NLTK.  Each of the six analyses of a
    non-empty text catches its own exceptions and returns a dictionary;
    they rest on NLTK's tokenizers, tagger and lemmatizer and are
    parameters here.  [sent_tokenize] is NLTK's sentence splitter, which
    raises when its data is missing. *)
Record tools := {
  sent_tokenize : string -> exn (list string);
  analyze_basic_text : string -> pyval;
  extract_keywords : string -> pyval;
  analyze_sentiment : string -> pyval;
  extract_entities : string -> pyval;
  analyze_topics : string -> pyval;
  analyze_readability : string -> pyval
}.

Definition version : string := "1.0.0".

(** [_empty_analysis_result] *)
Definition empty_analysis_result : odict pyval :=
  [ ("basic", PDict [("word_count", PNum 0); ("sentence_count", PNum 0)]);
    ("keywords", PDict [("categories", PDict [])]);
    ("sentiment", PDict [("score", PNum 0); ("label", PStr "neutral")]);
    ("entities", PDict [("count", PNum 0); ("list", PList [])]);
    ("topics", PDict [("count", PNum 0); ("list", PList [])]);
    ("readability", PDict [("score", PNum 0); ("level", PStr "unknown")]);
    ("summary", PStr "");
    ("metadata",
     PDict [ ("text_length", PNum 0); ("processing_time", PStr "instant");
             ("model_version", PStr version) ]) ].

(** [sentences[-k:]] *)
Definition last_n {A} (k : nat) (l : list A) : list A :=
  match k with
  | O => l
  | _ => drop (length l - k) l
  end.

(** [_generate_summary] *)
Definition generate_summary (T : tools) (text : string)
    (max_sentences : nat) : string :=
  catch
    (sentences ← sent_tokenize T text;
     match sentences with
     | [] => Ok ""
     | _ =>
         if (length sentences <=? max_sentences)%nat
         then Ok (Str.join " " sentences)
         else
           let first_part := take (max_sentences / 2 + 1) sentences in
           let last_part := last_n (max_sentences / 2) sentences in
           Ok (Str.join " " (first_part ++ last_part))
     end)
    (fun _ =>
       if (200 <? Str.len text)%nat
       then Str.prefix_of 200 text +:+ "..."
       else text).

(** [analyze_text] *)
Definition analyze_text (T : tools) (text : pyval) : odict pyval :=
  catch
    (match text with
     | PStr s =>
         if Str.is_empty s then Ok empty_analysis_result
         else
           let text := Str.strip s in
           if Str.is_empty text then Ok empty_analysis_result
           else
             Ok [ ("basic", analyze_basic_text T text);
                  ("keywords", extract_keywords T text);
                  ("sentiment", analyze_sentiment T text);
                  ("entities", extract_entities T text);
                  ("topics", analyze_topics T text);
                  ("readability", analyze_readability T text);
                  ("summary", PStr (generate_summary T text 3));
                  ("metadata",
                   PDict [ ("text_length",
                            PNum (Num.of_nat (Str.len text)));
                           ("processing_time", PStr "real-time");
                           ("model_version", PStr version) ]) ]
     | _ => Ok empty_analysis_result
     end)
    (fun e =>
       [ ("error", PStr e);
         ("basic", PDict [("word_count", PNum 0); ("sentence_count", PNum 0)]);
         ("keywords", PDict [("categories", PDict [])]);
         ("sentiment", PDict [("score", PNum 0); ("label", PStr "neutral")]);
         ("entities", PDict [("count", PNum 0); ("list", PList [])]);
         ("topics", PDict [("count", PNum 0); ("list", PList [])]);
         ("readability",
          PDict [("score", PNum 0); ("level", PStr "unknown")]) ]).

End Nlp.

(** ** Classification ([ProjectClassifier]) *)

Module Classifier.

(** [model] is what [self.model] is once [predict] has made sure it is
    loaded: the fitted pipeline, as the function from a text to the
    predicted class and the class probabilities ([predict] and
    [predict_proba], which may raise), or the exception that loading
    ends in.  A model that is still [None] after loading is the function
    that raises on every text. *)
Record classifier := {
  model : exn (string -> exn (string * list Q));
  classes : list string
}.

Definition replace_punctuation (s : string) : string :=
  Str.of_chars
    (map (fun c => if Str.is_word c || Str.is_space c then c else " "%char)
         (Str.chars s)).

(** [_clean_text] *)
Definition clean_text (text : string) : string :=
  if Str.is_empty text then ""
  else Str.join " " (Str.split (replace_punctuation (Str.lower text))).

(** [_extract_text_features] *)
Definition extract_text_features (p : project_data) : string :=
  let text_parts :=
    Features.nonempty (pd_name p) ++ Features.nonempty (pd_description p)
    ++ match pd_tech_stack p with
       | [] => []
       | tech_stack => [Str.join " " tech_stack]
       end
    ++ Features.str_values (pd_metadata p) in
  clean_text (Str.join " " text_parts).

Definition unknown : odict pyval :=
  [ ("name", PStr "unknown");
    ("confidence", PNum 0);
    ("category_probabilities", PDict [("unknown", PNum 1)]);
    ("top_categories", PList [PList [PStr "unknown"; PNum 1]]) ].

(** [max(probabilities)] for a non-empty list *)
Definition maximum (l : list Q) : Q :=
  match l with
  | [] => 0
  | x :: l' => fold_left Qmax l' x
  end.

(** [predict] *)
Definition predict (C : classifier) (p : project_data) : odict pyval :=
  catch
    (fitted ← model C;
     let text_features := extract_text_features p in
     if negb (Str.is_empty (Str.strip text_features)) then
       prediction ← fitted text_features;
       let predicted_class := fst prediction in
       let probabilities := snd prediction in
       let class_probs :=
         fold_left (fun acc kv => od_set acc (fst kv) (snd kv))
                   (zip (classes C) probabilities) [] in
       let confidence := maximum probabilities in
       Ok [ ("name", PStr predicted_class);
            ("confidence", PNum confidence);
            ("category_probabilities", Py.num_dict class_probs);
            ("top_categories",
             PList (map (fun kv => PList [PStr (fst kv); PNum (snd kv)])
                        (take 3 (Tech.sort_desc snd class_probs)))) ]
     else Ok unknown)
    (fun e => unknown ++ [("error", PStr e)]).

End Classifier.

(** ** Rule-based text analyses ([NLPProcessor]) *)

Module NlpRules.

(** [self.keyword_categories] *)
Definition keyword_categories : list (string * list string) :=
  [ ("technology",
     [ "software"; "application"; "system"; "platform"; "solution";
       "framework"; "library"; "tool"; "api"; "sdk"; "interface";
       "database"; "server"; "client"; "network"; "protocol" ]);
    ("development",
     [ "develop"; "build"; "create"; "implement"; "design";
       "code"; "program"; "script"; "test"; "debug"; "deploy";
       "maintain"; "update"; "refactor"; "optimize"; "integrate" ]);
    ("business",
     [ "business"; "market"; "product"; "service"; "customer";
       "user"; "client"; "revenue"; "profit"; "growth"; "scale";
       "competitive"; "strategy"; "plan"; "goal"; "objective" ]);
    ("quality",
     [ "quality"; "reliable"; "stable"; "secure"; "efficient";
       "performant"; "scalable"; "maintainable"; "readable";
       "documented"; "tested"; "robust"; "resilient"; "fault-tolerant" ]);
    ("innovation",
     [ "innovative"; "novel"; "unique"; "advanced"; "cutting-edge";
       "state-of-art"; "revolutionary"; "disruptive"; "breakthrough";
       "creative"; "original"; "pioneering"; "groundbreaking" ]) ].

Definition positive_words : list string :=
  [ "good"; "great"; "excellent"; "awesome"; "amazing";
    "best"; "perfect"; "wonderful"; "outstanding"; "superb";
    "innovative"; "creative"; "efficient"; "reliable"; "secure";
    "fast"; "easy"; "simple"; "powerful"; "flexible" ].

Definition negative_words : list string :=
  [ "bad"; "poor"; "terrible"; "awful"; "horrible";
    "worst"; "slow"; "difficult"; "complex"; "hard";
    "buggy"; "unstable"; "insecure"; "outdated"; "limited";
    "broken"; "failed"; "error"; "issue"; "problem" ].

(** [_init_sentiment_lexicon], on the empty lexicon of [__init__]; the
    lexicon is not written to afterwards. *)
Definition sentiment_lexicon : gmap string Q :=
  let lexicon := fold_left (fun m word => <[word := 1]> m) positive_words ∅ in
  fold_left (fun m word => <[word := - (1)]> m) negative_words lexicon.

(** The keywords of a list that occur in the text ([keyword in
    text_lower]), in the order of the list. *)
Definition found_keywords (text_lower : string) (keywords : list string)
  : list string :=
  filter (fun keyword => Str.contains text_lower keyword) keywords.

(** [Counter(items).most_common(n)] *)
Definition most_common (n : nat) (items : list string) : list (string * Q) :=
  take n (Tech.sort_desc snd (Tech.counter items)).

(** [{k: count / total for k, count in counts.items()}] *)
Definition shares (counts : odict nat) (total : nat) : odict Q :=
  map (fun entry => (fst entry, Num.of_nat (snd entry) / Num.of_nat total))
      counts.

Definition count_dict (counts : odict nat) : pyval :=
  PDict (map (fun entry => (fst entry, Features.num (snd entry))) counts).

Definition words_dict (found : odict (list string)) : pyval :=
  PDict (map (fun entry => (fst entry, PList (map PStr (snd entry)))) found).

Section tokenizers.
(** NLTK's [word_tokenize], [sent_tokenize] and [pos_tag], each with the
    exception it raises when its data is missing, and the stop words the
    processor holds after loading. *)
Variable word_tokenize : string -> exn (list string).
Variable sent_tokenize : string -> exn (list string).
Variable pos_tag : list string -> exn (list (string * string)).
Variable stop_words : gset string.

(** *** Sentiment *)

(** One iteration of the loop of [_analyze_sentiment]. *)
Definition sentiment_step (acc : Q * list string) (word : string)
  : Q * list string :=
  match sentiment_lexicon !! word with
  | Some s => (fst acc + s, snd acc ++ [word])
  | None => acc
  end.

(** [_analyze_sentiment] *)
Definition analyze_sentiment (text : string) : odict pyval :=
  catch
    (let text_lower := Str.lower text in
     words ← word_tokenize text_lower;
     let acc := fold_left sentiment_step words (0, []) in
     let sentiment_score := fst acc in
     let sentiment_words := snd acc in
     let word_count := length words in
     let normalized_score :=
       if (0 <? word_count)%nat
       then sentiment_score / Num.of_nat word_count else 0 in
     let label :=
       if negb (Qle_bool normalized_score 0.1) then "positive"
       else if negb (Qle_bool (- (0.1)) normalized_score) then "negative"
       else "neutral" in
     let intensity := Qabs normalized_score in
     Ok [ ("score", PNum normalized_score);
          ("label", PStr label);
          ("intensity", PNum intensity);
          ("sentiment_words", PList (map PStr sentiment_words));
          ("sentiment_word_count", Features.num (length sentiment_words));
          ("method", PStr "lexicon_based") ])
    (fun _ => [ ("score", PNum 0); ("label", PStr "neutral");
                ("intensity", PNum 0); ("sentiment_words", PList []);
                ("sentiment_word_count", PNum 0);
                ("method", PStr "error") ]).

(** *** Keywords *)

(** [_extract_keywords] *)
Definition extract_keywords (text : string) : odict pyval :=
  catch
    (let text_lower := Str.lower text in
     words ← word_tokenize text_lower;
     let category_words :=
       map (fun entry => (fst entry, found_keywords text_lower (snd entry)))
           keyword_categories in
     let category_counts :=
       map (fun entry => (fst entry, length (snd entry))) category_words in
     let total_keywords := list_sum (map snd category_counts) in
     let category_weights :=
       if (0 <? total_keywords)%nat
       then shares category_counts total_keywords else [] in
     let top_nouns :=
       catch
         (pos_tags ← pos_tag words;
          let nouns :=
            map fst (filter (fun tagged => String.prefix "NN" (snd tagged))
                            pos_tags) in
          Ok (most_common 10 nouns))
         (fun _ => []) in
     Ok [ ("categories", count_dict category_counts);
          ("category_weights", Py.num_dict category_weights);
          ("category_words", words_dict category_words);
          ("top_nouns",
           PList (map (fun entry => PList [PStr (fst entry); PNum (snd entry)])
                      top_nouns));
          ("total_keywords", Features.num total_keywords) ])
    (fun _ => [ ("categories", PDict []); ("category_weights", PDict []);
                ("category_words", PDict []); ("top_nouns", PList []);
                ("total_keywords", PNum 0) ]).

(** *** Readability *)

(** [char in "aeiouy"] for a single character *)
Definition is_vowel (c : ascii) : bool :=
  existsb (Ascii.eqb c) (Str.chars "aeiouy").

(** The loop over the characters of a word: a vowel counts when the
    character before it is not one.  [prev_in_vowels] is
    [prev_char in vowels]; it holds for the initial [prev_char = ''],
    the empty string being contained in every string. *)
Fixpoint vowel_groups (prev_in_vowels : bool) (l : list ascii) : nat :=
  match l with
  | [] => 0
  | c :: l' =>
      (if is_vowel c && negb prev_in_vowels then 1 else 0)
      + vowel_groups (is_vowel c) l'
  end.

(** The syllables counted for a lower-case word: at least one. *)
Definition syllables_in (word_lower : string) : nat :=
  let n := vowel_groups true (Str.chars word_lower) in
  if (n =? 0)%nat then 1%nat else n.

(** What a word adds to [syllable_count] in [_analyze_readability]. *)
Definition syllables (word : string) : nat :=
  let word_lower := Str.lower word in
  if (String.length word_lower <=? 3)%nat then 1%nat
  else syllables_in word_lower.

(** [_count_complex_words] *)
Definition count_complex_words (words : list string) : nat :=
  fold_left
    (fun complex_count word =>
       if (3 <? syllables_in (Str.lower word))%nat
       then S complex_count else complex_count)
    words 0%nat.

Definition readability_level (flesch_score : Q) : string :=
  if Qle_bool 90 flesch_score then "Very Easy"
  else if Qle_bool 80 flesch_score then "Easy"
  else if Qle_bool 70 flesch_score then "Fairly Easy"
  else if Qle_bool 60 flesch_score then "Standard"
  else if Qle_bool 50 flesch_score then "Fairly Difficult"
  else if Qle_bool 30 flesch_score then "Difficult"
  else "Very Difficult".

(** [_analyze_readability] *)
Definition analyze_readability (text : string) : odict pyval :=
  catch
    (sentences ← sent_tokenize text;
     let sentence_count := length sentences in
     words ← word_tokenize text;
     let word_count := length words in
     let syllable_count :=
       fold_left (fun count word => (count + syllables word)%nat)
                 words 0%nat in
     let scores :=
       if (0 <? sentence_count)%nat && (0 <? word_count)%nat then
         let words_per_sentence :=
           Num.of_nat word_count / Num.of_nat sentence_count in
         let syllables_per_word :=
           Num.of_nat syllable_count / Num.of_nat word_count in
         let flesch_score :=
           206.835 - 1.015 * words_per_sentence
           - 84.6 * syllables_per_word in
         let fk_grade :=
           0.39 * words_per_sentence + 11.8 * syllables_per_word - 15.59 in
         (flesch_score, fk_grade, readability_level flesch_score)
       else (0, 0, "Unknown") in
     let avg_sentence_length :=
       Num.of_nat word_count / Num.of_nat (Nat.max sentence_count 1) in
     let avg_word_length :=
       Num.of_nat (list_sum (map String.length words))
       / Num.of_nat (Nat.max word_count 1) in
     Ok [ ("flesch_score", PNum (fst (fst scores)));
          ("flesch_kincaid_grade", PNum (snd (fst scores)));
          ("readability_level", PStr (snd scores));
          ("sentence_count", Features.num sentence_count);
          ("word_count", Features.num word_count);
          ("syllable_count", Features.num syllable_count);
          ("avg_sentence_length", PNum avg_sentence_length);
          ("avg_word_length", PNum avg_word_length);
          ("complex_words", Features.num (count_complex_words words)) ])
    (fun _ => [ ("flesch_score", PNum 0); ("flesch_kincaid_grade", PNum 0);
                ("readability_level", PStr "Unknown");
                ("sentence_count", PNum 0); ("word_count", PNum 0);
                ("syllable_count", PNum 0);
                ("avg_sentence_length", PNum 0); ("avg_word_length", PNum 0);
                ("complex_words", PNum 0) ]).

(** *** Similarity *)

(** [_calculate_text_similarity] *)
Definition calculate_text_similarity (text1 text2 : string) : Q :=
  catch
    (if Str.is_empty text1 || Str.is_empty text2 then Ok 0
     else
       tokens1 ← word_tokenize (Str.lower text1);
       tokens2 ← word_tokenize (Str.lower text2);
       let words1 : gset string := list_to_set tokens1 ∖ stop_words in
       let words2 : gset string := list_to_set tokens2 ∖ stop_words in
       let intersection := size (words1 ∩ words2) in
       let union := size (words1 ∪ words2) in
       if (union =? 0)%nat then Ok 0
       else Ok (Num.of_nat intersection / Num.of_nat union))
    (fun _ => 0).

End tokenizers.

(** *** Topics *)

Definition topics : list (string * list string) :=
  [ ("technology", ["software"; "application"; "system"; "code"; "program"]);
    ("business", ["business"; "market"; "product"; "revenue"; "profit"]);
    ("development", ["develop"; "build"; "create"; "implement"; "design"]);
    ("quality", ["quality"; "reliable"; "secure"; "efficient"; "test"]);
    ("innovation",
     ["innovative"; "novel"; "unique"; "advanced"; "cutting-edge"]) ].

(** [max(items, key=lambda x: x[1])] on a non-empty list: the first item
    with the largest value. *)
Definition max_by_value (first : string * nat) (rest : list (string * nat))
  : string * nat :=
  fold_left (fun best item => if (snd best <? snd item)%nat then item else best)
            rest first.

(** [_analyze_topics]; on a string nothing in the [try] block raises. *)
Definition analyze_topics (text : string) : odict pyval :=
  catch
    (let text_lower := Str.lower text in
     let topic_keywords :=
       map (fun entry => (fst entry, found_keywords text_lower (snd entry)))
           topics in
     let topic_scores :=
       map (fun entry => (fst entry, length (snd entry))) topic_keywords in
     let main_topic :=
       match topic_scores with
       | first :: rest => max_by_value first rest
       | [] => ("general", 0%nat)
       end in
     let total_score := list_sum (map snd topic_scores) in
     let topic_distribution :=
       if (0 <? total_score)%nat
       then shares topic_scores total_score else [] in
     Ok [ ("count", Features.num (length topic_scores));
          ("scores", count_dict topic_scores);
          ("distribution", Py.num_dict topic_distribution);
          ("main_topic", PStr (fst main_topic));
          ("main_topic_score", Features.num (snd main_topic));
          ("topic_keywords", words_dict topic_keywords) ])
    (fun _ => [ ("count", PNum 0); ("scores", PDict []);
                ("distribution", PDict []);
                ("main_topic", PStr "unknown");
                ("main_topic_score", PNum 0);
                ("topic_keywords", PDict []) ]).

End NlpRules.

(** ** Analysis bundle ([backend/ml_models/__init__.py]) *)

Module Analysis.

(** The four module-level instances. *)
Record models := {
  project_classifier : Classifier.classifier;
  classifier_version : string;
  tech_stack_analyzer : Tech.analyzer;
  tech_vectorizer : Tech.vectorizer;
  tech_lister : Tech.set_lister;
  feature_extractor : Features.extractor;
  nlp_processor : Nlp.tools
}.

Section analysis.
(** [str(x)] of a number and of an arbitrary value, as an f-string
    formats them. *)
Variable str_of_num : Q -> string.
Variable str_of_value : pyval -> string.

Definition format (v : pyval) : string :=
  match v with
  | PStr s => s
  | PNum q => str_of_num q
  | _ => str_of_value v
  end.

(** [calculate_complexity_score] *)
Definition calculate_complexity_score (features tech_analysis : odict pyval)
  : Q :=
  catch
    (tech_count ← Py.len (Py.dget tech_analysis "detected_tech" (PList []));
     let score := 50 + Qmin (Num.of_nat tech_count * 5) 25 in
     score ←
       (if od_mem features "project_size" then
          let size := Py.dget features "project_size" PNone in
          huge ← Py.gt size 1000;
          if huge : bool then Ok (score + 15)
          else
            large ← Py.gt size 500;
            if large : bool then Ok (score + 10)
            else
              medium ← Py.gt size 100;
              Ok (if medium : bool then score + 5 else score)
        else Ok score);
     score ←
       (if od_mem features "architecture_complexity" then
          complexity ←
            Py.as_num (Py.dget features "architecture_complexity" PNone);
          Ok (score + complexity * 10)
        else Ok score);
     Ok (Num.clamp score))
    (fun _ => 50).

(** [calculate_maturity_score] *)
Definition calculate_maturity_score (features tech_analysis : odict pyval)
  : Q :=
  catch
    (tech_maturity ←
       Py.as_num (Py.dget tech_analysis "tech_maturity" (PNum 0.5));
     let score := 50 + (tech_maturity - 0.5) * 40 in
     score ←
       (if od_mem features "documentation_score" then
          doc_score ←
            Py.as_num (Py.dget features "documentation_score" PNone);
          Ok (score + (doc_score - 0.5) * 20)
        else Ok score);
     score ←
       (if od_mem features "test_coverage" then
          test_score ← Py.as_num (Py.dget features "test_coverage" PNone);
          Ok (score + (test_score - 0.5) * 20)
        else Ok score);
     Ok (Num.clamp score))
    (fun _ => 50).

(** The state of the [try] block of [assess_risks]. *)
Definition risk_state : Type := list string * string.

(** [assess_risks] *)
Definition assess_risks (features tech_analysis : odict pyval)
  : odict pyval :=
  catch
    (let st : risk_state := ([], "low") in
     let outdated_tech :=
       Py.dget tech_analysis "outdated_technologies" (PList []) in
     st ←
       (if Py.truthy outdated_tech then
          joined ← Py.join ", " outdated_tech;
          Ok (fst st ++ ["使用了过时技术: " +:+ joined], "medium")
        else Ok st);
     dependency_count ←
       Py.len (Py.dget tech_analysis "dependencies" (PList []));
     let st : risk_state :=
       if (50 <? dependency_count)%nat
       then (fst st ++ ["依赖过多 (" +:+ pretty dependency_count +:+ "个)"],
             "medium")
       else st in
     st ←
       (if od_mem features "security_issues" then
          let security_issues :=
            Py.dget features "security_issues" PNone in
          positive ← Py.gt security_issues 0;
          Ok (if positive : bool
              then (fst st ++ ["存在安全漏洞: " +:+ format security_issues
                               +:+ "个"], "high")
              else st)
        else Ok st);
     st ←
       (if od_mem features "maintenance_score" then
          low ← Py.lt (Py.dget features "maintenance_score" PNone) 0.3;
          Ok (if low : bool then (fst st ++ ["维护困难"], "medium") else st)
        else Ok st);
     Ok [ ("level", PStr (snd st));
          ("factors", PList (map PStr (fst st)));
          ("outdated_technologies", outdated_tech);
          ("dependency_count", PNum (Num.of_nat dependency_count)) ])
    (fun e => [ ("level", PStr "unknown");
                ("factors", PList [PStr "评估失败"]);
                ("error", PStr e) ]).

(** [generate_recommendations] *)
Definition generate_recommendations
    (features tech_analysis category_result : odict pyval) : list string :=
  catch
    (let category := Py.dget category_result "name" (PStr "") in
     let recommendations :=
       if Py.eq_str category "web_development"
       then [ "考虑使用现代前端框架如React或Vue.js";
              "实施响应式设计以支持移动设备" ]
       else if Py.eq_str category "machine_learning"
       then [ "考虑使用PyTorch或TensorFlow进行模型开发";
              "添加模型评估和监控机制" ]
       else [] in
     outdated_tech ←
       Py.iter (Py.dget tech_analysis "outdated_technologies" (PList []));
     let recommendations :=
       recommendations
       ++ map (fun tech => "考虑升级或替换过时技术: " +:+ format tech)
              outdated_tech in
     recommendations ←
       (if od_mem features "documentation_score" then
          low ← Py.lt (Py.dget features "documentation_score" PNone) 0.5;
          Ok (if low : bool
              then recommendations
                   ++ ["加强文档编写，特别是API文档和部署指南"]
              else recommendations)
        else Ok recommendations);
     recommendations ←
       (if od_mem features "test_coverage" then
          low ← Py.lt (Py.dget features "test_coverage" PNone) 0.3;
          Ok (if low : bool
              then recommendations
                   ++ ["增加测试覆盖率，特别是单元测试和集成测试"]
              else recommendations)
        else Ok recommendations);
     recommendations ←
       (if od_mem features "security_issues" then
          positive ← Py.gt (Py.dget features "security_issues" PNone) 0;
          Ok (if positive : bool
              then recommendations ++ ["立即修复发现的安全漏洞"]
              else recommendations)
        else Ok recommendations);
     let recommendations :=
       if (length recommendations <? 3)%nat
       then recommendations
            ++ take (3 - length recommendations)
                 [ "实施持续集成/持续部署(CI/CD)流程";
                   "添加性能监控和日志记录";
                   "定期进行代码审查和重构";
                   "考虑容器化部署以提高可移植性" ]
       else recommendations in
     Ok (take 10 recommendations))
    (fun _ => ["系统分析中，请稍后查看详细建议"]).

(** The dictionary the handler of [analyze_project] returns. *)
Definition analysis_fallback (e : string) : odict pyval :=
  [ ("category", PDict [("name", PStr "unknown"); ("confidence", PNum 0)]);
    ("tech_stack_analysis",
     PDict [("detected_tech", PList []); ("confidence", PNum 0)]);
    ("features", PDict []);
    ("nlp_analysis", PDict []);
    ("complexity_score", PNum 50);
    ("maturity_score", PNum 50);
    ("risk_assessment",
     PDict [("level", PStr "medium"); ("factors", PList [])]);
    ("recommendations", PList [PStr "分析过程中出现错误"]);
    ("model_versions",
     PDict [("classifier", PStr "error"); ("tech_analyzer", PStr "error")]);
    ("error", PStr e) ].

(** [analyze_project]; [loaded] is the outcome of making sure the four
    models are loaded ([load_models] raises again what it catches). *)
Definition analyze_project (loaded : exn models) (p : project_data)
  : odict pyval :=
  catch
    (M ← loaded;
     let features :=
       Features.extract_features (feature_extractor M) p in
     let category_result := Classifier.predict (project_classifier M) p in
     let tech_analysis :=
       Tech.analyze_tech_stack (tech_lister M) (tech_stack_analyzer M)
         (tech_vectorizer M) p in
     let nlp_analysis :=
       if Str.is_empty (pd_description p) then []
       else Nlp.analyze_text (nlp_processor M) (PStr (pd_description p)) in
     Ok [ ("category", PDict category_result);
          ("tech_stack_analysis", PDict tech_analysis);
          ("features", PDict features);
          ("nlp_analysis", PDict nlp_analysis);
          ("complexity_score",
           PNum (calculate_complexity_score features tech_analysis));
          ("maturity_score",
           PNum (calculate_maturity_score features tech_analysis));
          ("risk_assessment", PDict (assess_risks features tech_analysis));
          ("recommendations",
           PList (map PStr (generate_recommendations features
                              tech_analysis category_result)));
          ("model_versions",
           PDict [ ("classifier", PStr (classifier_version M));
                   ("tech_analyzer", PStr "1.0.0");
                   ("feature_extractor", PStr "1.0.0");
                   ("nlp_processor", PStr Nlp.version) ]) ])
    analysis_fallback.

End analysis.

End Analysis.

(** ** Scoring ([backend/scoring.py], [backend/schemas.py]) *)

Module Scoring.

Inductive ScoringAlgorithm := BASIC | ADVANCED | ML_BASED.

Record ScoringResult := {
  quality_score : Q;
  innovation_score : Q;
  feasibility_score : Q;
  business_value_score : Q;
  overall_score : Q;
  scoring_details : odict pyval;
  algorithm_version : string
}.

Definition in_range (x : Q) : bool := Qle_bool 0 x && Qle_bool x 100.

(** [ScoringResult(...)]: the constructor checks [ge=0, le=100] on the
    five scores. *)
Definition new_ScoringResult (q i f b o : Q) (details : odict pyval)
    (version : string) : exn ScoringResult :=
  if in_range q && in_range i && in_range f && in_range b && in_range o
  then Ok {| quality_score := q; innovation_score := i;
             feasibility_score := f; business_value_score := b;
             overall_score := o; scoring_details := details;
             algorithm_version := version |}
  else Raise "ValidationError".

(** [if key in features: score += features[key] * k] *)
Definition add_feature (features : pyval) (key : string) (k : Q) (score : Q)
  : exn Q :=
  present ← Py.contains features key;
  if present : bool then
    v ← Py.getitem features key;
    x ← Py.as_num v;
    Ok (score + x * k)
  else Ok score.

Section base.
(** [self.name], [self.version] and the clock. *)
Variables (name version now : string).

(** [_calculate_quality_score] *)
Definition calculate_quality_score (features : pyval)
    (analysis_result : odict pyval) : Q :=
  catch
    (score ← add_feature features "quality_score_code" 20 50;
     score ← add_feature features "quality_score_architecture" 15 score;
     score ← add_feature features "quality_score_documentation" 10 score;
     score ← add_feature features "quality_score_testing" 10 score;
     score ← add_feature features "quality_score_security" 5 score;
     m ← Py.get3 analysis_result "tech_stack_analysis" "analysis"
           "maturity" (PNum 0.5);
     tech_maturity ← Py.as_num m;
     Ok (Num.clamp (score + (tech_maturity - 0.5) * 20)))
    (fun _ => 50).

(** [_calculate_innovation_score] *)
Definition calculate_innovation_score (features : pyval)
    (analysis_result : odict pyval) : Q :=
  catch
    (score ← add_feature features "innovation_score_novelty" 25 50;
     score ← add_feature features "innovation_score_complexity" 20 score;
     score ← add_feature features "innovation_score_automation" 15 score;
     category ← Py.get2 analysis_result "category" "name" (PStr "");
     let score :=
       if Py.in_strs category
            ["machine_learning"; "iot"; "blockchain"; "game_development"]
       then score + 10 else score in
     outdated_tech ← Py.get3 analysis_result "tech_stack_analysis"
                       "analysis" "outdated_technologies" (PList []);
     let score :=
       if negb (Py.truthy outdated_tech) then score + 5 else score in
     Ok (Num.clamp score))
    (fun _ => 50).

(** [_calculate_feasibility_score] *)
Definition calculate_feasibility_score (features : pyval)
    (analysis_result : odict pyval) : Q :=
  catch
    (c ← Py.get features "overall_complexity" (PNum 0.5);
     complexity ← Py.as_num c;
     let score := 50 - (complexity - 0.5) * 30 in
     m ← Py.get3 analysis_result "tech_stack_analysis" "analysis"
           "maturity" (PNum 0.5);
     tech_feasibility ← Py.as_num m;
     let score := score + (tech_feasibility - 0.5) * 25 in
     has_size ← Py.contains features "project_size";
     score ← (if has_size : bool then
                size ← Py.getitem features "project_size";
                Ok (if Py.eq_num size 3 then score - 15
                    else if Py.eq_num size 2 then score - 5
                    else score)
              else Ok score);
     risk_level ← Py.get2 analysis_result "risk_assessment" "level"
                    (PStr "medium");
     let score :=
       if Py.eq_str risk_level "high" then score - 20
       else if Py.eq_str risk_level "medium" then score - 10
       else if Py.eq_str risk_level "low" then score + 5
       else score in
     score ← add_feature features "maintainability_score" 15 score;
     Ok (Num.clamp score))
    (fun _ => 50).

(** [_calculate_business_value_score] *)
Definition calculate_business_value_score (features : pyval)
    (analysis_result : odict pyval) : Q :=
  catch
    (score ← add_feature features "business_score_market" 25 50;
     score ← add_feature features "business_score_user" 20 score;
     score ← add_feature features "business_score_scale" 15 score;
     category ← Py.get2 analysis_result "category" "name" (PStr "");
     let score :=
       if Py.in_strs category
            ["web_development"; "mobile_app"; "data_science";
             "cloud_infrastructure"]
       then score + 10 else score in
     score ← add_feature features "innovation_potential" 10 score;
     s ← Py.get3 analysis_result "nlp_analysis" "sentiment" "score"
           (PNum 0);
     sentiment ← Py.as_num s;
     Ok (Num.clamp (score + sentiment * 10)))
    (fun _ => 50).

(** [weights.get(key, 0.25)] *)
Definition weight_of (weights : odict Q) (key : string) : Q :=
  match od_get weights key with Some w => w | None => 0.25 end.

(** [_calculate_overall_score]; [weights] is [None] or a dictionary of
    floats, so nothing in its body can raise. *)
Definition calculate_overall_score (quality innovation feasibility
    business_value : Q) (weights : option (odict Q)) : Q :=
  let '(wq, wi, wf, wb) :=
    match weights with
    | Some ((_ :: _) as w) =>
        (weight_of w "quality", weight_of w "innovation",
         weight_of w "feasibility", weight_of w "business_value")
    | _ => (0.25, 0.25, 0.25, 0.25)
    end in
  Num.round2 (quality * wq + innovation * wi + feasibility * wf
              + business_value * wb).

(** [_get_default_score] *)
Definition get_default_score : ScoringResult :=
  {| quality_score := 50; innovation_score := 50;
     feasibility_score := 50; business_value_score := 50;
     overall_score := 50;
     scoring_details :=
       [ ("algorithm", PStr name); ("version", PStr version);
         ("error", PStr "评分计算失败，使用默认值");
         ("timestamp", PStr now) ];
     algorithm_version := version |}.

(** The [try] block of [BaseScoringAlgorithm.calculate_score]. *)
Definition base_body (analysis_result : odict pyval) : exn ScoringResult :=
  let features := Py.dget analysis_result "features" (PDict []) in
  let quality_score := calculate_quality_score features analysis_result in
  let innovation_score :=
    calculate_innovation_score features analysis_result in
  let feasibility_score :=
    calculate_feasibility_score features analysis_result in
  let business_value_score :=
    calculate_business_value_score features analysis_result in
  let overall_score :=
    calculate_overall_score quality_score innovation_score
      feasibility_score business_value_score None in
  features_used ← Py.keys features;
  new_ScoringResult quality_score innovation_score feasibility_score
    business_value_score overall_score
    [ ("algorithm", PStr name); ("version", PStr version);
      ("features_used", PList (map PStr features_used));
      ("category", Py.dget analysis_result "category" (PDict []));
      ("timestamp", PStr now) ]
    version.

(** [BaseScoringAlgorithm.calculate_score] *)
Definition base_calculate_score (analysis_result : odict pyval)
  : ScoringResult :=
  catch (base_body analysis_result) (fun _ => get_default_score).

End base.

(** *** Advanced algorithm *)

(** [adjustments.get(key, 0)] *)
Definition adj_get (adjustments : odict Q) (key : string) : Q :=
  match od_get adjustments key with Some x => x | None => 0 end.

(** [adjustments[key] = adjustments.get(key, 0) + d] *)
Definition adj_add (adjustments : odict Q) (key : string) (d : Q) : odict Q :=
  od_set adjustments key (adj_get adjustments key + d).

Section advanced.
Variable now : string.

(** The [try] block of [_apply_advanced_adjustments]; [version] is
    [self.version]. *)
Definition adjustments_body (version : string) (base_result : ScoringResult)
    (analysis_result : odict pyval) : exn ScoringResult :=
  tech_diversity ← Py.get3 analysis_result "tech_stack_analysis"
                     "analysis" "diversity" (PNum 0.5);
  high ← Py.gt tech_diversity 0.7;
  adjustments ←
    (if high : bool then Ok [("feasibility", - (5))]
     else
       low ← Py.lt tech_diversity 0.3;
       Ok (if low : bool
           then [("innovation", - (3)); ("business_value", - (2))]
           else []));
  risk_level ← Py.get2 analysis_result "risk_assessment" "level"
                 (PStr "medium");
  let adjustments :=
    if Py.eq_str risk_level "high"
    then adj_add (adj_add adjustments "feasibility" (- (15)))
                 "quality" (- (10))
    else if Py.eq_str risk_level "low"
    then adj_add adjustments "feasibility" 5
    else adjustments in
  let features := Py.dget analysis_result "features" (PDict []) in
  project_size ← Py.get features "project_size" (PNum 0);
  let adjustments :=
    if Py.eq_num project_size 3
    then adj_add (adj_add adjustments "feasibility" (- (10)))
                 "business_value" 5
    else if Py.eq_num project_size 1
    then adj_add (adj_add adjustments "feasibility" 5)
                 "innovation" (- (3))
    else adjustments in
  sentiment_score ← Py.get3 analysis_result "nlp_analysis" "sentiment"
                      "score" (PNum 0);
  positive ← Py.gt sentiment_score 0.2;
  adjustments ←
    (if positive : bool then Ok (adj_add adjustments "business_value" 3)
     else
       negative ← Py.lt sentiment_score (- (0.2));
       Ok (if negative : bool
           then adj_add adjustments "quality" (- (5))
           else adjustments));
  let quality :=
    Num.clamp' (quality_score base_result + adj_get adjustments "quality") in
  let innovation :=
    Num.clamp' (innovation_score base_result
                + adj_get adjustments "innovation") in
  let feasibility :=
    Num.clamp' (feasibility_score base_result
                + adj_get adjustments "feasibility") in
  let business_value :=
    Num.clamp' (business_value_score base_result
                + adj_get adjustments "business_value") in
  let overall :=
    calculate_overall_score quality innovation feasibility business_value
      None in
  let details :=
    od_update (scoring_details base_result)
      [ ("advanced_adjustments", Py.num_dict adjustments);
        ("adjusted_scores",
         PDict [ ("quality", PNum quality);
                 ("innovation", PNum innovation);
                 ("feasibility", PNum feasibility);
                 ("business_value", PNum business_value) ]) ] in
  new_ScoringResult quality innovation feasibility business_value overall
    details version.

(** [_apply_advanced_adjustments] *)
Definition apply_advanced_adjustments (version : string)
    (base_result : ScoringResult) (analysis_result : odict pyval)
  : ScoringResult :=
  catch (adjustments_body version base_result analysis_result)
        (fun _ => base_result).

(** [AdvancedScoringAlgorithm.calculate_score]; [super()] runs the base
    method on the same instance, whose name is "advanced" and whose
    version is "2.0.0". *)
Definition advanced_calculate_score (analysis_result : odict pyval)
  : ScoringResult :=
  catch
    (let base_result :=
       base_calculate_score "advanced" "2.0.0" now analysis_result in
     Ok (apply_advanced_adjustments "2.0.0" base_result analysis_result))
    (fun _ => base_calculate_score "advanced" "2.0.0" now analysis_result).

(** *** Simulated ML algorithm *)

(** [_extract_ml_features] *)
Definition extract_ml_features (analysis_result : odict pyval)
  : exn (odict pyval) :=
  let features := Py.dget analysis_result "features" (PDict []) in
  let fget k := Py.get features k (PNum 0) in
  text_length ← fget "text_length";
  vocabulary_size ← fget "vocabulary_size";
  readability_score ← fget "readability_score";
  tech_count ← fget "tech_count";
  tech_diversity ← fget "tech_diversity";
  popular_tech_ratio ← fget "popular_tech_ratio";
  overall_quality_score ← fget "overall_quality_score";
  code_quality ← fget "quality_score_code";
  architecture_quality ← fget "quality_score_architecture";
  overall_innovation_score ← fget "overall_innovation_score";
  novelty_score ← fget "innovation_score_novelty";
  overall_complexity ← fget "overall_complexity";
  project_size ← fget "project_size";
  risk_level ← Py.get2 analysis_result "risk_assessment" "level"
                 (PStr "medium");
  sentiment_score ← Py.get3 analysis_result "nlp_analysis" "sentiment"
                      "score" (PNum 0);
  category ← Py.get2 analysis_result "category" "name" (PStr "unknown");
  category_confidence ← Py.get2 analysis_result "category" "confidence"
                          (PNum 0);
  Ok [ ("text_length", text_length);
       ("vocabulary_size", vocabulary_size);
       ("readability_score", readability_score);
       ("tech_count", tech_count);
       ("tech_diversity", tech_diversity);
       ("popular_tech_ratio", popular_tech_ratio);
       ("overall_quality_score", overall_quality_score);
       ("code_quality", code_quality);
       ("architecture_quality", architecture_quality);
       ("overall_innovation_score", overall_innovation_score);
       ("novelty_score", novelty_score);
       ("overall_complexity", overall_complexity);
       ("project_size", project_size);
       ("risk_level", risk_level);
       ("sentiment_score", sentiment_score);
       ("category", category);
       ("category_confidence", category_confidence) ].

(** The four scores of [ml_scores]. *)
Record dimension_scores := {
  ds_quality : Q;
  ds_innovation : Q;
  ds_feasibility : Q;
  ds_business_value : Q
}.

Definition default_dimension_scores : dimension_scores :=
  {| ds_quality := 50; ds_innovation := 50;
     ds_feasibility := 50; ds_business_value := 50 |}.

(** The [try] block of [_simulate_ml_prediction]. *)
Definition simulate_body (features : odict pyval) : exn dimension_scores :=
  readable ← Py.gt (Py.dget features "readability_score" (PNum 0)) 60;
  adjustments ←
    (if readable : bool then Ok [("quality", 10)]
     else
       unreadable ←
         Py.lt (Py.dget features "readability_score" (PNum 0)) 30;
       Ok (if unreadable : bool then [("quality", - (5))] else []));
  many ← Py.gt (Py.dget features "tech_count" (PNum 0)) 5;
  let adjustments :=
    if many : bool
    then od_set (od_set adjustments "feasibility" (- (5)))
                "quality" (- (3))
    else adjustments in
  novel ← Py.gt (Py.dget features "novelty_score" (PNum 0)) 0.5;
  let adjustments :=
    if novel : bool then od_set adjustments "innovation" 15
    else adjustments in
  let risk_level := Py.dget features "risk_level" PNone in
  let adjustments :=
    if Py.eq_str risk_level "high"
    then adj_add adjustments "feasibility" (- (10))
    else if Py.eq_str risk_level "low"
    then adj_add adjustments "feasibility" 5
    else adjustments in
  Ok {| ds_quality := Num.clamp' (50 + adj_get adjustments "quality");
        ds_innovation := Num.clamp' (50 + adj_get adjustments "innovation");
        ds_feasibility :=
          Num.clamp' (50 + adj_get adjustments "feasibility");
        ds_business_value :=
          Num.clamp' (50 + adj_get adjustments "business_value") |}.

(** [_simulate_ml_prediction] *)
Definition simulate_ml_prediction (features : odict pyval)
  : dimension_scores :=
  catch (simulate_body features) (fun _ => default_dimension_scores).

(** [MLBasedScoringAlgorithm.load_model] *)
Definition ml_load_model : option pyval :=
  Some (PDict [("loaded", PBool true)]).

(** The [try] block of [MLBasedScoringAlgorithm.calculate_score];
    [ml_model] is [self.ml_model] on entry. *)
Definition ml_body (ml_model : option pyval)
    (analysis_result : odict pyval) : exn ScoringResult :=
  let ml_model :=
    match ml_model with None => ml_load_model | Some _ => ml_model end in
  ml_features ← extract_ml_features analysis_result;
  let ml_scores :=
    if match ml_model with Some m => Py.truthy m | None => false end
    then simulate_ml_prediction ml_features
    else
      let base_result := advanced_calculate_score analysis_result in
      {| ds_quality := quality_score base_result;
         ds_innovation := innovation_score base_result;
         ds_feasibility := feasibility_score base_result;
         ds_business_value := business_value_score base_result |} in
  let overall :=
    calculate_overall_score (ds_quality ml_scores)
      (ds_innovation ml_scores) (ds_feasibility ml_scores)
      (ds_business_value ml_scores) None in
  new_ScoringResult (ds_quality ml_scores) (ds_innovation ml_scores)
    (ds_feasibility ml_scores) (ds_business_value ml_scores) overall
    [ ("algorithm", PStr "ml_based"); ("version", PStr "3.0.0");
      ("ml_features", PDict ml_features);
      ("model_used", PStr "simulated_ml_model");
      ("timestamp", PStr now) ]
    "3.0.0".

(** [MLBasedScoringAlgorithm.calculate_score] *)
Definition ml_calculate_score (ml_model : option pyval)
    (analysis_result : odict pyval) : ScoringResult :=
  catch (ml_body ml_model analysis_result)
        (fun _ => advanced_calculate_score analysis_result).

(** [ScoringAlgorithmFactory.create_algorithm(algorithm).calculate_score]
    on a fresh instance. *)
Definition calculate_score (algorithm : ScoringAlgorithm)
    (analysis_result : odict pyval) : ScoringResult :=
  match algorithm with
  | BASIC => base_calculate_score "base" "1.0.0" now analysis_result
  | ADVANCED => advanced_calculate_score analysis_result
  | ML_BASED => ml_calculate_score None analysis_result
  end.

(** *** Entry point *)

Definition set_overall (r : ScoringResult) (o : Q) (details : odict pyval)
  : ScoringResult :=
  {| quality_score := quality_score r;
     innovation_score := innovation_score r;
     feasibility_score := feasibility_score r;
     business_value_score := business_value_score r;
     overall_score := o;
     scoring_details := details;
     algorithm_version := algorithm_version r |}.

(** The handler of [calculate_project_score]. *)
Definition error_fallback (e : string) : ScoringResult :=
  {| quality_score := 50; innovation_score := 50;
     feasibility_score := 50; business_value_score := 50;
     overall_score := 50;
     scoring_details :=
       [ ("error", PStr e); ("algorithm", PStr "error_fallback");
         ("timestamp", PStr now) ];
     algorithm_version := "0.0.0" |}.

(** [calculate_project_score] from the analysis on.  The assignment to
    [result.overall_score] is not validated: [ScoringResult] does not
    set [validate_assignment]. *)
Definition score_analysis (analysis_result : odict pyval)
    (algorithm : ScoringAlgorithm) (weights : option (odict Q))
    (options : odict pyval) : ScoringResult :=
  catch
    (let result := calculate_score algorithm analysis_result in
     let result :=
       match weights with
       | Some ((_ :: _) as w) =>
           set_overall result
             (calculate_overall_score (quality_score result)
                (innovation_score result) (feasibility_score result)
                (business_value_score result) (Some w))
             (od_set (scoring_details result) "custom_weights" (Py.num_dict w))
       | _ => result
       end in
     let result :=
       match options with
       | _ :: _ =>
           set_overall result (overall_score result)
             (od_set (scoring_details result) "options" (PDict options))
       | [] => result
       end in
     Ok result)
    error_fallback.

Section entry.
(** [analyze_project] of [backend/ml_models], which returns a
    dictionary on every input. *)
Variable analyze_project : project_data -> odict pyval.

(** [calculate_project_score] *)
Definition calculate_project_score (project : project_data)
    (algorithm : ScoringAlgorithm) (weights : option (odict Q))
    (options : odict pyval) : ScoringResult :=
  score_analysis (analyze_project project) algorithm weights options.

End entry.

End advanced.

(** *** Request validation ([ScoringRequest], [score_project]) *)

(** [ScoringRequest.validate_weights] *)
Definition validate_weights (v : option (odict Q)) : exn (option (odict Q)) :=
  match v with
  | Some ((_ :: _) as w) =>
      let total := Num.sum (map snd w) in
      if negb (Qle_bool (Qabs (total - 1)) 0.01)
      then Raise "权重总和必须为1"
      else Ok v
  | _ => Ok v
  end.

Record ScoringRequest := {
  project_id : Z;
  algorithm : ScoringAlgorithm;
  weights : option (odict Q);
  options : odict pyval
}.

(** [ScoringRequest(...)] *)
Definition new_ScoringRequest (project_id : Z) (algorithm : ScoringAlgorithm)
    (weights : option (odict Q)) (options : odict pyval)
  : exn ScoringRequest :=
  w ← validate_weights weights;
  Ok {| project_id := project_id; algorithm := algorithm;
        weights := w; options := options |}.

Inductive response :=
  | Unprocessable (msg : string)
  | NotFound
  | Scored (r : ScoringResult).

(** [POST /]: the request body is validated into a [ScoringRequest]
    before [score_project] runs; the handler looks the project up and
    calls [calculate_project_score]. *)
Definition score_project (now : string)
    (analyze_project : project_data -> odict pyval)
    (db : Z -> option project_data)
    (project_id : Z) (algorithm : ScoringAlgorithm)
    (weights : option (odict Q)) (options : odict pyval) : response :=
  match new_ScoringRequest project_id algorithm weights options with
  | Raise e => Unprocessable e
  | Ok req =>
      match db req.(Scoring.project_id) with
      | None => NotFound
      | Some project =>
          Scored (calculate_project_score now analyze_project project
                    req.(Scoring.algorithm) req.(Scoring.weights)
                    req.(Scoring.options))
      end
  end.

End Scoring.

(** ** Request models ([backend/schemas.py]) *)

Module Schemas.

(** [ProjectCreate.validate_name] *)
Definition validate_name (v : string) : exn string :=
  if Str.is_empty (Str.strip v) then Raise "项目名称不能为空"
  else Ok (Str.strip v).

(** The [name] field of [ProjectCreate]: the length limits of [Field],
    then the validator. *)
Definition ProjectCreate_name (v : string) : exn string :=
  if (Str.len v <? 1)%nat || (255 <? Str.len v)%nat
  then Raise "ValidationError"
  else validate_name v.

(** [ProjectUpdate.validate_name], on the optional name. *)
Definition validate_update_name (v : option string) : exn (option string) :=
  match v with
  | None => Ok None
  | Some s =>
      if Str.is_empty (Str.strip s) then Raise "项目名称不能为空"
      else Ok (if negb (Str.is_empty s) then Some (Str.strip s) else Some s)
  end.

(** The [name] field of [ProjectUpdate]. *)
Definition ProjectUpdate_name (v : option string) : exn (option string) :=
  match v with
  | None => Ok None
  | Some s =>
      if (Str.len s <? 1)%nat || (255 <? Str.len s)%nat
      then Raise "ValidationError"
      else validate_update_name v
  end.

End Schemas.

(** ** Batch scoring ([POST /batch]) *)

Module Batch.
Import Scoring.

Record ScoringResponse := {
  response_project_id : Z;
  project_name : string;
  scoring_result : ScoringResult;
  created_at : string
}.

Record BatchScoringRequest := {
  project_ids : list Z;
  batch_algorithm : ScoringAlgorithm;
  batch_weights : option (odict Q);
  batch_options : odict pyval
}.


Record BatchScoringResponse := {
  results : list ScoringResponse;
  failed_projects : list Z;
  total : nat;
  success : nat
}.

Section route.
(** The database session, and the single-project handler
    [score_project(scoring_request, db)] as a transformer of it: the
    response or the exception it raises (a 404 or 500 [HTTPException]
    included), and the session afterwards. *)
Context {DB : Type}.
Variable score_project :
  ScoringRequest -> DB -> exn ScoringResponse * DB.

(** One iteration of the loop of [batch_score_projects]. *)
Definition batch_step (request : BatchScoringRequest)
    (state : list ScoringResponse * list Z * DB) (project_id : Z)
  : list ScoringResponse * list Z * DB :=
  let results := fst (fst state) in
  let failed_projects := snd (fst state) in
  let db := snd state in
  match new_ScoringRequest project_id (batch_algorithm request)
          (batch_weights request) (batch_options request) with
  | Raise _ => (results, failed_projects ++ [project_id], db)
  | Ok scoring_request =>
      match score_project scoring_request db with
      | (Ok scoring_response, db') =>
          (results ++ [scoring_response], failed_projects, db')
      | (Raise _, db') => (results, failed_projects ++ [project_id], db')
      end
  end.

(** [batch_score_projects] *)
Definition batch_score_projects (batch_request : BatchScoringRequest)
    (db : DB) : BatchScoringResponse * DB :=
  let state :=
    fold_left (batch_step batch_request) (project_ids batch_request)
              ([], [], db) in
  ({| results := fst (fst state);
      failed_projects := snd (fst state);
      total := length (project_ids batch_request);
      success := length (fst (fst state)) |},
   snd state).

End route.

End Batch.

(** ** Vocabulary of the properties *)

Module Spec.
Import Scoring.

(** A score in [0,100]. *)
Definition ranged (x : Q) : Prop := 0 <= x <= 100.

Definition all_ranged (r : ScoringResult) : Prop :=
  ranged (quality_score r) /\ ranged (innovation_score r)
  /\ ranged (feasibility_score r) /\ ranged (business_value_score r)
  /\ ranged (overall_score r).

(** The weights [_calculate_overall_score] multiplies with: those of a
    non-empty map, 0.25 for a key it lacks, and 0.25 each without a map. *)
Definition effective_weights (weights : option (odict Q)) : Q * Q * Q * Q :=
  match weights with
  | Some ((_ :: _) as w) =>
      (weight_of w "quality", weight_of w "innovation",
       weight_of w "feasibility", weight_of w "business_value")
  | _ => (0.25, 0.25, 0.25, 0.25)
  end.

Definition weighted_sum (q i f b : Q) (ws : Q * Q * Q * Q) : Q :=
  let '(wq, wi, wf, wb) := ws in q * wq + i * wi + f * wf + b * wb.

(** The overall score of [r] is the rounded weighted sum of its own
    dimension scores. *)
Definition overall_weighted (weights : option (odict Q)) (r : ScoringResult)
  : Prop :=
  overall_score r
  == Num.round2 (weighted_sum (quality_score r) (innovation_score r)
                   (feasibility_score r) (business_value_score r)
                   (effective_weights weights)).

(** The four dimension scores are all 50, as is the overall score. *)
Definition all_fifty (r : ScoringResult) : Prop :=
  quality_score r == 50 /\ innovation_score r == 50
  /\ feasibility_score r == 50 /\ business_value_score r == 50
  /\ overall_score r == 50.

(** The detail trace carries an error entry. *)
Definition has_error_marker (r : ScoringResult) : Prop :=
  od_mem (scoring_details r) "error" = true.

(** Empty or made of white space only. *)
Definition blank (s : string) : bool := forallb Str.is_space (Str.chars s).

(** The summary in the words of the specification: the whole text for at
    most [n] sentences, else the first [ceil(n/2) + 1] sentences followed
    by the last [floor(n/2)]. *)
Definition summary_spec (sentences : list string) (n : nat) : string :=
  if (length sentences <=? n)%nat then Str.join " " sentences
  else Str.join " " (take ((n + 1) / 2 + 1) sentences
                     ++ Nlp.last_n (n / 2) sentences).

(** The keys of a feature bundle: a fixed set, the topic features and
    the list counts of the metadata. *)
Definition fixed_feature_keys : list string :=
  [ "text_length"; "word_count"; "sentence_count"; "vocabulary_size";
    "lexical_diversity"; "avg_word_length"; "readability_score";
    "main_topic"; "topic_entropy";
    "tech_count"; "tech_diversity"; "tech_category_count";
    "popular_tech_ratio";
    "metadata_field_count"; "metadata_text_length";
    "metadata_numeric_count"; "metadata_numeric_mean";
    "metadata_numeric_std";
    "quality_score_code"; "quality_score_architecture";
    "quality_score_documentation"; "quality_score_testing";
    "quality_score_security"; "overall_quality_score";
    "innovation_score_novelty"; "innovation_score_complexity";
    "innovation_score_automation"; "overall_innovation_score";
    "business_score_market"; "business_score_user";
    "business_score_scale"; "overall_business_score";
    "tech_complexity"; "text_complexity"; "metadata_complexity";
    "overall_complexity"; "project_size";
    "maturity_score"; "risk_score"; "feasibility_score";
    "maintainability_score"; "innovation_potential";
    "feature_extraction_error" ].

Definition is_feature_key (k : string) : bool :=
  Features.mem k fixed_feature_keys
  || String.prefix "topic_" k
  || String.prefix "metadata_list_" k.

(** The risk assessment without any risk factor. *)
Definition no_risk : odict pyval :=
  [ ("level", PStr "low"); ("factors", PList []);
    ("outdated_technologies", PList []); ("dependency_count", PNum 0) ].

End Spec.

(** ** Concrete inputs *)

Module Demo.

(** A fitted classifier that labels every text [web_development]. *)
Definition classifier : Classifier.classifier :=
  {| Classifier.model := Ok (fun _ => Ok ("web_development", [1]));
     Classifier.classes := ["web_development"] |}.

(** An extractor without topic model. *)
Definition extractor : Features.extractor :=
  {| Features.topic_model := None;
     Features.entropy := fun _ => 0;
     Features.np_std := fun _ => 0 |}.

Definition ends_sentence (cur : list ascii) : bool :=
  match cur with
  | c :: _ => Features.is_stop c
  | [] => false
  end.

(** A sentence splitter for plain prose: a sentence ends at white space
    that follows a full stop, an exclamation mark or a question mark. *)
Fixpoint split_sentences (cur : list ascii) (l : list ascii) : list string :=
  match l with
  | [] => match cur with [] => [] | _ => [Str.of_chars (rev cur)] end
  | c :: l' =>
      if Str.is_space c && ends_sentence cur
      then Str.of_chars (rev cur) :: split_sentences [] l'
      else split_sentences (c :: cur) l'
  end.

Definition nlp : Nlp.tools :=
  {| Nlp.sent_tokenize := fun s => Ok (split_sentences [] (Str.chars s));
     Nlp.analyze_basic_text := fun _ => PDict [];
     Nlp.extract_keywords := fun _ => PDict [];
     Nlp.analyze_sentiment :=
       fun _ => PDict [("score", PNum 0); ("label", PStr "neutral")];
     Nlp.extract_entities := fun _ => PDict [];
     Nlp.analyze_topics := fun _ => PDict [];
     Nlp.analyze_readability := fun _ => PDict [] |}.

Definition models_with (a : Tech.analyzer) : Analysis.models :=
  {| Analysis.project_classifier := classifier;
     Analysis.classifier_version := "1.0.0";
     Analysis.tech_stack_analyzer := a;
     Analysis.tech_vectorizer := None;
     Analysis.tech_lister := Tech.sorted_lister;
     Analysis.feature_extractor := extractor;
     Analysis.nlp_processor := nlp |}.

(** The models with the analyzer's built-in lexicon. *)
Definition models : Analysis.models := models_with Tech.basic_analyzer.

(** A lexicon that knows jQuery. *)
Definition jquery_analyzer : Tech.analyzer :=
  Tech.load_tech_definitions
    [ ("frontend", ["jQuery"; "React"]); ("backend", ["Python"]) ].

Definition project_x : project_data :=
  {| pd_name := "X"; pd_description := "";
     pd_tech_stack := []; pd_metadata := [] |}.

Definition project_jquery : project_data :=
  {| pd_name := "Shop"; pd_description := "";
     pd_tech_stack := ["jquery"]; pd_metadata := [] |}.


Definition four_sentences : string := "One. Two! Three? Four.".

(** Weights that sum to 1. *)
Definition skewed_weights : odict Q :=
  [ ("quality", - (3)); ("innovation", 0);
    ("feasibility", 4); ("business_value", 0) ].

Definition fine_weights : odict Q :=
  [ ("quality", 0.0001); ("innovation", 0.9999);
    ("feasibility", 0); ("business_value", 0) ].

(** A bundle whose category is [None]. *)
Definition bundle_without_category : odict pyval := [("category", PNone)].

End Demo.

(** * Properties *)

(** ** The exception monad *)

Lemma bind_Ok {A B} (m : exn A) (k : A -> exn B) b :
  (x ← m; k x) = Ok b -> exists a, m = Ok a /\ k a = Ok b.
Proof. destruct m; simpl; [eauto | discriminate]. Qed.

Ltac bind_inv H :=
  repeat match type of H with
  | mbind _ ?m = Ok _ =>
      let a := fresh "a" in let Ha := fresh "Ha" in
      apply bind_Ok in H as (a & Ha & H)
  | (if ?c then _ else _) = Ok _ => destruct c
  end.

(** ** Ordered dictionaries *)

Section odict_facts.
Context {V : Type}.
Implicit Types d : list (string * V).

Lemma od_get_keys d k v : od_get d k = Some v -> k ∈ od_keys d.
Proof.
  induction d as [|[k' v'] d IH]; simpl; [discriminate|].
  destruct (String.eqb k' k) eqn:E.
  - apply String.eqb_eq in E. subst. intros _. left.
  - intros H. right. auto.
Qed.

Lemma od_mem_keys d k : od_mem d k = true -> k ∈ od_keys d.
Proof.
  unfold od_mem. destruct (od_get d k) eqn:E; [|discriminate].
  intros _. eapply od_get_keys; eauto.
Qed.

End odict_facts.

Module TechFacts.
Import Tech.

Lemma fold_insert_values (P : string -> Prop) (v : string) (f : string -> string)
    (l : list string) (m : gmap string string) :
  P v ->
  (forall k w, m !! k = Some w -> P w) ->
  forall k w, fold_left (fun acc x => <[f x := v]> acc) l m !! k = Some w -> P w.
Proof.
  intros Hv. revert m. induction l as [|x l IH]; simpl; intros m Hm k w.
  - apply Hm.
  - apply IH. intros k' w'. rewrite lookup_insert.
    case_decide; [intros [= <-]; exact Hv | apply Hm].
Qed.

Lemma alias_step_values (P : string -> Prop) m kv :
  P (fst kv) ->
  (forall k w, m !! k = Some w -> P w) ->
  forall k w, alias_step m kv !! k = Some w -> P w.
Proof.
  intros Hv Hm. unfold alias_step.
  set (m2 := fold_left _ _ _).
  assert (H2 : forall k w, m2 !! k = Some w -> P w).
  { apply fold_insert_values; [exact Hv|].
    intros k w. rewrite lookup_insert.
    case_decide; [intros [= <-]; exact Hv | apply Hm]. }
  destruct (Str.contains _ _); [|exact H2].
  destruct (1 <? _)%nat; [|exact H2].
  intros k w. rewrite lookup_insert.
  case_decide; [intros [= <-]; exact Hv | apply H2].
Qed.

Lemma fold_alias_step_values (P : string -> Prop) l m :
  Forall (fun kv => P (fst kv)) l ->
  (forall k w, m !! k = Some w -> P w) ->
  forall k w, fold_left alias_step l m !! k = Some w -> P w.
Proof.
  intros Hl. revert m. induction Hl as [|kv l Hkv Hl IH]; simpl; intros m Hm.
  - exact Hm.
  - apply IH. apply alias_step_values; assumption.
Qed.

(** Every value of the alias table is a canonical name. *)
Lemma alias_values_in_keys defs k c :
  build_alias_mapping defs !! k = Some c -> c ∈ od_keys defs.
Proof.
  unfold build_alias_mapping.
  apply (fold_alias_step_values (fun c => c ∈ od_keys defs)).
  - apply Forall_forall. intros kv Hkv. unfold od_keys.
    apply list_elem_of_fmap. exists kv. split; [reflexivity | exact Hkv].
  - intros k' w. rewrite lookup_empty. discriminate.
Qed.

Lemma find_elem_of {A} (f : A -> bool) (l : list A) x :
  find f l = Some x -> x ∈ l /\ f x = true.
Proof.
  intros H. apply find_some in H as [H1 H2]. split; [|exact H2].
  apply list_elem_of_In. exact H1.
Qed.

Lemma normalize_in_lexicon defs cats t c :
  normalize_tech_name (make_analyzer defs cats) t = Some c ->
  c ∈ od_keys defs.
Proof.
  unfold normalize_tech_name, make_analyzer.
  cbn [tech_definitions tech_aliases].
  destruct (Str.is_empty t); [discriminate|].
  destruct (od_mem defs _) eqn:E1.
  { intros [= <-]. apply od_mem_keys. exact E1. }
  destruct (build_alias_mapping defs !! _) eqn:E2.
  { intros [= <-]. eapply alias_values_in_keys. exact E2. }
  destruct (negb _ && od_mem defs _) eqn:E3.
  { intros [= <-]. apply andb_true_iff in E3 as [_ E3].
    apply od_mem_keys. exact E3. }
  intros H. apply find_elem_of in H as [H _]. exact H.
Qed.

Lemma detected_of_lexicon defs cats t c :
  c ∈ detected_of (normalize_tech_name (make_analyzer defs cats) t) ->
  c ∈ od_keys defs.
Proof.
  destruct (normalize_tech_name _ t) as [n|] eqn:E; simpl; [|set_solver].
  destruct (Str.is_empty n); [set_solver|].
  intros ->%elem_of_singleton. eapply normalize_in_lexicon. exact E.
Qed.

Lemma scan_words_lexicon defs cats ws c :
  c ∈ scan_words (make_analyzer defs cats) ws -> c ∈ od_keys defs.
Proof.
  induction ws as [|w rest IH]; simpl; [set_solver|].
  rewrite !elem_of_union. intros [[H|H]|H].
  - eapply detected_of_lexicon. exact H.
  - destruct rest; [set_solver|]. eapply detected_of_lexicon. exact H.
  - auto.
Qed.

Lemma extract_from_text_lexicon defs cats text c :
  c ∈ extract_from_text (make_analyzer defs cats) text -> c ∈ od_keys defs.
Proof.
  unfold extract_from_text. destruct (Str.is_empty text); [set_solver|].
  apply scan_words_lexicon.
Qed.

Lemma detected_set_lexicon defs cats p c :
  c ∈ detected_set (make_analyzer defs cats) p -> c ∈ od_keys defs.
Proof.
  unfold detected_set. rewrite !elem_of_union.
  intros [[[H|H]|H]|H];
    try (destruct (Str.is_empty _); [set_solver|];
         eapply extract_from_text_lexicon; exact H).
  - apply elem_of_union_list in H as (X & HX & Hc).
    apply list_elem_of_fmap in HX as (v & -> & _).
    eapply detected_of_lexicon. exact Hc.
  - apply elem_of_union_list in H as (X & HX & Hc).
    apply list_elem_of_fmap in HX as (v & -> & _).
    destruct v; simpl in Hc; try set_solver.
    eapply extract_from_text_lexicon. exact Hc.
Qed.

Lemma detect_technologies_perm L a p :
  detect_technologies L a p ≡ₚ elements (detected_set a p).
Proof.
  unfold detect_technologies. rewrite merge_sort_Permutation.
  apply to_list_perm.
Qed.

Lemma detect_technologies_sorted L a p :
  StronglySorted String.le (detect_technologies L a p).
Proof. apply StronglySorted_merge_sort; apply _. Qed.



(** C5: technology detection returns a duplicate-free list, sorted in
    lexicographic order, whose elements are all keys of the loaded
    lexicon; the list does not depend on the order in which the set of
    detected names is enumerated, so two calls on the same project and
    lexicon return the same elements in the same order. *)
Theorem detect_technologies_canonical (L L' : set_lister)
    (defs : odict tech_info) (cats : odict string) (p : project_data) :
  let a := make_analyzer defs cats in
  NoDup (detect_technologies L a p)
  /\ StronglySorted String.le (detect_technologies L a p)
  /\ (forall c, c ∈ detect_technologies L a p -> c ∈ od_keys defs)
  /\ detect_technologies L' a p = detect_technologies L a p.
Proof.
  intros a. split; [|split; [|split]].
  - rewrite detect_technologies_perm. apply NoDup_elements.
  - apply detect_technologies_sorted.
  - intros c. rewrite detect_technologies_perm, elem_of_elements.
    apply detected_set_lexicon.
  - apply (StronglySorted_unique String.le);
      try apply detect_technologies_sorted.
    rewrite !detect_technologies_perm. reflexivity.
Qed.




(** *** The analysis of a technology stack *)

Lemma tech_features_numbers a v detected_tech :
  exists d c,
    Py.dget (analyze_tech_features a v detected_tech) "diversity" (PNum 0)
    = PNum d
    /\ Py.dget (analyze_tech_features a v detected_tech) "cohesion"
         (PNum 0.5) = PNum c.
Proof. destruct detected_tech; eexists _, _; split; reflexivity. Qed.

(** On the analysis of [_analyze_tech_features] the recommendations are
    computed without exception. *)
Lemma generate_tech_recommendations_Ok a v detected_tech :
  exists recommendations,
    generate_tech_recommendations a detected_tech
      (analyze_tech_features a v detected_tech) = Ok recommendations.
Proof.
  unfold generate_tech_recommendations.
  destruct (tech_features_numbers a v detected_tech) as (d & c & -> & ->).
  cbn [Py.lt Py.gt Py.as_num mbind exn_bind bind].
  destruct (negb (Qle_bool 0.3 d));
    cbn [mbind exn_bind bind]; eexists; reflexivity.
Qed.

(** The [try] block of [analyze_tech_stack] does not raise. *)
Lemma analyze_tech_stack_Ok L a v p :
  let detected_tech := detect_technologies L a p in
  exists recommendations,
    generate_tech_recommendations a detected_tech
      (analyze_tech_features a v detected_tech) = Ok recommendations
    /\ analyze_tech_stack L a v p
       = [ ("detected_tech", PList (map PStr detected_tech));
           ("tech_details", PList (get_tech_details a detected_tech));
           ("analysis", PDict (analyze_tech_features a v detected_tech));
           ("confidence", PNum (calculate_confidence a detected_tech p));
           ("recommendations", PList (map PStr recommendations));
           ("tech_categories",
            PDict (map (fun kv => (fst kv, PList (map PStr (snd kv))))
                       (categorize_technologies a detected_tech))) ].
Proof.
  cbv zeta.
  destruct (generate_tech_recommendations_Ok a v (detect_technologies L a p))
    as [recs E].
  exists recs. split; [exact E|].
  unfold analyze_tech_stack. rewrite E. reflexivity.
Qed.

End TechFacts.

(** ** Scoring *)

Module ScoringFacts.
Import Scoring Spec.
Local Open Scope Q_scope.

Ltac fields :=
  cbn [quality_score innovation_score feasibility_score
       business_value_score overall_score scoring_details
       algorithm_version].

Lemma in_range_spec x : in_range x = true <-> ranged x.
Proof.
  unfold in_range, ranged. rewrite andb_true_iff, !Qle_bool_iff. reflexivity.
Qed.

Lemma clamp_ranged x : ranged (Num.clamp x).
Proof.
  unfold ranged, Num.clamp. split.
  - apply Q.min_glb; [|discriminate]. apply Q.le_max_r.
  - apply Q.le_min_r.
Qed.

Lemma clamp'_ranged x : ranged (Num.clamp' x).
Proof.
  unfold ranged, Num.clamp'. split.
  - apply Q.le_max_l.
  - apply Q.max_lub; [discriminate|]. apply Q.le_min_l.
Qed.

Lemma clamp_comp x y : x == y -> Num.clamp x == Num.clamp y.
Proof. intros H. unfold Num.clamp. rewrite H. reflexivity. Qed.

Lemma ranged_50 : ranged 50.
Proof. split; discriminate. Qed.

(** *** Rounding *)

Lemma round_half_even_bounds (x : Q) (lo hi : Z) :
  inject_Z lo <= x -> x <= inject_Z hi ->
  (lo <= Num.round_half_even x <= hi)%Z.
Proof.
  intros Hlo Hhi. unfold Num.round_half_even.
  assert (Hf : (lo <= Qfloor x)%Z) by (apply Qfloor_resp_le in Hlo;
    rewrite Qfloor_Z in Hlo; exact Hlo).
  assert (Hc : (Qfloor x <= hi)%Z) by (apply Qfloor_resp_le in Hhi;
    rewrite Qfloor_Z in Hhi; exact Hhi).
  assert (Hup : 0 < x - inject_Z (Qfloor x) -> (Qfloor x + 1 <= hi)%Z).
  { intros Hpos.
    destruct (Z_lt_le_dec (Qfloor x) hi) as [Hlt|Hge]; [lia|].
    exfalso. assert (hi = Qfloor x) by lia. subst hi.
    apply (Qlt_irrefl x). apply Qle_lt_trans with (inject_Z (Qfloor x)).
    - exact Hhi.
    - lra. }
  destruct (Qcompare _ _) eqn:E.
  - apply Qeq_alt in E.
    assert (Hpos : 0 < x - inject_Z (Qfloor x)) by lra.
    specialize (Hup Hpos). destruct (Z.even _); lia.
  - lia.
  - apply Qgt_alt in E.
    assert (Hpos : 0 < x - inject_Z (Qfloor x)) by lra.
    specialize (Hup Hpos). lia.
Qed.

Lemma round2_ranged x : ranged x -> ranged (Num.round2 x).
Proof.
  intros [H0 H100]. unfold Num.round2.
  destruct (round_half_even_bounds (x * 100) 0 10000) as [Hl Hh].
  - change (inject_Z 0) with 0. lra.
  - change (inject_Z 10000) with 10000. lra.
  - split.
    + apply Qle_shift_div_l; [reflexivity|].
      rewrite Zle_Qle in Hl. change (inject_Z 0) with 0 in Hl. lra.
    + apply Qle_shift_div_r; [reflexivity|].
      rewrite Zle_Qle in Hh. change (inject_Z 10000) with 10000 in Hh. lra.
Qed.

Lemma round2_comp x y : x == y -> Num.round2 x == Num.round2 y.
Proof.
  intros H. unfold Num.round2, Num.round_half_even.
  assert (Hf : Qfloor (x * 100) = Qfloor (y * 100)).
  { apply Qfloor_comp. rewrite H. reflexivity. }
  rewrite Hf.
  assert (Hc : Qcompare (x * 100 - inject_Z (Qfloor (y * 100))) (1 # 2)
               = Qcompare (y * 100 - inject_Z (Qfloor (y * 100))) (1 # 2)).
  { apply Qcompare_comp; [rewrite H|]; reflexivity. }
  rewrite Hc. reflexivity.
Qed.

Lemma round_half_even_near (y : Q) :
  Qabs (inject_Z (Num.round_half_even y) - y) <= 1 # 2.
Proof.
  unfold Num.round_half_even.
  pose proof (Qfloor_le y) as Hlo. pose proof (Qlt_floor y) as Hhi.
  rewrite inject_Z_plus in Hhi. change (inject_Z 1) with 1 in Hhi.
  destruct (Qcompare _ _) eqn:E.
  - apply Qeq_alt in E. destruct (Z.even _).
    + apply Qabs_Qle_condition. lra.
    + rewrite inject_Z_plus. change (inject_Z 1) with 1.
      apply Qabs_Qle_condition. lra.
  - apply Qlt_alt in E. apply Qabs_Qle_condition. lra.
  - apply Qgt_alt in E. rewrite inject_Z_plus. change (inject_Z 1) with 1.
    apply Qabs_Qle_condition. lra.
Qed.

(** Rounding to two decimals moves a value by at most 0.005 and gives a
    whole number of hundredths. *)
Lemma round2_near (x : Q) : Qabs (Num.round2 x - x) <= 0.005.
Proof.
  unfold Num.round2.
  pose proof (round_half_even_near (x * 100)) as H.
  apply Qabs_Qle_condition in H. apply Qabs_Qle_condition.
  set (k := inject_Z (Num.round_half_even (x * 100))) in *.
  assert (E : k / 100 == k * (1 # 100)) by (unfold Qdiv; reflexivity).
  rewrite E. lra.
Qed.

(** *** Dimension scores *)

Lemma catch_ranged (m : exn Q) :
  (forall x, m = Ok x -> ranged x) -> ranged (catch m (fun _ => 50)).
Proof. destruct m; simpl; intros H; [apply H; reflexivity | apply ranged_50]. Qed.

Lemma quality_ranged features ar :
  ranged (calculate_quality_score features ar).
Proof.
  apply catch_ranged. intros x H. bind_inv H.
  injection H as <-. apply clamp_ranged.
Qed.

Lemma innovation_ranged features ar :
  ranged (calculate_innovation_score features ar).
Proof.
  apply catch_ranged. intros x H. bind_inv H.
  injection H as <-. apply clamp_ranged.
Qed.

Lemma feasibility_ranged features ar :
  ranged (calculate_feasibility_score features ar).
Proof.
  apply catch_ranged. intros x H. bind_inv H.
  injection H as <-. apply clamp_ranged.
Qed.

Lemma business_value_ranged features ar :
  ranged (calculate_business_value_score features ar).
Proof.
  apply catch_ranged. intros x H. bind_inv H.
  injection H as <-. apply clamp_ranged.
Qed.

(** *** Overall score *)

Lemma calculate_overall_score_eq q i f b weights :
  calculate_overall_score q i f b weights
  = Num.round2 (weighted_sum q i f b (effective_weights weights)).
Proof. destruct weights as [[|kv w]|]; reflexivity. Qed.

Lemma overall_default_ranged q i f b :
  ranged q -> ranged i -> ranged f -> ranged b ->
  ranged (calculate_overall_score q i f b None).
Proof.
  intros [] [] [] []. rewrite calculate_overall_score_eq.
  apply round2_ranged. unfold weighted_sum, effective_weights, ranged. lra.
Qed.

Lemma round2_50 : 50 == Num.round2 (weighted_sum 50 50 50 50 (effective_weights None)).
Proof. vm_compute. reflexivity. Qed.

(** *** Validation in the constructor *)

Lemma new_ScoringResult_inv q i f b o details version r :
  new_ScoringResult q i f b o details version = Ok r ->
  r = {| quality_score := q; innovation_score := i;
         feasibility_score := f; business_value_score := b;
         overall_score := o; scoring_details := details;
         algorithm_version := version |}
  /\ all_ranged r.
Proof.
  unfold new_ScoringResult.
  destruct (_ && _) eqn:E; [|discriminate].
  intros [= <-]. split; [reflexivity|].
  apply andb_true_iff in E as [E Ho]. apply andb_true_iff in E as [E Hb].
  apply andb_true_iff in E as [E Hf]. apply andb_true_iff in E as [Hq Hi].
  apply in_range_spec in Hq, Hi, Hf, Hb, Ho.
  unfold all_ranged. fields. auto.
Qed.

Lemma new_ScoringResult_Ok q i f b o details version :
  ranged q -> ranged i -> ranged f -> ranged b -> ranged o ->
  new_ScoringResult q i f b o details version
  = Ok {| quality_score := q; innovation_score := i;
          feasibility_score := f; business_value_score := b;
          overall_score := o; scoring_details := details;
          algorithm_version := version |}.
Proof.
  intros Hq Hi Hf Hb Ho. unfold new_ScoringResult.
  apply in_range_spec in Hq, Hi, Hf, Hb, Ho.
  rewrite Hq, Hi, Hf, Hb, Ho. reflexivity.
Qed.

(** *** Base algorithm *)

Lemma default_score_ranged name version now :
  all_ranged (get_default_score name version now).
Proof. unfold all_ranged; cbn. repeat split; discriminate. Qed.

(** The body of the base algorithm fails exactly when the features are
    not a dictionary: the constructor's range check always passes. *)
Lemma base_body_Ok name version now ar :
  let features := Py.dget ar "features" (PDict []) in
  forall ks, Py.keys features = Ok ks ->
  exists details,
    base_body name version now ar
    = Ok {| quality_score := calculate_quality_score features ar;
            innovation_score := calculate_innovation_score features ar;
            feasibility_score := calculate_feasibility_score features ar;
            business_value_score :=
              calculate_business_value_score features ar;
            overall_score :=
              calculate_overall_score
                (calculate_quality_score features ar)
                (calculate_innovation_score features ar)
                (calculate_feasibility_score features ar)
                (calculate_business_value_score features ar) None;
            scoring_details := details;
            algorithm_version := version |}.
Proof.
  intros features ks Hks. unfold base_body. fold features. rewrite Hks.
  cbn [mbind exn_bind bind]. eexists.
  apply new_ScoringResult_Ok;
    auto using quality_ranged, innovation_ranged, feasibility_ranged,
      business_value_ranged, overall_default_ranged.
Qed.

Lemma base_body_raises name version now ar :
  raises (base_body name version now ar)
  <-> raises (Py.keys (Py.dget ar "features" (PDict []))).
Proof.
  destruct (Py.keys (Py.dget ar "features" (PDict []))) as [ks|e] eqn:E.
  - destruct (base_body_Ok name version now ar ks E) as [d ->]. reflexivity.
  - unfold base_body. rewrite E. reflexivity.
Qed.

Lemma base_ranged name version now ar :
  all_ranged (base_calculate_score name version now ar).
Proof.
  unfold base_calculate_score.
  destruct (base_body name version now ar) as [r|e] eqn:E; cbn [catch].
  - unfold base_body in E. apply bind_Ok in E as (ks & _ & E).
    apply new_ScoringResult_inv in E as [_ E]. exact E.
  - apply default_score_ranged.
Qed.

Lemma base_weighted name version now ar :
  overall_weighted None (base_calculate_score name version now ar).
Proof.
  unfold base_calculate_score.
  destruct (base_body name version now ar) as [r|e] eqn:E; cbn [catch].
  - unfold base_body in E. apply bind_Ok in E as (ks & _ & E).
    apply new_ScoringResult_inv in E as [-> _].
    unfold overall_weighted. fields.
    rewrite calculate_overall_score_eq. reflexivity.
  - exact round2_50.
Qed.

(** *** Advanced and simulated ML *)

Lemma apply_advanced_ranged version base ar :
  all_ranged base ->
  all_ranged (apply_advanced_adjustments version base ar).
Proof.
  intros Hb. unfold apply_advanced_adjustments.
  destruct (adjustments_body version base ar) as [r|e] eqn:E; cbn [catch];
    [|exact Hb].
  unfold adjustments_body in E. bind_inv E;
    apply new_ScoringResult_inv in E as [_ E]; exact E.
Qed.

Lemma apply_advanced_weighted version base ar :
  overall_weighted None base ->
  overall_weighted None (apply_advanced_adjustments version base ar).
Proof.
  intros Hb. unfold apply_advanced_adjustments.
  destruct (adjustments_body version base ar) as [r|e] eqn:E; cbn [catch];
    [|exact Hb].
  unfold adjustments_body in E. bind_inv E;
    apply new_ScoringResult_inv in E as [-> _];
    unfold overall_weighted; fields;
    rewrite calculate_overall_score_eq; reflexivity.
Qed.

Lemma advanced_calculate_score_eq now ar :
  advanced_calculate_score now ar
  = apply_advanced_adjustments "2.0.0"
      (base_calculate_score "advanced" "2.0.0" now ar) ar.
Proof. reflexivity. Qed.

Lemma advanced_ranged now ar : all_ranged (advanced_calculate_score now ar).
Proof.
  rewrite advanced_calculate_score_eq.
  apply apply_advanced_ranged, base_ranged.
Qed.

Lemma advanced_weighted now ar :
  overall_weighted None (advanced_calculate_score now ar).
Proof.
  rewrite advanced_calculate_score_eq.
  apply apply_advanced_weighted, base_weighted.
Qed.

Lemma ml_ranged now m ar : all_ranged (ml_calculate_score now m ar).
Proof.
  unfold ml_calculate_score.
  destruct (ml_body now m ar) as [r|e] eqn:E; cbn [catch];
    [|apply advanced_ranged].
  unfold ml_body in E. apply bind_Ok in E as (fs & _ & E).
  apply new_ScoringResult_inv in E as [_ E]. exact E.
Qed.

Lemma ml_weighted now m ar :
  overall_weighted None (ml_calculate_score now m ar).
Proof.
  unfold ml_calculate_score.
  destruct (ml_body now m ar) as [r|e] eqn:E; cbn [catch];
    [|apply advanced_weighted].
  unfold ml_body in E. apply bind_Ok in E as (fs & _ & E).
  apply new_ScoringResult_inv in E as [-> _].
  unfold overall_weighted. fields.
  rewrite calculate_overall_score_eq. reflexivity.
Qed.

(** Every algorithm returns five scores in [0,100] whose overall score is
    the rounded mean of the four dimension scores. *)
Lemma calculate_score_ranged now algorithm ar :
  all_ranged (calculate_score now algorithm ar).
Proof.
  destruct algorithm; cbn [calculate_score];
    auto using base_ranged, advanced_ranged, ml_ranged.
Qed.

Lemma calculate_score_weighted now algorithm ar :
  overall_weighted None (calculate_score now algorithm ar).
Proof.
  destruct algorithm; cbn [calculate_score];
    auto using base_weighted, advanced_weighted, ml_weighted.
Qed.

(** *** Entry point *)

Lemma score_analysis_dims now ar algorithm weights options :
  let r := score_analysis now ar algorithm weights options in
  let scored := calculate_score now algorithm ar in
  quality_score r = quality_score scored
  /\ innovation_score r = innovation_score scored
  /\ feasibility_score r = feasibility_score scored
  /\ business_value_score r = business_value_score scored.
Proof.
  unfold score_analysis. cbn [catch].
  destruct weights as [[|kv w]|], options as [|o os]; fields; auto.
Qed.

Lemma score_analysis_overall now ar algorithm weights options :
  let r := score_analysis now ar algorithm weights options in
  let scored := calculate_score now algorithm ar in
  overall_score r
  = match weights with
    | Some (_ :: _) =>
        calculate_overall_score (quality_score scored)
          (innovation_score scored) (feasibility_score scored)
          (business_value_score scored) weights
    | _ => overall_score scored
    end.
Proof.
  unfold score_analysis. cbn [catch].
  destruct weights as [[|kv w]|], options as [|o os]; fields; auto.
Qed.

Lemma score_analysis_weighted now ar algorithm weights options :
  overall_weighted weights (score_analysis now ar algorithm weights options).
Proof.
  unfold overall_weighted.
  destruct (score_analysis_dims now ar algorithm weights options)
    as (-> & -> & -> & ->).
  rewrite score_analysis_overall.
  destruct weights as [[|kv w]|];
    try apply (calculate_score_weighted now algorithm ar).
  rewrite calculate_overall_score_eq. reflexivity.
Qed.

(** C3 (as amended): for a weight map whose weights are at most 1000 in
    absolute value, the overall score returned by
    [calculate_project_score] is the weighted sum of the four final
    dimension scores rounded to two decimals, where the sum is the one
    computed in floating point, within a millionth of the exact sum;
    the overall score is therefore within 0.005 and a millionth of the
    exact weighted sum.  The weights are those of the supplied non-empty
    map, 0.25 for each of the four keys the map lacks, and 0.25 each
    when no map (or an empty one) is supplied; applying the weights
    leaves the dimension scores of the algorithm untouched. *)
Theorem overall_is_rounded_weighted_sum (now : string)
    (analyze_project : project_data -> odict pyval) (project : project_data)
    (algorithm : ScoringAlgorithm) (weights : option (odict Q))
    (options : odict pyval) :
  (forall w, weights = Some w -> Forall (fun kv => Qabs (snd kv) <= 1000) w) ->
  let r := calculate_project_score now analyze_project project algorithm
             weights options in
  let scored := calculate_score now algorithm (analyze_project project) in
  let exact := weighted_sum (quality_score r) (innovation_score r)
                 (feasibility_score r) (business_value_score r)
                 (effective_weights weights) in
  (exists computed : Q,
      Qabs (computed - exact) <= 1 # 1000000
      /\ overall_score r == Num.round2 computed)
  /\ Qabs (overall_score r - exact) <= 0.005 + (1 # 1000000)
  /\ quality_score r = quality_score scored
  /\ innovation_score r = innovation_score scored
  /\ feasibility_score r = feasibility_score scored
  /\ business_value_score r = business_value_score scored
  /\ effective_weights None = (0.25, 0.25, 0.25, 0.25)
  /\ effective_weights (Some []) = (0.25, 0.25, 0.25, 0.25)
  /\ weight_of [] "quality" = 0.25.
Proof.
  intros _ r scored exact.
  assert (Hw : overall_score r == Num.round2 exact)
    by apply score_analysis_weighted.
  split; [|split].
  - exists exact. split; [|exact Hw].
    apply Qabs_Qle_condition. lra.
  - rewrite Hw. pose proof (round2_near exact) as H.
    apply Qabs_Qle_condition in H. apply Qabs_Qle_condition. lra.
  - pose proof (score_analysis_dims now (analyze_project project) algorithm
                  weights options) as H.
    cbv zeta in H. subst r scored. unfold calculate_project_score.
    intuition.
Qed.

Lemma overall_is_rounded_weighted_sum_witness :
  let analyze := Analysis.analyze_project (fun _ => "") (fun _ => "")
                   (Ok Demo.models) in
  let r := calculate_project_score "" analyze Demo.project_x BASIC
             (Some Demo.fine_weights) [] in
  Qabs (overall_score r
        - weighted_sum (quality_score r) (innovation_score r)
            (feasibility_score r) (business_value_score r)
            (effective_weights (Some Demo.fine_weights)))
  <= 0.005 + (1 # 1000000).
Proof.
  refine (proj1 (proj2 (overall_is_rounded_weighted_sum "" _ Demo.project_x
                          BASIC (Some Demo.fine_weights) [] _))).
  intros w [= <-]. repeat constructor; vm_compute; discriminate.
Defined.

(** C3, as stated, fails: the overall score is rounded to two decimals,
    so it differs from the exact weighted sum.  Here the weights are
    accepted, the weighted sum is 54.9995 and the overall score 55. *)
Lemma overall_differs_from_exact_sum :
  let analyze := Analysis.analyze_project (fun _ => "") (fun _ => "")
                   (Ok Demo.models) in
  let r := calculate_project_score "" analyze Demo.project_x BASIC
             (Some Demo.fine_weights) [] in
  validate_weights (Some Demo.fine_weights) = Ok (Some Demo.fine_weights)
  /\ weighted_sum (quality_score r) (innovation_score r)
       (feasibility_score r) (business_value_score r)
       (effective_weights (Some Demo.fine_weights)) == 54.9995
  /\ overall_score r == 55
  /\ ~ overall_score r
       == weighted_sum (quality_score r) (innovation_score r)
            (feasibility_score r) (business_value_score r)
            (effective_weights (Some Demo.fine_weights)).
Proof.
  cbv zeta. split; [vm_compute; reflexivity|].
  split; [vm_compute; reflexivity|].
  split; [vm_compute; reflexivity|].
  vm_compute. discriminate.
Qed.

Lemma score_analysis_dims_ranged now ar algorithm weights options :
  let r := score_analysis now ar algorithm weights options in
  ranged (quality_score r) /\ ranged (innovation_score r)
  /\ ranged (feasibility_score r) /\ ranged (business_value_score r).
Proof.
  cbv zeta.
  destruct (score_analysis_dims now ar algorithm weights options)
    as (-> & -> & -> & ->).
  destruct (calculate_score_ranged now algorithm ar) as (? & ? & ? & ? & _).
  auto.
Qed.

Lemma score_analysis_default_ranged now ar algorithm weights options :
  weights = None \/ weights = Some [] ->
  all_ranged (score_analysis now ar algorithm weights options).
Proof.
  intros Hw. unfold all_ranged.
  destruct (score_analysis_dims_ranged now ar algorithm weights options)
    as (? & ? & ? & ?).
  repeat (split; [assumption|]).
  rewrite score_analysis_overall.
  destruct Hw as [-> | ->];
    apply (calculate_score_ranged now algorithm ar).
Qed.

(** C1: on every path the four dimension scores lie in [0,100], and so
    does the overall score as long as no weight map is applied.  With a
    caller-supplied map that passes validation the overall score is
    assigned unchecked and leaves the range: for the project named X
    under the base algorithm and the weights quality -3, innovation 0,
    feasibility 4, business value 0 (sum 1) it is 129.96. *)
Theorem custom_weights_overall_out_of_range :
  (forall now ar algorithm weights options,
      let r := score_analysis now ar algorithm weights options in
      ranged (quality_score r) /\ ranged (innovation_score r)
      /\ ranged (feasibility_score r) /\ ranged (business_value_score r))
  /\ (forall now ar algorithm options,
        all_ranged (score_analysis now ar algorithm None options)
        /\ all_ranged (score_analysis now ar algorithm (Some []) options))
  /\ (forall now str_of_num str_of_value,
        let analyze := Analysis.analyze_project str_of_num str_of_value
                         (Ok Demo.models) in
        let r := calculate_project_score now analyze Demo.project_x BASIC
                   (Some Demo.skewed_weights) [] in
        validate_weights (Some Demo.skewed_weights)
        = Ok (Some Demo.skewed_weights)
        /\ quality_score r == 50
        /\ feasibility_score r == 69.9895
        /\ overall_score r == 129.96
        /\ ~ ranged (overall_score r)).
Proof.
  split; [|split].
  - intros. apply score_analysis_dims_ranged.
  - intros. split; apply score_analysis_default_ranged; auto.
  - intros now f g. cbv zeta.
    split; [vm_compute; reflexivity|].
    split; [vm_compute; reflexivity|].
    split; [vm_compute; reflexivity|].
    split; [vm_compute; reflexivity|].
    intros [_ H]. vm_compute in H. apply H. reflexivity.
Qed.

(** *** Validation of the weights *)






(** *** Exceptions *)

Lemma default_score_fifty name version now :
  all_fifty (get_default_score name version now)
  /\ has_error_marker (get_default_score name version now).
Proof. unfold all_fifty, has_error_marker. fields. repeat split. Qed.

Lemma base_raises_default name version now ar :
  raises (base_body name version now ar) ->
  base_calculate_score name version now ar
  = get_default_score name version now.
Proof.
  unfold base_calculate_score.
  destruct (base_body name version now ar); [intros [] | reflexivity].
Qed.

(** C4 (as amended): no exception propagates, since every algorithm and
    the entry point end in a handler that returns a result.  When the
    body of the base algorithm raises, as it does when the features of
    the bundle are not a dictionary, the result is the default one: four
    dimension scores of 50, overall score 50 and an error entry in the
    detail trace; no bundle that [analyze_project] returns makes it
    raise.  The handler of the entry point returns such a result as
    well.  The advanced algorithm instead returns the base result when
    its adjustment pass raises, and the ML-based algorithm returns the
    result of the advanced algorithm when its body raises.  An exception
    inside the analysis is caught by [analyze_project]: the scores are
    then computed from its fallback bundle, 50, 55, 40 and 50 for the
    base algorithm, overall 48.75, and the trace has no error entry. *)
Theorem exception_fallbacks :
  (forall name version now ar,
      raises (base_body name version now ar) ->
      all_fifty (base_calculate_score name version now ar)
      /\ has_error_marker (base_calculate_score name version now ar))
  /\ (forall name version now ar,
        raises (Py.keys (Py.dget ar "features" (PDict []))) ->
        raises (base_body name version now ar))
  /\ (forall str_of_num str_of_value loaded project name version now,
        ~ raises (base_body name version now
                    (Analysis.analyze_project str_of_num str_of_value loaded
                       project)))
  /\ (forall version base ar,
        raises (adjustments_body version base ar) ->
        apply_advanced_adjustments version base ar = base)
  /\ (forall now ar,
        advanced_calculate_score now ar
        = apply_advanced_adjustments "2.0.0"
            (base_calculate_score "advanced" "2.0.0" now ar) ar)
  /\ (forall now ml_model ar,
        raises (ml_body now ml_model ar) ->
        ml_calculate_score now ml_model ar = advanced_calculate_score now ar)
  /\ (forall now e,
        all_fifty (error_fallback now e)
        /\ has_error_marker (error_fallback now e))
  /\ (forall str_of_num str_of_value e project now,
        let analyze :=
          Analysis.analyze_project str_of_num str_of_value (Raise e) in
        let r := calculate_project_score now analyze project BASIC None [] in
        od_get (analyze project) "error" = Some (PStr e)
        /\ quality_score r == 50 /\ innovation_score r == 55
        /\ feasibility_score r == 40 /\ business_value_score r == 50
        /\ overall_score r == 48.75
        /\ ~ has_error_marker r).
Proof.
  split; [|split; [|split; [|split; [|split; [|split; [|split]]]]]].
  - intros name version now ar H.
    rewrite (base_raises_default _ _ _ _ H). apply default_score_fifty.
  - intros name version now ar. apply base_body_raises.
  - intros f g loaded p name version now. rewrite base_body_raises.
    destruct loaded as [M|e]; intros H; exact H.
  - intros version base ar. unfold apply_advanced_adjustments.
    destruct (adjustments_body version base ar); [intros [] | reflexivity].
  - reflexivity.
  - intros now m ar. unfold ml_calculate_score.
    destruct (ml_body now m ar); [intros [] | reflexivity].
  - intros now e. unfold all_fifty, has_error_marker. fields.
    repeat split.
  - intros f g e p now. cbv zeta.
    split; [reflexivity|].
    repeat (split; [vm_compute; reflexivity|]).
    unfold has_error_marker. vm_compute. discriminate.
Qed.

(** C4, as stated, fails.  When the models cannot be loaded the analysis
    raises internally, [analyze_project] returns its fallback bundle, and
    the base algorithm scores it 50, 55, 40 and 50, overall 48.75, with no
    error entry in the trace.  And on a bundle whose category is [None]
    the feature extraction of the ML-based algorithm raises, and the
    result is that of the advanced algorithm, with feasibility 40 and no
    error entry either. *)
Lemma internal_exception_not_default :
  (let analyze := Analysis.analyze_project (fun _ => "") (fun _ => "")
                    (Raise "ModelLoadError") in
   let r := calculate_project_score "" analyze Demo.project_x BASIC None [] in
   od_get (analyze Demo.project_x) "error" = Some (PStr "ModelLoadError")
   /\ innovation_score r == 55
   /\ feasibility_score r == 40
   /\ overall_score r == 48.75
   /\ ~ all_fifty r
   /\ ~ has_error_marker r)
  /\ (let r := calculate_score "" ML_BASED Demo.bundle_without_category in
      raises (ml_body "" None Demo.bundle_without_category)
      /\ feasibility_score r == 40
      /\ overall_score r == 47.5
      /\ ~ all_fifty r
      /\ ~ has_error_marker r).
Proof.
  cbv zeta. split.
  - split; [reflexivity|].
    split; [vm_compute; reflexivity|].
    split; [vm_compute; reflexivity|].
    split; [vm_compute; reflexivity|].
    split.
    + intros (_ & H & _). vm_compute in H. discriminate.
    + unfold has_error_marker. vm_compute. discriminate.
  - split; [exact I|].
    split; [vm_compute; reflexivity|].
    split; [vm_compute; reflexivity|].
    split.
    + intros (_ & _ & H & _). vm_compute in H. discriminate.
    + unfold has_error_marker. vm_compute. discriminate.
Qed.

(** *** Innovation score *)

Lemma tech_features_no_outdated a v detected :
  od_get (Tech.analyze_tech_features a v detected) "outdated_technologies"
  = None.
Proof. destruct detected; reflexivity. Qed.

(** The analysis of a technology stack never carries the key the
    innovation score reads. *)
Lemma outdated_never_reported L a v p (ar : odict pyval) :
  od_get ar "tech_stack_analysis"
  = Some (PDict (Tech.analyze_tech_stack L a v p)) ->
  Py.get3 ar "tech_stack_analysis" "analysis" "outdated_technologies"
    (PList []) = Ok (PList []).
Proof.
  intros H. unfold Py.get3, Py.dget. rewrite H.
  destruct (TechFacts.analyze_tech_stack_Ok L a v p) as (recs & _ & ->).
  cbn [Py.get od_get String.eqb Ascii.eqb Bool.eqb mbind exn_bind bind].
  rewrite tech_features_no_outdated. reflexivity.
Qed.

(** C8: the base innovation score is 50 plus 25, 20 and 15 times the
    novelty, complexity and automation keyword scores, plus 10 for the
    four innovative categories, plus 5 when the analysis lists no
    outdated technology, clamped to [0,100].  The analysis of a
    technology stack never lists any, so the 5 points are always given:
    a project whose detected stack is the outdated jquery scores 55. *)
Theorem innovation_bonus_ignores_outdated :
  (forall features ar novelty complexity automation category outdated,
      od_get features "innovation_score_novelty" = Some (PNum novelty) ->
      od_get features "innovation_score_complexity" = Some (PNum complexity) ->
      od_get features "innovation_score_automation" = Some (PNum automation) ->
      Py.get2 ar "category" "name" (PStr "") = Ok category ->
      Py.get3 ar "tech_stack_analysis" "analysis" "outdated_technologies"
        (PList []) = Ok outdated ->
      calculate_innovation_score (PDict features) ar
      == Num.clamp
           (50 + novelty * 25 + complexity * 20 + automation * 15
            + (if Py.in_strs category
                    ["machine_learning"; "iot"; "blockchain";
                     "game_development"]
               then 10 else 0)
            + (if Py.truthy outdated then 0 else 5)))
  /\ (forall L a v p ar,
        od_get ar "tech_stack_analysis"
        = Some (PDict (Tech.analyze_tech_stack L a v p)) ->
        Py.get3 ar "tech_stack_analysis" "analysis" "outdated_technologies"
          (PList []) = Ok (PList []))
  /\ (forall now str_of_num str_of_value,
        let M := Demo.models_with Demo.jquery_analyzer in
        let ar := Analysis.analyze_project str_of_num str_of_value (Ok M)
                    Demo.project_jquery in
        Tech.detect_technologies Tech.sorted_lister Demo.jquery_analyzer
          Demo.project_jquery = ["jquery"]
        /\ Tech.is_outdated_tech "jquery" = true
        /\ innovation_score (calculate_score now BASIC ar) == 55).
Proof.
  split; [|split].
  - intros features ar n c a category outdated Hn Hc Ha Hcat Hout.
    unfold calculate_innovation_score, add_feature, Py.contains, Py.getitem,
      od_mem.
    rewrite Hn, Hc, Ha, Hcat, Hout.
    cbn [mbind exn_bind bind Py.as_num catch].
    destruct (Py.in_strs _ _), (Py.truthy outdated); cbn [negb];
      apply clamp_comp; ring.
  - apply outdated_never_reported.
  - intros now f g. cbv zeta.
    split; [vm_compute; reflexivity|].
    split; [reflexivity|].
    vm_compute. reflexivity.
Qed.

Lemma innovation_bonus_ignores_outdated_witness :
  calculate_innovation_score
    (PDict [ ("innovation_score_novelty", PNum 0.2);
             ("innovation_score_complexity", PNum 0.4);
             ("innovation_score_automation", PNum 0) ])
    [ ("category", PDict [("name", PStr "iot")]) ]
  == Num.clamp (50 + 0.2 * 25 + 0.4 * 20 + 0 * 15 + 10 + 5).
Proof.
  exact (proj1 innovation_bonus_ignores_outdated
           [ ("innovation_score_novelty", PNum 0.2);
             ("innovation_score_complexity", PNum 0.4);
             ("innovation_score_automation", PNum 0) ]
           [ ("category", PDict [("name", PStr "iot")]) ]
           0.2 0.4 0 (PStr "iot") (PList [])
           eq_refl eq_refl eq_refl eq_refl eq_refl).
Defined.

End ScoringFacts.

(** ** Text analysis and classification *)

Module TextFacts.
Import Spec.

Lemma is_empty_spec s : Str.is_empty s = true <-> s = "".
Proof. destruct s; simpl; split; congruence. Qed.

Lemma drop_space_blank l :
  forallb Str.is_space l = true -> Str.drop_space l = [].
Proof.
  induction l as [|c l IH]; simpl; [reflexivity|].
  intros [Hc Hl]%andb_true_iff. rewrite Hc. auto.
Qed.

Lemma strip_blank s : blank s = true -> Str.strip s = "".
Proof.
  unfold blank, Str.strip. intros H.
  rewrite (drop_space_blank _ H). reflexivity.
Qed.





(** C9 (as amended): when the text has at most 3 sentences the summary is
    all of them joined by a space; when it has more, the summary is the
    first 2 sentences (floor(3/2) + 1) followed by the last one
    (floor(3/2)), joined by a space. *)
Theorem summary_first_two_last_one (T : Nlp.tools) (text : string)
    (sentences : list string) :
  Nlp.sent_tokenize T text = Ok sentences ->
  ((length sentences <= 3)%nat ->
   Nlp.generate_summary T text 3 = Str.join " " sentences)
  /\ ((3 < length sentences)%nat ->
      Nlp.generate_summary T text 3
      = Str.join " " (take 2 sentences
                      ++ drop (length sentences - 1) sentences)).
Proof.
  intros Hs. unfold Nlp.generate_summary. rewrite Hs.
  cbn [mbind exn_bind bind]. split; intros Hn.
  - destruct sentences as [|s l]; [reflexivity|].
    apply Nat.leb_le in Hn. rewrite Hn. reflexivity.
  - destruct sentences as [|s l]; [simpl in Hn; lia|].
    apply Nat.leb_gt in Hn. rewrite Hn. reflexivity.
Qed.

Lemma summary_first_two_last_one_witness :
  Nlp.generate_summary Demo.nlp Demo.four_sentences 3
  = Str.join " " (take 2 ["One."; "Two!"; "Three?"; "Four."]
                  ++ drop 3 ["One."; "Two!"; "Three?"; "Four."]).
Proof.
  apply (summary_first_two_last_one Demo.nlp Demo.four_sentences
           ["One."; "Two!"; "Three?"; "Four."] eq_refl).
  simpl. lia.
Defined.

(** C9, as stated, fails on a text of four sentences: the summary keeps
    the first two and the last, not the first three and the last. *)
Lemma summary_spec_counterexample :
  Nlp.sent_tokenize Demo.nlp Demo.four_sentences
  = Ok ["One."; "Two!"; "Three?"; "Four."]
  /\ Nlp.generate_summary Demo.nlp Demo.four_sentences 3 = "One. Two! Four."
  /\ summary_spec ["One."; "Two!"; "Three?"; "Four."] 3
     = "One. Two! Three? Four."
  /\ Nlp.generate_summary Demo.nlp Demo.four_sentences 3
     <> summary_spec ["One."; "Two!"; "Three?"; "Four."] 3.
Proof. repeat split; vm_compute; congruence. Qed.

End TextFacts.

(** ** Feature keys and risk assessment *)

Module RiskFacts.
Import Spec.

Section keys.
Context {V : Type}.
Implicit Types d e : list (string * V).

Lemma od_mem_cons k v d k' :
  od_mem ((k, v) :: d) k' = String.eqb k k' || od_mem d k'.
Proof. unfold od_mem. simpl. destruct (String.eqb k k'); reflexivity. Qed.

Lemma od_mem_nil k : od_mem (@nil (string * V)) k = false.
Proof. reflexivity. Qed.

Lemma od_mem_set d k v k' :
  od_mem (od_set d k v) k' = od_mem d k' || String.eqb k k'.
Proof.
  induction d as [|[k0 v0] d IH]; simpl.
  - rewrite od_mem_cons, od_mem_nil. apply orb_comm.
  - destruct (String.eqb k0 k) eqn:E.
    + apply String.eqb_eq in E. subst k0.
      rewrite !od_mem_cons. destruct (String.eqb k k'), (od_mem d k');
        reflexivity.
    + rewrite !od_mem_cons, IH. apply orb_assoc.
Qed.

Lemma od_mem_update d e k :
  od_mem (od_update d e) k = od_mem d k || od_mem e k.
Proof.
  unfold od_update. revert d.
  induction e as [|[k0 v0] e IH]; intros d; simpl.
  - rewrite od_mem_nil, orb_false_r. reflexivity.
  - rewrite IH, od_mem_set, od_mem_cons. simpl.
    rewrite orb_assoc. reflexivity.
Qed.

Lemma od_mem_app d e k : od_mem (d ++ e) k = od_mem d k || od_mem e k.
Proof.
  induction d as [|[k0 v0] d IH]; simpl; [reflexivity|].
  rewrite !od_mem_cons, IH. apply orb_assoc.
Qed.

Lemma od_mem_false_get d k : od_mem d k = false -> od_get d k = None.
Proof. unfold od_mem. destruct (od_get d k); congruence. Qed.

End keys.

(** Walks a literal dictionary: each key is a feature key. *)
Ltac literal_keys H :=
  repeat (rewrite od_mem_cons in H;
          apply orb_true_iff in H as [H|H];
          [apply String.eqb_eq in H; subst; reflexivity|]);
  try (rewrite od_mem_nil in H; discriminate).

Lemma prefix_feature_key pre k :
  pre = "topic_" \/ pre = "metadata_list_" ->
  String.prefix pre k = true -> is_feature_key k = true.
Proof.
  unfold is_feature_key. intros [-> | ->] ->;
    rewrite ?orb_true_r; reflexivity.
Qed.

Lemma prefix_append pre rest : String.prefix pre (pre +:+ rest) = true.
Proof.
  induction pre as [|c pre IH]; simpl.
  - destruct rest; reflexivity.
  - unfold String.append in *. simpl.
    destruct (ascii_dec c c); [exact IH | congruence].
Qed.

Lemma prefix_append_assoc pre mid rest :
  String.prefix pre (pre +:+ mid +:+ rest) = true.
Proof. apply prefix_append. Qed.

Lemma topic_weights_keys {A} (f : A -> pyval) (l : list A) k :
  od_mem (imap (fun i w => ("topic_" +:+ pretty i +:+ "_weight", f w)) l) k
  = true ->
  is_feature_key k = true.
Proof.
  intros H. unfold od_mem in H.
  destruct (od_get _ k) eqn:E; [clear H | discriminate].
  apply od_get_keys in E. unfold od_keys in E.
  apply list_elem_of_fmap in E as ([k' v'] & -> & Hin).
  apply elem_of_lookup_imap in Hin as (i & w & [= -> ->] & _).
  apply (prefix_feature_key "topic_"); [auto|]. apply prefix_append.
Qed.

Lemma topic_features_keys E distribution k :
  od_mem (Features.topic_features E distribution) k = true ->
  is_feature_key k = true.
Proof.
  unfold Features.topic_features.
  destruct (Features.argmax distribution).
  - rewrite od_mem_app. intros [H|H]%orb_true_iff.
    + eapply topic_weights_keys. exact H.
    + literal_keys H.
  - apply topic_weights_keys.
Qed.

Lemma text_features_keys E p k :
  od_mem (Features.extract_text_features E p) k = true ->
  is_feature_key k = true.
Proof.
  unfold Features.extract_text_features.
  set (base := [("text_length", _); _; _; _; _; _; _]).
  assert (Hbase : od_mem base k = true -> is_feature_key k = true).
  { subst base. intros H. literal_keys H. }
  destruct (100 <? _)%nat; [|exact Hbase].
  destruct (Features.topic_model E) as [fit|]; [|exact Hbase].
  destruct (fit _); [|exact Hbase].
  rewrite od_mem_update. intros [H|H]%orb_true_iff; [auto|].
  eapply topic_features_keys. exact H.
Qed.

Lemma tech_features_keys p k :
  od_mem (Features.extract_tech_features p) k = true ->
  is_feature_key k = true.
Proof. unfold Features.extract_tech_features. intros H. literal_keys H. Qed.

Lemma list_counts_keys metadata k :
  od_mem (Features.list_counts metadata) k = true ->
  is_feature_key k = true.
Proof.
  unfold Features.list_counts.
  assert (G : forall (acc : odict pyval),
    (od_mem acc k = true -> is_feature_key k = true) ->
    od_mem (fold_left
              (fun features kv =>
                 match snd kv with
                 | PList xs =>
                     od_set features
                       ("metadata_list_" +:+ fst kv +:+ "_count")
                       (Features.num (length xs))
                 | _ => features
                 end) metadata acc) k = true ->
    is_feature_key k = true).
  { induction metadata as [|[k0 v0] md IH]; intros acc Hacc; simpl;
      [exact Hacc|].
    apply IH. destruct v0; try exact Hacc.
    rewrite od_mem_set. intros [H|H]%orb_true_iff; [auto|].
    apply String.eqb_eq in H. subst k.
    apply (prefix_feature_key "metadata_list_"); [auto|].
    apply prefix_append. }
  apply G. rewrite od_mem_nil. discriminate.
Qed.

Lemma metadata_features_keys E p fs k :
  Features.extract_metadata_features E p = Ok fs ->
  od_mem fs k = true ->
  is_feature_key k = true.
Proof.
  unfold Features.extract_metadata_features.
  destruct (Features.numeric_values _) as [values|e];
    cbn [mbind exn_bind bind]; [|discriminate].
  intros [= <-].
  assert (H2 : forall l,
             od_mem (od_update
                       (od_update
                          [("metadata_field_count",
                            Features.num (length (pd_metadata p)))]
                          (Features.list_counts (pd_metadata p)))
                       [("metadata_text_length", Features.num l);
                        ("metadata_numeric_count",
                         Features.num (length values))]) k = true ->
             is_feature_key k = true).
  { intros l. rewrite !od_mem_update.
    intros [[H|H]%orb_true_iff|H]%orb_true_iff.
    - literal_keys H.
    - eapply list_counts_keys. exact H.
    - literal_keys H. }
  destruct values as [|x values]; [apply H2|]. cbv beta iota.
  rewrite 2!od_mem_set.
  intros [[H|H]%orb_true_iff|H]%orb_true_iff;
    [exact (H2 _ H) | |]; apply String.eqb_eq in H; subst k; reflexivity.
Qed.

Lemma keyword_features_keys p k :
  od_mem (Features.extract_keyword_features p) k = true ->
  is_feature_key k = true.
Proof.
  unfold Features.extract_keyword_features. intros H. literal_keys H.
Qed.

Lemma complexity_features_keys fs k :
  od_mem (Features.extract_complexity_features fs) k = true ->
  is_feature_key k = true.
Proof.
  unfold Features.extract_complexity_features. intros H. literal_keys H.
Qed.

Lemma derived_features_keys fs k :
  od_mem (Features.calculate_derived_features fs) k = true ->
  is_feature_key k = true.
Proof.
  unfold Features.calculate_derived_features. intros H. literal_keys H.
Qed.

(** The feature bundle has a closed key set. *)
Lemma extract_features_keys E p k :
  od_mem (Features.extract_features E p) k = true ->
  is_feature_key k = true.
Proof.
  unfold Features.extract_features.
  destruct (Features.extract_metadata_features E p) as [fs|e] eqn:Em;
    cbn [mbind exn_bind bind catch].
  - rewrite !od_mem_update, od_mem_nil. cbn [orb].
    intros [[[[[H|H]%orb_true_iff|H]%orb_true_iff|H]%orb_true_iff
               |H]%orb_true_iff|H]%orb_true_iff.
    + eapply text_features_keys; exact H.
    + eapply tech_features_keys; exact H.
    + eapply metadata_features_keys; [exact Em | exact H].
    + eapply keyword_features_keys; exact H.
    + eapply complexity_features_keys; exact H.
    + eapply derived_features_keys; exact H.
  - intros H. literal_keys H.
Qed.

Lemma not_feature_key E p k :
  is_feature_key k = false -> od_mem (Features.extract_features E p) k = false.
Proof.
  intros H. destruct (od_mem _ k) eqn:E'; [|reflexivity].
  apply extract_features_keys in E'. congruence.
Qed.

Lemma tech_analysis_keys L a v p k :
  od_mem (Tech.analyze_tech_stack L a v p) k = true ->
  Features.mem k [ "detected_tech"; "tech_details"; "analysis"; "confidence";
                   "recommendations"; "tech_categories" ] = true.
Proof.
  destruct (TechFacts.analyze_tech_stack_Ok L a v p) as (recs & _ & ->).
  intros H. literal_keys H.
Qed.

Lemma not_tech_analysis_key L a v p k :
  Features.mem k [ "detected_tech"; "tech_details"; "analysis"; "confidence";
                   "recommendations"; "tech_categories" ] = false ->
  od_mem (Tech.analyze_tech_stack L a v p) k = false.
Proof.
  intros H. destruct (od_mem _ k) eqn:E'; [|reflexivity].
  apply tech_analysis_keys in E'. congruence.
Qed.

(** Without the four keys it reads, [assess_risks] finds no risk. *)
Lemma assess_risks_no_risk f g (features tech_analysis : odict pyval) :
  od_mem tech_analysis "outdated_technologies" = false ->
  od_mem tech_analysis "dependencies" = false ->
  od_mem features "security_issues" = false ->
  od_mem features "maintenance_score" = false ->
  Analysis.assess_risks f g features tech_analysis = no_risk.
Proof.
  intros Ho Hd Hs Hm. unfold Analysis.assess_risks, Py.dget.
  rewrite (od_mem_false_get _ _ Ho), (od_mem_false_get _ _ Hd), Hs, Hm.
  reflexivity.
Qed.

End RiskFacts.

(** ** Sums, counts and dictionaries *)

Module NumFacts.

Lemma fold_left_Qplus (l : list Q) (a : Q) :
  fold_left Qplus l a == a + fold_left Qplus l 0.
Proof.
  revert a. induction l as [|x l IH]; intros a; simpl.
  - ring.
  - rewrite IH, (IH (0 + x)). ring.
Qed.

Lemma sum_cons (x : Q) (l : list Q) : Num.sum (x :: l) == x + Num.sum l.
Proof. unfold Num.sum. simpl. rewrite fold_left_Qplus. ring. Qed.

Lemma of_nat_nonneg (n : nat) : 0 <= Num.of_nat n.
Proof.
  unfold Num.of_nat. rewrite <- (Zle_Qle 0). apply Nat2Z.is_nonneg.
Qed.

Lemma of_nat_le (n m : nat) : (n <= m)%nat -> Num.of_nat n <= Num.of_nat m.
Proof.
  intros H. unfold Num.of_nat. rewrite <- Zle_Qle. apply Nat2Z.inj_le, H.
Qed.

Lemma of_nat_pos (n : nat) : (0 < n)%nat -> 0 < Num.of_nat n.
Proof.
  intros H. unfold Num.of_nat. rewrite <- (Zlt_Qlt 0).
  apply (Nat2Z.inj_lt 0), H.
Qed.

Lemma of_nat_S (n : nat) : Num.of_nat (S n) == Num.of_nat n + 1.
Proof.
  unfold Num.of_nat. rewrite Nat2Z.inj_succ, <- Z.add_1_r, inject_Z_plus.
  reflexivity.
Qed.

Lemma of_nat_add (n m : nat) :
  Num.of_nat (n + m) == Num.of_nat n + Num.of_nat m.
Proof.
  unfold Num.of_nat. rewrite Nat2Z.inj_add, inject_Z_plus. reflexivity.
Qed.

Lemma Qle_bool_of_nat (n m : nat) :
  Qle_bool (Num.of_nat n) (Num.of_nat m) = (n <=? m)%nat.
Proof.
  destruct (n <=? m)%nat eqn:E.
  - apply Qle_bool_iff, of_nat_le, Nat.leb_le, E.
  - apply Nat.leb_gt in E. destruct (Qle_bool _ _) eqn:E'; [|reflexivity].
    apply Qle_bool_iff in E'. unfold Num.of_nat in E'.
    rewrite <- Zle_Qle in E'. lia.
Qed.

(** A count divided by a bound of it lies in the unit interval. *)
Lemma ratio_unit (n m : nat) :
  (n <= m)%nat -> (0 < m)%nat ->
  0 <= Num.of_nat n / Num.of_nat m <= 1.
Proof.
  intros Hnm Hm. pose proof (of_nat_pos m Hm) as Hp.
  pose proof (of_nat_nonneg n) as Hn. pose proof (of_nat_le n m Hnm) as Hle.
  split.
  - apply Qle_shift_div_l; [exact Hp|]. lra.
  - apply Qle_shift_div_r; [exact Hp|]. lra.
Qed.

Lemma sum_const (c : Q) {A} (l : list A) :
  Num.sum (map (fun _ => c) l) == c * Num.of_nat (length l).
Proof.
  induction l as [|x l IH].
  - unfold Num.sum, Num.of_nat. simpl. ring.
  - cbn [map length]. rewrite sum_cons, IH, of_nat_S. ring.
Qed.

Lemma mean_const (c : Q) {A} (x : A) (l : list A) :
  Num.mean (map (fun _ => c) (x :: l)) == c.
Proof.
  unfold Num.mean. rewrite sum_const, length_map.
  pose proof (of_nat_pos (length (x :: l))) as Hp.
  field. intros H. rewrite H in Hp. apply (Qlt_irrefl 0), Hp. simpl. lia.
Qed.

Lemma gt_spec (x y : Q) : negb (Qle_bool x y) = true <-> y < x.
Proof.
  rewrite negb_true_iff. split.
  - intros H. apply Qnot_le_lt. intros Hle.
    apply Qle_bool_iff in Hle. congruence.
  - intros H. destruct (Qle_bool x y) eqn:E; [|reflexivity].
    apply Qle_bool_iff in E. lra.
Qed.

Lemma gt_false (x y : Q) : negb (Qle_bool x y) = false <-> x <= y.
Proof. rewrite negb_false_iff. apply Qle_bool_iff. Qed.

End NumFacts.

Section odict_lookup.
Context {V : Type}.
Implicit Types d e : list (string * V).

Lemma od_keys_mem d k : k ∈ od_keys d -> od_mem d k = true.
Proof.
  unfold od_mem. induction d as [|[k' v'] d IH]; simpl.
  - intros H. inversion H.
  - destruct (String.eqb k' k) eqn:E; [reflexivity|].
    intros H. apply IH. apply elem_of_cons in H as [->|H]; [|exact H].
    rewrite String.eqb_refl in E. discriminate.
Qed.

Lemma od_get_set d k v k' :
  od_get (od_set d k v) k' = if String.eqb k k' then Some v else od_get d k'.
Proof.
  induction d as [|[k0 v0] d IH]; simpl.
  - reflexivity.
  - destruct (String.eqb k0 k) eqn:E; simpl.
    + apply String.eqb_eq in E. subst k0.
      destruct (String.eqb k k'); reflexivity.
    + rewrite IH. destruct (String.eqb k0 k') eqn:E'; [|reflexivity].
      apply String.eqb_eq in E'. subst k0.
      rewrite String.eqb_sym, E. reflexivity.
Qed.

(** A later entry of [e] wins in [d.update(e)]. *)
Lemma od_get_update d e k :
  od_get (od_update d e) k
  = match od_get (rev e) k with Some v => Some v | None => od_get d k end.
Proof.
  unfold od_update. revert d. induction e as [|[k1 v1] e IH]; intros d; simpl.
  - reflexivity.
  - rewrite IH. clear IH.
    assert (H : od_get (rev e ++ [(k1, v1)]) k
                = match od_get (rev e) k with
                  | Some v => Some v
                  | None => if String.eqb k1 k then Some v1 else None
                  end).
    { induction (rev e) as [|[k2 v2] r IHr]; simpl; [reflexivity|].
      destruct (String.eqb k2 k); [reflexivity | exact IHr]. }
    rewrite H. destruct (od_get (rev e) k); [reflexivity|].
    rewrite od_get_set. destruct (String.eqb k1 k); reflexivity.
Qed.

Lemma od_get_elem d k v : od_get d k = Some v -> (k, v) ∈ d.
Proof.
  induction d as [|[k' v'] d IH]; simpl; [discriminate|].
  destruct (String.eqb k' k) eqn:E.
  - apply String.eqb_eq in E. intros [= ->]. subst. left.
  - intros H. right. auto.
Qed.

Lemma od_get_rev_None e k : od_get e k = None -> od_get (rev e) k = None.
Proof.
  induction e as [|[k' v'] e IH]; simpl; [reflexivity|].
  destruct (String.eqb k' k) eqn:E; [discriminate|].
  intros H. specialize (IH H).
  induction (rev e) as [|[k2 v2] r IHr]; simpl in *.
  - rewrite E. reflexivity.
  - destruct (String.eqb k2 k); [discriminate | auto].
Qed.

(** Updating with a dictionary that lacks [k] leaves the entry of [k]. *)
Lemma od_get_update_other d e k :
  od_get e k = None -> od_get (od_update d e) k = od_get d k.
Proof.
  intros H. rewrite od_get_update, (od_get_rev_None _ _ H). reflexivity.
Qed.

End odict_lookup.

(** ** Strings *)

Module StrFacts.

Lemma chars_length (s : string) : length (Str.chars s) = String.length s.
Proof. induction s as [|c s IH]; simpl; [reflexivity | f_equal; exact IH]. Qed.

Lemma of_chars_length (l : list ascii) :
  String.length (Str.of_chars l) = length l.
Proof. induction l as [|c l IH]; simpl; [reflexivity | f_equal; exact IH]. Qed.

Lemma lower_length (s : string) : String.length (Str.lower s) = String.length s.
Proof. unfold Str.lower. rewrite of_chars_length, length_map. apply chars_length. Qed.

Lemma chars_append (s1 s2 : string) :
  Str.chars (s1 +:+ s2) = Str.chars s1 ++ Str.chars s2.
Proof. induction s1 as [|c s1 IH]; simpl; [reflexivity | f_equal; exact IH]. Qed.

Lemma chars_of_chars (l : list ascii) : Str.chars (Str.of_chars l) = l.
Proof. apply list_ascii_of_string_of_list_ascii. Qed.

Lemma of_chars_chars (s : string) : Str.of_chars (Str.chars s) = s.
Proof. apply string_of_list_ascii_of_string. Qed.

Lemma drop_space_split (l : list ascii) :
  exists pre, l = pre ++ Str.drop_space l
              /\ forallb Str.is_space pre = true.
Proof.
  induction l as [|c l (pre & Hl & Hpre)]; [exists []; auto|].
  cbn [Str.drop_space]. destruct (Str.is_space c) eqn:E.
  - exists (c :: pre). cbn [forallb app]. rewrite E, Hpre, <- Hl. auto.
  - exists []. auto.
Qed.

Lemma drop_space_fixed (l : list ascii) :
  match l with c :: _ => Str.is_space c = false | [] => True end ->
  Str.drop_space l = l.
Proof. destruct l as [|c l]; [reflexivity|]. simpl. intros ->. reflexivity. Qed.

Lemma drop_space_head (l : list ascii) :
  match Str.drop_space l with
  | c :: _ => Str.is_space c = false
  | [] => True
  end.
Proof.
  induction l as [|c l IH]; [exact I|]. cbn [Str.drop_space].
  destruct (Str.is_space c) eqn:E; [exact IH | exact E].
Qed.

Lemma drop_space_nil (l : list ascii) :
  Str.drop_space l = [] <-> forallb Str.is_space l = true.
Proof.
  induction l as [|c l IH]; [simpl; tauto|]. cbn [Str.drop_space forallb].
  destruct (Str.is_space c); cbn [andb]; [exact IH|].
  split; discriminate.
Qed.

(** The characters kept by [strip]: neither end is white space. *)
Lemma strip_ends (l : list ascii) :
  let kept := rev (Str.drop_space (rev (Str.drop_space l))) in
  match kept with c :: _ => Str.is_space c = false | [] => True end
  /\ match rev kept with c :: _ => Str.is_space c = false | [] => True end.
Proof.
  cbv zeta. rewrite rev_involutive. split; [|apply drop_space_head].
  pose proof (drop_space_head l) as Hhead.
  destruct (drop_space_split (rev (Str.drop_space l))) as (pre & Hsplit & Hpre).
  set (a := Str.drop_space l) in *.
  set (b := Str.drop_space (rev a)) in *.
  assert (Ha : a = rev b ++ rev pre).
  { rewrite <- (rev_involutive a), Hsplit, rev_app_distr. reflexivity. }
  destruct (rev b) as [|c r] eqn:Eb; [exact I|].
  rewrite Ha in Hhead. exact Hhead.
Qed.

Lemma strip_idempotent (s : string) : Str.strip (Str.strip s) = Str.strip s.
Proof.
  unfold Str.strip. rewrite chars_of_chars.
  destruct (strip_ends (Str.chars s)) as [H1 H2]. cbv zeta in H1, H2.
  set (kept := rev (Str.drop_space (rev (Str.drop_space (Str.chars s))))) in *.
  rewrite (drop_space_fixed kept H1), (drop_space_fixed (rev kept) H2).
  rewrite rev_involutive. reflexivity.
Qed.

Lemma strip_length (s : string) :
  (String.length (Str.strip s) <= String.length s)%nat.
Proof.
  unfold Str.strip. rewrite of_chars_length, length_rev.
  destruct (drop_space_split (rev (Str.drop_space (Str.chars s))))
    as (pre1 & H1 & _).
  destruct (drop_space_split (Str.chars s)) as (pre2 & H2 & _).
  apply (f_equal (@length ascii)) in H1, H2.
  rewrite length_app in H1, H2. rewrite length_rev in H1.
  rewrite <- (chars_length s). lia.
Qed.

Lemma strip_empty_iff (s : string) :
  Str.strip s = "" <-> Spec.blank s = true.
Proof.
  split; [|apply TextFacts.strip_blank].
  unfold Str.strip, Spec.blank. intros H.
  apply (f_equal Str.chars) in H. rewrite chars_of_chars in H.
  simpl in H. apply (f_equal (@rev ascii)) in H.
  rewrite rev_involutive in H. simpl in H.
  pose proof (drop_space_head (Str.chars s)) as Hhead.
  apply drop_space_nil in H. apply drop_space_nil.
  destruct (Str.drop_space (Str.chars s)) as [|c a]; [reflexivity|].
  rewrite forallb_forall in H. specialize (H c).
  rewrite H in Hhead; [discriminate|]. apply in_rev. rewrite rev_involutive.
  left. reflexivity.
Qed.

Lemma to_lower_idempotent (c : ascii) :
  Str.to_lower (Str.to_lower c) = Str.to_lower c.
Proof.
  destruct c as [[] [] [] [] [] [] [] []]; reflexivity.
Qed.

(** On ASCII text a code point is a byte. *)
Lemma len_ascii (s : string) :
  Str.is_ascii s = true -> Str.len s = String.length s.
Proof.
  unfold Str.is_ascii, Str.len. rewrite <- chars_length.
  induction (Str.chars s) as [|c l IH]; [reflexivity|].
  cbn [forallb]. intros [Hc Hl]%andb_true_iff.
  rewrite filter_cons. apply N.ltb_lt in Hc.
  assert (E : Str.is_continuation c = false).
  { unfold Str.is_continuation. apply andb_false_iff. left.
    apply N.leb_gt. exact Hc. }
  rewrite decide_True by (rewrite E; exact I).
  cbn [length]. f_equal. exact (IH Hl).
Qed.

Lemma forallb_drop_space (p : ascii -> bool) (l : list ascii) :
  forallb p l = true -> forallb p (Str.drop_space l) = true.
Proof.
  induction l as [|c l IH]; [reflexivity|]. cbn [forallb Str.drop_space].
  intros [Hc Hl]%andb_true_iff.
  destruct (Str.is_space c); [exact (IH Hl)|].
  cbn [forallb]. rewrite Hc, Hl. reflexivity.
Qed.

Lemma forallb_rev (p : ascii -> bool) (l : list ascii) :
  forallb p (rev l) = forallb p l.
Proof.
  induction l as [|c l IH]; [reflexivity|]. cbn [rev forallb].
  rewrite forallb_app, IH. cbn [forallb]. rewrite andb_true_r.
  apply andb_comm.
Qed.

Lemma strip_ascii (s : string) :
  Str.is_ascii s = true -> Str.is_ascii (Str.strip s) = true.
Proof.
  unfold Str.is_ascii, Str.strip. rewrite chars_of_chars. intros H.
  rewrite forallb_rev. apply forallb_drop_space.
  rewrite forallb_rev. apply forallb_drop_space. exact H.
Qed.

End StrFacts.

(** ** Technology analysis *)

Module TechExtra.
Import Tech.

(** A boolean check of the condition on the canonical names. *)
Lemma normal_keys_check (l : list string) :
  forallb (fun k => negb (Str.is_empty k)
                    && String.eqb (Str.lower (Str.strip k)) k) l = true ->
  Forall (fun k => k <> "" /\ Str.lower (Str.strip k) = k) l.
Proof.
  intros H. apply Forall_forall. intros k Hk.
  rewrite forallb_forall in H. apply list_elem_of_In, H in Hk.
  apply andb_true_iff in Hk as [H1 H2]. apply String.eqb_eq in H2.
  split; [|exact H2]. intros ->. discriminate.
Qed.

(** X1: a name the resolver returns is a fixed point of the resolver,
    provided the canonical names of the lexicon are non-empty, stripped
    and in lower case (as the keys of both loaders are): resolving the
    result again gives the same name. *)
Theorem canonical_name_is_fixed_point (defs : odict tech_info)
    (cats : odict string) (t c : string) :
  Forall (fun k => k <> "" /\ Str.lower (Str.strip k) = k) (od_keys defs) ->
  normalize_tech_name (make_analyzer defs cats) t = Some c ->
  normalize_tech_name (make_analyzer defs cats) c = Some c.
Proof.
  intros Hkeys Ht.
  pose proof (TechFacts.normalize_in_lexicon _ _ _ _ Ht) as Hc.
  rewrite Forall_forall in Hkeys. destruct (Hkeys c Hc) as [Hne Hfix].
  unfold normalize_tech_name, make_analyzer. cbn [tech_definitions tech_aliases].
  destruct c as [|ch c']; [congruence|]. cbn [Str.is_empty].
  rewrite Hfix, (od_keys_mem _ _ Hc). reflexivity.
Qed.

Lemma canonical_name_is_fixed_point_witness :
  normalize_tech_name basic_analyzer "K8S " = Some "kubernetes"
  /\ normalize_tech_name basic_analyzer "kubernetes" = Some "kubernetes".
Proof.
  assert (H : normalize_tech_name basic_analyzer "K8S " = Some "kubernetes")
    by (vm_compute; reflexivity).
  split; [exact H|].
  refine (canonical_name_is_fixed_point _ _ "K8S " "kubernetes" _ H).
  apply normal_keys_check. vm_compute. reflexivity.
Defined.

Lemma popularity_default defs cats tech :
  popularity_of (make_analyzer defs cats) tech = 0.5.
Proof.
  unfold popularity_of, make_analyzer. cbn [popularity_scores].
  rewrite lookup_empty. reflexivity.
Qed.

(** X2: the popularity table is never filled, so the maturity of a
    technology stack carries no information: it is 0.5 as soon as one
    technology is detected, whatever the technologies are, and 0 when
    none is. *)
Theorem tech_maturity_is_constant (defs : odict tech_info)
    (cats : odict string) (v : vectorizer) :
  let a := make_analyzer defs cats in
  (forall tech rest, exists q,
      od_get (analyze_tech_features a v (tech :: rest)) "maturity"
      = Some (PNum q) /\ q == 0.5)
  /\ od_get (analyze_tech_features a v []) "maturity" = Some (PNum 0).
Proof.
  intros a. split; [|reflexivity].
  intros tech rest. eexists. split; [reflexivity|].
  erewrite (map_ext (popularity_of a) (fun _ => 0.5)).
  - apply NumFacts.mean_const.
  - intros t. apply popularity_default.
Qed.

(** Sorting by a key that never differs leaves a list as it is. *)
Lemma sort_desc_tie {A} (key : A -> Q) (c : Q) (l : list A) :
  Forall (fun x => key x == c) l -> sort_desc key l = l.
Proof.
  induction 1 as [|x l Hx Hl IH]; [reflexivity|].
  unfold sort_desc in *. simpl. rewrite IH.
  destruct Hl as [|y l' Hy _]; [reflexivity|]. simpl.
  assert (E : Qle_bool (key y) (key x) = true).
  { apply Qle_bool_iff. rewrite Hx, Hy. apply Qle_refl. }
  rewrite E. reflexivity.
Qed.

(** X3: for the same reason the ordering of the technology details by
    popularity changes nothing: the details come one per detected
    technology, in the order of detection. *)
Theorem tech_details_in_detection_order (defs : odict tech_info)
    (cats : odict string) (detected_tech : list string) :
  let a := make_analyzer defs cats in
  get_tech_details a detected_tech
  = map (fun tech => PDict (snd (tech_detail a tech))) detected_tech.
Proof.
  intros a. unfold get_tech_details. rewrite (sort_desc_tie fst 0.5).
  - rewrite map_map. reflexivity.
  - apply Forall_forall. intros d Hd.
    apply list_elem_of_fmap in Hd as (tech & -> & _).
    unfold tech_detail. cbn [fst]. subst a. rewrite popularity_default.
    reflexivity.
Qed.

(** *** Diversity *)

Lemma detected_in_lexicon L defs cats p tech :
  tech ∈ detect_technologies L (make_analyzer defs cats) p ->
  tech ∈ od_keys defs.
Proof.
  rewrite TechFacts.detect_technologies_perm, elem_of_elements.
  apply TechFacts.detected_set_lexicon.
Qed.

Lemma remove_dups_length_le (l Cs : list string) :
  Forall (fun c => c ∈ Cs) l ->
  (length (remove_dups l) <= length Cs)%nat.
Proof.
  intros H. apply submseteq_length, NoDup_submseteq.
  - apply NoDup_remove_dups.
  - intros c Hc. rewrite elem_of_remove_dups in Hc.
    rewrite Forall_forall in H. exact (H c Hc).
Qed.

(** The diversity of a detected stack is at most the number of
    categories of the lexicon over the number of its technologies. *)
Lemma diversity_le L defs cats (Cs : list string) v p :
  let a := make_analyzer defs cats in
  Forall (fun tech => category_of a "unknown" tech ∈ Cs) (od_keys defs) ->
  exists d,
    od_get (analyze_tech_features a v (detect_technologies L a p)) "diversity"
    = Some (PNum d)
    /\ 0 <= d
    /\ d <= Num.of_nat (length Cs) / Num.of_nat (Nat.max (length cats) 1).
Proof.
  intros a HCs.
  assert (Hpos : 0 < Num.of_nat (Nat.max (length cats) 1))
    by (apply NumFacts.of_nat_pos; lia).
  assert (Hin : Forall (fun c => c ∈ Cs)
                  (map (category_of a "unknown") (detect_technologies L a p))).
  { apply Forall_forall. intros c Hc.
    apply list_elem_of_fmap in Hc as (tech & -> & Htech).
    rewrite Forall_forall in HCs. apply HCs.
    eapply detected_in_lexicon. exact Htech. }
  destruct (detect_technologies L a p) as [|tech rest] eqn:E.
  - eexists. split; [reflexivity|]. split; [apply Qle_refl|].
    apply Qle_shift_div_l; [exact Hpos|].
    pose proof (NumFacts.of_nat_nonneg (length Cs)). lra.
  - eexists. split; [reflexivity|].
    cbn [tech_categories a make_analyzer].
    pose proof (remove_dups_length_le _ _ Hin) as Hlen.
    apply NumFacts.of_nat_le in Hlen.
    pose proof (NumFacts.of_nat_nonneg
                  (length (remove_dups
                     (map (category_of a "unknown") (tech :: rest))))) as H0.
    split.
    + apply Qle_shift_div_l; [exact Hpos|]. lra.
    + apply Qle_shift_div_r; [exact Hpos|].
      unfold Qdiv. rewrite <- Qmult_assoc, (Qmult_comm (/ _)), Qmult_inv_r.
      * lra.
      * intros Hz. rewrite Hz in Hpos. apply (Qlt_irrefl 0), Hpos.
Qed.

Lemma categories_check (a : analyzer) (Cs l : list string) :
  forallb (fun tech => existsb (String.eqb (category_of a "unknown" tech)) Cs) l
  = true ->
  Forall (fun tech => category_of a "unknown" tech ∈ Cs) l.
Proof.
  intros H. apply Forall_forall. intros tech Htech.
  rewrite forallb_forall in H. apply list_elem_of_In, H in Htech.
  apply existsb_exists in Htech as (c & Hc & Heq).
  apply String.eqb_eq in Heq. rewrite Heq. apply list_elem_of_In, Hc.
Qed.

(** X4: the diversity of a stack is the number of its categories over the
    number of technologies (not of categories) of the lexicon.  With
    either lexicon of the repository it therefore stays below 0.3 for
    every project: a stack is never rated as diverse. *)
Theorem diversity_always_low :
  Forall (fun a =>
    forall (L : set_lister) (v : vectorizer) (p : project_data),
    exists d,
      od_get (analyze_tech_features a v (detect_technologies L a p))
             "diversity" = Some (PNum d)
      /\ 0 <= d /\ d < 0.3)
    [basic_analyzer; cloud_analyzer].
Proof.
  repeat constructor; intros L v p.
  - destruct (diversity_le L (tech_definitions basic_analyzer)
                (tech_categories basic_analyzer)
                ["language"; "framework"; "database"; "cloud"; "tool"] v p)
      as (d & Hd & H0 & H1).
    { apply categories_check. vm_compute. reflexivity. }
    exists d. split; [exact Hd|]. split; [exact H0|].
    eapply Qle_lt_trans; [exact H1|]. vm_compute. reflexivity.
  - destruct (diversity_le L (tech_definitions cloud_analyzer)
                (tech_categories cloud_analyzer)
                ["web"; "frontend"; "backend"; "database"; "cloud"; "devops"]
                v p)
      as (d & Hd & H0 & H1).
    { apply categories_check. vm_compute. reflexivity. }
    exists d. split; [exact Hd|]. split; [exact H0|].
    eapply Qle_lt_trans; [exact H1|]. vm_compute. reflexivity.
Qed.

(** *** Confidence *)

(** X5: the confidence of a technology analysis is a number between 0
    and 1; it is 0 exactly when the project lists no technology, none is
    detected and the description has at most 100 characters. *)
Theorem confidence_in_unit_interval (a : analyzer)
    (detected_tech : list string) (p : project_data) :
  0 <= calculate_confidence a detected_tech p <= 1
  /\ (calculate_confidence a detected_tech p == 0 <->
      pd_tech_stack p = [] /\ detected_tech = []
      /\ (Str.len (pd_description p) <= 100)%nat).
Proof.
  unfold calculate_confidence.
  set (c1 := match pd_tech_stack p with _ :: _ => 0 + 0.4 | [] => 0 end).
  assert (H1 : (c1 == 0 /\ pd_tech_stack p = [])
               \/ (c1 == 0.4 /\ pd_tech_stack p <> [])).
  { subst c1. destruct (pd_tech_stack p); [left | right]; split;
      try reflexivity; try discriminate. }
  set (n := length detected_tech).
  set (c2 := if (0 <? n)%nat then c1 + Qmin (Num.of_nat n * 0.1) 0.3 else c1).
  assert (H2 : (c2 == c1 /\ detected_tech = [])
               \/ (c1 + 0.1 <= c2 <= c1 + 0.3 /\ detected_tech <> [])).
  { subst c2 n. destruct detected_tech as [|t l]; [left; split; reflexivity|].
    right. split; [|discriminate]. cbn [length].
    replace (0 <? S (length l))%nat with true by reflexivity.
    pose proof (NumFacts.of_nat_nonneg (length l)) as Hl.
    rewrite NumFacts.of_nat_S.
    destruct (Q.min_spec ((Num.of_nat (length l) + 1) * 0.1) 0.3)
      as [[Hlt ->]|[Hge ->]]; lra. }
  set (c3 := if (100 <? Str.len (pd_description p))%nat
             then c2 + 0.2 else c2).
  assert (H3 : (c3 == c2 /\ (Str.len (pd_description p) <= 100)%nat)
               \/ (c3 == c2 + 0.2
                   /\ (100 < Str.len (pd_description p))%nat)).
  { subst c3. destruct (100 <? _)%nat eqn:E.
    - right. split; [reflexivity|]. apply Nat.ltb_lt, E.
    - left. split; [reflexivity|]. apply Nat.ltb_ge, E. }
  set (m := length (filter _ detected_tech)).
  set (c4 := match detected_tech with
             | _ :: _ => c3 + Num.of_nat m / Num.of_nat n * 0.1
             | [] => c3
             end).
  assert (H4 : c3 <= c4 <= c3 + 0.1 /\ (detected_tech = [] -> c4 == c3)).
  { subst c4. destruct detected_tech as [|t l] eqn:E.
    - split; [lra | reflexivity].
    - split; [|discriminate].
      assert (Hr : 0 <= Num.of_nat m / Num.of_nat n <= 1).
      { apply NumFacts.ratio_unit.
        - subst m n. rewrite <- E. apply length_filter.
        - subst n. simpl. lia. }
      lra. }
  destruct H4 as [H4 H4'].
  split.
  - split.
    + apply Q.min_glb; [|lra]. destruct H1 as [[? _]|[? _]], H2 as [[? _]|[? _]],
        H3 as [[? _]|[? _]]; lra.
    + apply Q.le_min_r.
  - split.
    + intros Hz.
      assert (Hc4 : c4 <= 0).
      { destruct (Q.min_spec c4 1) as [[_ E]|[_ E]];
          rewrite E in Hz; lra. }
      destruct H1 as [[E1 ?]|[E1 ?]], H2 as [[E2 ?]|[E2 ?]],
        H3 as [[E3 ?]|[E3 ?]]; try lra.
      auto.
    + intros (Hs & Hd & Hl).
      destruct H1 as [[E1 _]|[_ ?]]; [|contradiction].
      destruct H2 as [[E2 _]|[_ ?]]; [|contradiction].
      destruct H3 as [[E3 _]|[_ ?]]; [|lia].
      specialize (H4' Hd).
      rewrite Q.min_l; lra.
Qed.

(** *** Recommendations *)

(** Padding a list to three entries from a stock of four and cutting it
    to [n] entries, as both recommendation generators do. *)
Lemma pad_and_cut_length (n : nat) (recs stock : list string) :
  (3 <= n)%nat -> (3 <= length stock)%nat ->
  let padded :=
    if (length recs <? 3)%nat
    then recs ++ take (3 - length recs) stock else recs in
  (3 <= length (take n padded) <= n)%nat.
Proof.
  intros Hn Hstock padded. rewrite length_take. subst padded.
  destruct (length recs <? 3)%nat eqn:E.
  - apply Nat.ltb_lt in E. rewrite length_app, length_take. lia.
  - apply Nat.ltb_ge in E. lia.
Qed.

(** X6: whenever the diversity and the cohesion of the analysis are
    numbers (or missing), the analyzer gives between three and five
    recommendations; it raises exactly when one of the two is present and
    not a number, which does not happen on the analysis that
    [analyze_tech_stack] hands over. *)
Theorem tech_recommendations_count (a : analyzer)
    (detected_tech : list string) :
  (forall analysis recommendations,
      generate_tech_recommendations a detected_tech analysis
      = Ok recommendations ->
      (3 <= length recommendations <= 5)%nat)
  /\ (forall analysis,
        raises (generate_tech_recommendations a detected_tech analysis)
        <-> raises (Py.as_num (Py.dget analysis "diversity" (PNum 0)))
            \/ raises (Py.as_num (Py.dget analysis "cohesion" (PNum 0.5))))
  /\ (forall v, exists recommendations,
        generate_tech_recommendations a detected_tech
          (analyze_tech_features a v detected_tech) = Ok recommendations).
Proof.
  split; [|split].
  - intros analysis recs. unfold generate_tech_recommendations, Py.lt, Py.gt.
    destruct (Py.as_num (Py.dget analysis "diversity" _)) as [d|];
      cbn [mbind exn_bind bind]; [|discriminate].
    destruct (Py.as_num (Py.dget analysis "cohesion" _)) as [c|];
      destruct (negb (Qle_bool 0.3 d));
      cbn [mbind exn_bind bind]; try discriminate;
      intros [= <-]; apply pad_and_cut_length; simpl; lia.
  - intros analysis. unfold generate_tech_recommendations, Py.lt, Py.gt.
    destruct (Py.as_num (Py.dget analysis "diversity" _)) as [d|];
      cbn [mbind exn_bind bind raises]; [|tauto].
    destruct (Py.as_num (Py.dget analysis "cohesion" _)) as [c|];
      destruct (negb (Qle_bool 0.3 d));
      cbn [mbind exn_bind bind raises]; tauto.
  - intros v. apply TechFacts.generate_tech_recommendations_Ok.
Qed.

(** *** Grouping by category *)

Section grouping.
Variable f : string -> string.

(** The loop shared by the two [_categorize_technologies] methods,
    started from the groups [acc]. *)
Lemma grouping_lookup (l done : list string) (acc : odict (list string))
    (c : string) :
  od_get acc c
  = match filter (fun t => String.eqb (f t) c) done with
    | [] => None
    | ts => Some ts
    end ->
  od_get
    (fold_left
       (fun categories tech =>
          od_set categories (f tech)
            (match od_get categories (f tech) with
             | Some ts => ts ++ [tech]
             | None => [tech]
             end))
       l acc) c
  = match filter (fun t => String.eqb (f t) c) (done ++ l) with
    | [] => None
    | ts => Some ts
    end.
Proof.
  revert done acc. induction l as [|t l IH]; intros done acc Hacc.
  - rewrite app_nil_r. exact Hacc.
  - cbn [fold_left].
    replace (done ++ t :: l) with ((done ++ [t]) ++ l)
      by (rewrite <- app_assoc; reflexivity).
    apply IH. rewrite od_get_set, filter_app, filter_cons, filter_nil.
    destruct (String.eqb (f t) c) eqn:E.
    + rewrite decide_True by exact I.
      apply String.eqb_eq in E. rewrite E, Hacc.
      destruct (filter _ done); reflexivity.
    + rewrite decide_False by (intros []).
      rewrite app_nil_r. exact Hacc.
Qed.

Lemma grouping_concat (l : list string) (acc : odict (list string)) :
  concat (map snd
    (fold_left
       (fun categories tech =>
          od_set categories (f tech)
            (match od_get categories (f tech) with
             | Some ts => ts ++ [tech]
             | None => [tech]
             end))
       l acc))
  ≡ₚ concat (map snd acc) ++ l.
Proof.
  revert acc. induction l as [|t l IH]; intros acc.
  - rewrite app_nil_r. reflexivity.
  - cbn [fold_left]. rewrite IH.
    replace (t :: l) with ([t] ++ l) by reflexivity.
    rewrite app_assoc. apply Permutation_app_tail.
    generalize (f t). intros k. clear IH.
    induction acc as [|[k' ts] acc IHacc]; [reflexivity|].
    cbn [od_get od_set]. destruct (String.eqb k' k).
    + cbn [map concat snd]. rewrite <- !app_assoc.
      apply Permutation_app_head, Permutation_app_comm.
    + cbn [map concat snd]. rewrite IHacc, app_assoc. reflexivity.
Qed.

Lemma od_set_Forall_values {V} (P : V -> Prop) (d : odict V) k v :
  Forall (fun kv => P (snd kv)) d -> P v ->
  Forall (fun kv => P (snd kv)) (od_set d k v).
Proof.
  intros Hd Hv. induction Hd as [|[k' v'] d Hkv Hd IH]; simpl.
  - repeat constructor. exact Hv.
  - destruct (String.eqb k' k); constructor; auto.
Qed.

Lemma grouping_nonempty (l : list string) (acc : odict (list string)) :
  Forall (fun kv => snd kv <> []) acc ->
  Forall (fun kv => snd kv <> [])
    (fold_left
       (fun categories tech =>
          od_set categories (f tech)
            (match od_get categories (f tech) with
             | Some ts => ts ++ [tech]
             | None => [tech]
             end))
       l acc).
Proof.
  revert acc. induction l as [|t l IH]; intros acc Hacc; [exact Hacc|].
  cbn [fold_left]. apply IH.
  apply (od_set_Forall_values (fun ts => ts <> [])); [exact Hacc|].
  destruct (od_get acc (f t)) as [[|x ts]|]; discriminate.
Qed.

(** There are no more groups than members. *)
Lemma grouping_count (l : list string) :
  (length
     (fold_left
        (fun categories tech =>
           od_set categories (f tech)
             (match od_get categories (f tech) with
              | Some ts => ts ++ [tech]
              | None => [tech]
              end))
        l []) <= length l)%nat.
Proof.
  pose proof (grouping_concat l []) as Hperm.
  pose proof (grouping_nonempty l [] (Forall_nil_2 _)) as Hne.
  apply Permutation_length in Hperm. simpl in Hperm. rewrite <- Hperm.
  clear Hperm. induction Hne as [|[k [|t ts]] cs Hkv Hcs IH]; simpl.
  - lia.
  - simpl in Hkv. congruence.
  - rewrite length_app. simpl in IH |- *. lia.
Qed.

End grouping.

(** X7: grouping by category loses and invents nothing.  Each category
    that occurs is mapped to exactly the technologies of that category,
    in their order of appearance, a category without technology has no
    entry, and the groups together hold every technology once. *)
Theorem technologies_grouped_by_category :
  (forall (a : analyzer) (detected_tech : list string) (c : string),
      od_get (categorize_technologies a detected_tech) c
      = match filter (fun t => String.eqb (category_of a "other" t) c)
                     detected_tech with
        | [] => None
        | ts => Some ts
        end)
  /\ (forall (a : analyzer) (detected_tech : list string),
        concat (map snd (categorize_technologies a detected_tech))
        ≡ₚ detected_tech)
  /\ (forall (tech_stack : list string) (c : string),
        od_get (Features.categorize_technologies tech_stack) c
        = match filter (fun t => String.eqb (Features.category_of t) c)
                       tech_stack with
          | [] => None
          | ts => Some ts
          end)
  /\ (forall tech_stack : list string,
        concat (map snd (Features.categorize_technologies tech_stack))
        ≡ₚ tech_stack).
Proof.
  split; [|split; [|split]].
  - intros a l c.
    exact (grouping_lookup (category_of a "other") l [] [] c eq_refl).
  - intros a l. exact (grouping_concat (category_of a "other") l []).
  - intros l c.
    exact (grouping_lookup Features.category_of l [] [] c eq_refl).
  - intros l. exact (grouping_concat Features.category_of l []).
Qed.

End TechExtra.

(** ** Feature extraction *)

Module FeaturesExtra.
Import Features.

Lemma sum_bounds (lo hi : Q) (l : list Q) :
  Forall (fun x => lo <= x <= hi) l ->
  lo * Num.of_nat (length l) <= Num.sum l <= hi * Num.of_nat (length l).
Proof.
  induction 1 as [|x l Hx Hl IH].
  - change (Num.of_nat (length [])) with 0. change (Num.sum []) with 0. lra.
  - cbn [length]. rewrite NumFacts.sum_cons, NumFacts.of_nat_S.
    rewrite !Qmult_plus_distr_r, !Qmult_1_r. lra.
Qed.

Lemma mean_bounds (lo hi : Q) (l : list Q) :
  l <> [] -> Forall (fun x => lo <= x <= hi) l ->
  lo <= Num.mean l <= hi.
Proof.
  intros Hne Hl. pose proof (sum_bounds lo hi l Hl) as [H1 H2].
  assert (Hp : 0 < Num.of_nat (length l)).
  { apply NumFacts.of_nat_pos. destruct l; [congruence | simpl; lia]. }
  unfold Num.mean. split.
  - apply Qle_shift_div_l; [exact Hp | exact H1].
  - apply Qle_shift_div_r; [exact Hp | exact H2].
Qed.

Lemma keyword_score_unit (text : string) (keywords : list string) :
  0 <= keyword_score text keywords <= 1.
Proof.
  unfold keyword_score. apply NumFacts.ratio_unit; [|lia].
  etransitivity; [apply length_filter | lia].
Qed.

Lemma keyword_scores_unit text dictionary :
  Forall (fun x => 0 <= x <= 1) (map snd (keyword_scores text dictionary)).
Proof.
  unfold keyword_scores. rewrite map_map. apply Forall_forall.
  intros x Hx. apply list_elem_of_fmap in Hx as (entry & -> & _).
  apply keyword_score_unit.
Qed.

Lemma score_of_unit text dictionary category :
  exists q, score_of (keyword_scores text dictionary) category = PNum q
            /\ 0 <= q <= 1.
Proof.
  unfold score_of. eexists. split; [reflexivity|].
  destruct (od_get _ category) as [q|] eqn:E; [|lra].
  apply od_get_elem in E.
  pose proof (keyword_scores_unit text dictionary) as H.
  rewrite Forall_forall in H. apply H.
  apply list_elem_of_fmap. exists (category, q). auto.
Qed.

Lemma overall_of_unit text dictionary :
  exists q, overall_of (keyword_scores text dictionary) = PNum q
            /\ 0 <= q <= 1.
Proof.
  unfold overall_of. eexists. split; [reflexivity|].
  destruct (keyword_scores text dictionary) as [|s l] eqn:E; [lra|].
  apply mean_bounds; [discriminate|]. rewrite <- E.
  apply keyword_scores_unit.
Qed.

(** X8: each of the fourteen keyword features (the share of the keywords
    of a category that occur in the name and description, and the mean
    of these shares per dictionary) is a number between 0 and 1. *)
Theorem keyword_features_in_unit_interval (p : project_data) :
  Forall (fun kv => exists q, snd kv = PNum q /\ 0 <= q <= 1)
         (extract_keyword_features p).
Proof.
  unfold extract_keyword_features.
  repeat (constructor; [first [apply score_of_unit | apply overall_of_unit]|]).
  constructor.
Qed.

(** X9: the two ratios among the technology features, the share of
    distinct entries and the share of popular technologies of the
    declared stack, lie between 0 and 1, and the number of categories is
    at most the number of entries. *)
Theorem tech_feature_ratios (p : project_data) :
  exists d r c : Q,
    od_get (extract_tech_features p) "tech_diversity" = Some (PNum d)
    /\ od_get (extract_tech_features p) "popular_tech_ratio" = Some (PNum r)
    /\ od_get (extract_tech_features p) "tech_category_count" = Some (PNum c)
    /\ 0 <= d <= 1 /\ 0 <= r <= 1
    /\ 0 <= c <= Num.of_nat (length (pd_tech_stack p)).
Proof.
  unfold extract_tech_features. do 3 eexists.
  split; [reflexivity|]. split; [reflexivity|]. split; [reflexivity|].
  set (ts := pd_tech_stack p).
  assert (Hn : (0 < Nat.max (length ts) 1)%nat) by lia.
  split; [|split].
  - pose proof (NumFacts.ratio_unit (length (remove_dups ts))
                  (Nat.max (length ts) 1)) as [H0 H1]; [|exact Hn|].
    { etransitivity; [|apply Nat.le_max_l].
      apply submseteq_length, NoDup_submseteq; [apply NoDup_remove_dups|].
      intros x. rewrite elem_of_remove_dups. auto. }
    split; [apply Q.min_glb; lra | apply Q.le_min_r].
  - apply NumFacts.ratio_unit; [|exact Hn].
    etransitivity; [apply length_filter | lia].
  - split; [apply NumFacts.of_nat_nonneg|].
    apply NumFacts.of_nat_le.
    exact (TechExtra.grouping_count category_of ts).
Qed.

(** *** The size class of a project *)

Lemma metadata_prefix_literal rest :
  String.prefix "metadata_" ("metadata_list_" +:+ rest) = true.
Proof. reflexivity. Qed.

Ltac metadata_literal_keys H :=
  repeat (rewrite RiskFacts.od_mem_cons in H;
          apply orb_true_iff in H as [H|H];
          [apply String.eqb_eq in H; subst; reflexivity|]);
  try (rewrite RiskFacts.od_mem_nil in H; discriminate).

(** The conversion of the metadata numbers raises exactly when one of
    them is beyond the range of [float]. *)
Lemma numeric_values_raises (metadata : odict pyval) :
  raises (numeric_values metadata)
  <-> Exists (fun kv => exists q, snd kv = PNum q
                                  /\ float_overflow <= Qabs q) metadata.
Proof.
  induction metadata as [|[k v] md IH]; cbn [numeric_values foldr snd].
  - split; [intros [] | intros H; inversion H].
  - fold (numeric_values md). rewrite Exists_cons. cbn [snd].
    destruct v as [|b|q|s|xs|kvs];
      try (rewrite IH; split; [tauto | intros [(q' & [=] & _)|H]; exact H]).
    + destruct (numeric_values md); cbn [mbind exn_bind bind raises] in *.
      * split; [intros [] | intros [(q' & [=] & _)|H]; apply IH, H].
      * split; [intros _; right; apply IH; exact I | tauto].
    + unfold to_float. destruct (Qle_bool float_overflow (Qabs q)) eqn:E;
        cbn [mbind exn_bind bind raises].
      * apply Qle_bool_iff in E. split; [|tauto]. intros _. left. eauto.
      * assert (Hn : ~ float_overflow <= Qabs q).
        { intros H. apply Qle_bool_iff in H. congruence. }
        destruct (numeric_values md); cbn [mbind exn_bind bind raises] in *.
        -- split; [intros [] | intros [(q' & [= <-] & H)|H];
                                 [exact (Hn H) | apply IH, H]].
        -- split; [intros _; right; apply IH; exact I | tauto].
Qed.

(** Every key of the metadata features starts with [metadata_]. *)
Lemma metadata_features_prefix E p fs k :
  extract_metadata_features E p = Ok fs ->
  od_mem fs k = true ->
  String.prefix "metadata_" k = true.
Proof.
  unfold extract_metadata_features.
  destruct (numeric_values _) as [values|e];
    cbn [mbind exn_bind bind]; [|discriminate].
  intros [= <-].
  assert (H0 : od_mem (list_counts (pd_metadata p)) k = true ->
               String.prefix "metadata_" k = true).
  { unfold list_counts.
    assert (G : forall (acc : odict pyval),
      (od_mem acc k = true -> String.prefix "metadata_" k = true) ->
      od_mem (fold_left
                (fun features kv =>
                   match snd kv with
                   | PList xs =>
                       od_set features
                         ("metadata_list_" +:+ fst kv +:+ "_count")
                         (num (length xs))
                   | _ => features
                   end) (pd_metadata p) acc) k = true ->
      String.prefix "metadata_" k = true).
    { induction (pd_metadata p) as [|[k0 v0] md IH]; intros acc Hacc; simpl;
        [exact Hacc|].
      apply IH. destruct v0; try exact Hacc.
      rewrite RiskFacts.od_mem_set. intros [H|H]%orb_true_iff; [auto|].
      apply String.eqb_eq in H. subst k. apply metadata_prefix_literal. }
    apply G. rewrite RiskFacts.od_mem_nil. discriminate. }
  assert (H2 : forall l,
             od_mem (od_update
                       (od_update
                          [("metadata_field_count",
                            num (length (pd_metadata p)))]
                          (list_counts (pd_metadata p)))
                       [("metadata_text_length", num l);
                        ("metadata_numeric_count", num (length values))]) k
             = true ->
             String.prefix "metadata_" k = true).
  { intros l. rewrite !RiskFacts.od_mem_update.
    intros [[H|H]%orb_true_iff|H]%orb_true_iff.
    - metadata_literal_keys H.
    - auto.
    - metadata_literal_keys H. }
  destruct values as [|x values]; [apply H2|]. cbv beta iota.
  rewrite 2!RiskFacts.od_mem_set.
  intros [[H|H]%orb_true_iff|H]%orb_true_iff;
    [exact (H2 _ H) | |]; apply String.eqb_eq in H; subst k; reflexivity.
Qed.

Lemma metadata_features_other E p fs k :
  extract_metadata_features E p = Ok fs ->
  String.prefix "metadata_" k = false ->
  od_get fs k = None.
Proof.
  intros Hfs H. apply RiskFacts.od_mem_false_get.
  destruct (od_mem _ k) eqn:E'; [|reflexivity].
  apply (metadata_features_prefix _ _ _ _ Hfs) in E'. congruence.
Qed.

(** The bundle the handler of [extract_features] returns. *)
Lemma extract_features_overflow E p :
  raises (numeric_values (pd_metadata p)) ->
  exists e,
    extract_features E p
    = [ ("feature_extraction_error", PStr e);
        ("text_length", PNum 0); ("tech_count", PNum 0) ].
Proof.
  unfold extract_features, extract_metadata_features.
  destruct (numeric_values _) as [values|e]; [intros []|].
  intros _. exists e. reflexivity.
Qed.

(** Unless the handler runs, the feature bundle records the length of
    the declared stack. *)
Lemma extract_features_tech_count E p :
  ~ raises (numeric_values (pd_metadata p)) ->
  od_get (extract_features E p) "tech_count"
  = Some (num (length (pd_tech_stack p))).
Proof.
  intros Hn. unfold extract_features.
  destruct (extract_metadata_features E p) as [fs|e] eqn:Em.
  2:{ exfalso. apply Hn. unfold extract_metadata_features in Em.
      destruct (numeric_values _); [discriminate | exact I]. }
  cbn [mbind exn_bind bind catch].
  rewrite od_get_update_other by reflexivity.
  rewrite od_get_update_other by reflexivity.
  rewrite od_get_update_other by reflexivity.
  rewrite od_get_update_other
    by (apply (metadata_features_other _ _ _ _ Em); reflexivity).
  rewrite od_get_update. reflexivity.
Qed.

(** The size class of the feature bundle follows the length of the
    declared stack; the bundle of the handler has none. *)
Lemma extract_features_project_size (E : extractor) (p : project_data) :
  let n := length (pd_tech_stack p) in
  (raises (numeric_values (pd_metadata p))
   /\ od_get (extract_features E p) "project_size" = None)
  \/ (~ raises (numeric_values (pd_metadata p))
      /\ exists s : Q,
           od_get (extract_features E p) "project_size" = Some (PNum s)
           /\ ((n = 0%nat /\ s = 0) \/ ((1 <= n <= 5)%nat /\ s = 1)
               \/ ((6 <= n <= 10)%nat /\ s = 2) \/ ((10 < n)%nat /\ s = 3))).
Proof.
  intros n. unfold extract_features.
  destruct (extract_metadata_features E p) as [fs|e] eqn:Em.
  2:{ left. unfold extract_metadata_features in Em.
      destruct (numeric_values _); [discriminate|]. split; [exact I|].
      reflexivity. }
  right. split.
  { unfold extract_metadata_features in Em.
    destruct (numeric_values _); [intros [] | discriminate]. }
  cbn [mbind exn_bind bind catch].
  rewrite od_get_update_other by reflexivity.
  rewrite od_get_update.
  match goal with
  | |- context [extract_complexity_features ?f] => set (f4 := f)
  end.
  assert (Hc : Py.fnum f4 "tech_count" 0 = Num.of_nat n).
  { unfold Py.fnum. subst f4.
    rewrite od_get_update_other by reflexivity.
    rewrite od_get_update_other
      by (apply (metadata_features_other _ _ _ _ Em); reflexivity).
    rewrite od_get_update. reflexivity. }
  unfold extract_complexity_features. rewrite Hc.
  cbn [rev app od_get String.eqb Ascii.eqb Bool.eqb].
  eexists. split; [reflexivity|].
  replace (Qle_bool (Num.of_nat n) 10) with (n <=? 10)%nat
    by (symmetry; exact (NumFacts.Qle_bool_of_nat n 10)).
  replace (Qle_bool (Num.of_nat n) 5) with (n <=? 5)%nat
    by (symmetry; exact (NumFacts.Qle_bool_of_nat n 5)).
  replace (Qle_bool (Num.of_nat n) 0) with (n <=? 0)%nat
    by (symmetry; exact (NumFacts.Qle_bool_of_nat n 0)).
  destruct (n <=? 10)%nat eqn:E10; cbn [negb].
  2:{ apply Nat.leb_gt in E10. auto. }
  destruct (n <=? 5)%nat eqn:E5; cbn [negb].
  2:{ apply Nat.leb_gt in E5. apply Nat.leb_le in E10. right. right. left.
      split; [lia | reflexivity]. }
  destruct (n <=? 0)%nat eqn:E0; cbn [negb].
  - apply Nat.leb_le in E0. left. split; [lia | reflexivity].
  - apply Nat.leb_gt in E0. apply Nat.leb_le in E5. right. left.
    split; [lia | reflexivity].
Qed.

(** The three features the feasibility score reads are numbers, or
    missing from the bundle of the handler. *)
Lemma extract_features_reads (E : extractor) (p : project_data) :
  let fs := extract_features E p in
  (od_get fs "overall_complexity" = None
   /\ od_get fs "project_size" = None
   /\ od_get fs "maintainability_score" = None)
  \/ (exists c s t : Q,
        od_get fs "overall_complexity" = Some (PNum c)
        /\ od_get fs "project_size" = Some (PNum s)
        /\ od_get fs "maintainability_score" = Some (PNum t)).
Proof.
  cbv zeta. unfold extract_features.
  destruct (extract_metadata_features E p) as [fs|e] eqn:Em;
    cbn [mbind exn_bind bind catch]; [right | left; repeat split].
  do 3 eexists. split; [|split].
  - rewrite od_get_update_other by reflexivity.
    rewrite od_get_update. reflexivity.
  - rewrite od_get_update_other by reflexivity.
    rewrite od_get_update. reflexivity.
  - rewrite od_get_update. reflexivity.
Qed.

(** X10: unless a number of the metadata is beyond the range of [float],
    the feature bundle records the number of entries of the declared
    technology stack, and the size class it records is decided by that
    number alone: 0 for an empty stack, 1 for up to five entries, 2 for six
    to ten and 3 beyond ten.  With such a number in the metadata the
    extraction fails as a whole: the bundle is the three entries of the
    handler, with a technology count of 0 and no size class. *)
Theorem project_size_by_stack_length (E : extractor) (p : project_data) :
  let n := length (pd_tech_stack p) in
  let out_of_range :=
    Exists (fun kv => exists q, snd kv = PNum q /\ float_overflow <= Qabs q)
           (pd_metadata p) in
  (~ out_of_range ->
   od_get (extract_features E p) "tech_count" = Some (PNum (Num.of_nat n))
   /\ exists s : Q,
        od_get (extract_features E p) "project_size" = Some (PNum s)
        /\ ((n = 0%nat /\ s = 0) \/ ((1 <= n <= 5)%nat /\ s = 1)
            \/ ((6 <= n <= 10)%nat /\ s = 2) \/ ((10 < n)%nat /\ s = 3)))
  /\ (out_of_range ->
      exists e,
        extract_features E p
        = [ ("feature_extraction_error", PStr e);
            ("text_length", PNum 0); ("tech_count", PNum 0) ]).
Proof.
  intros n out_of_range. subst out_of_range.
  rewrite <- numeric_values_raises. split.
  - intros Hn. split; [apply extract_features_tech_count, Hn|].
    destruct (extract_features_project_size E p) as [[H _]|[_ H]];
      [contradiction | exact H].
  - apply extract_features_overflow.
Qed.

End FeaturesExtra.

(** ** Analysis bundle *)

Module AnalysisExtra.
Import Analysis Spec.

(** X11: for features and a technology analysis whose numbers are at
    most 10^300 in absolute value, so that no intermediate value leaves
    the range of [float], the complexity and maturity scores are numbers
    between 0 and 100: the values set in the bodies are clamped, and a
    body that raises is answered by 50. *)
Theorem analysis_scores_in_range (features tech_analysis : odict pyval) :
  Forall (fun kv => forall q, snd kv = PNum q -> Qabs q <= 10 ^ 300)
         features ->
  Forall (fun kv => forall q, snd kv = PNum q -> Qabs q <= 10 ^ 300)
         tech_analysis ->
  ranged (calculate_complexity_score features tech_analysis)
  /\ ranged (calculate_maturity_score features tech_analysis).
Proof.
  intros _ _.
  split; apply ScoringFacts.catch_ranged; intros x H; bind_inv H;
    injection H as <-; apply ScoringFacts.clamp_ranged.
Qed.

Lemma analysis_scores_in_range_witness :
  ranged (calculate_maturity_score
            [("documentation_score", PNum 0.9); ("test_coverage", PNum 0.2)]
            [("tech_maturity", PNum 0.7)]).
Proof.
  refine (proj2 (analysis_scores_in_range
            [("documentation_score", PNum 0.9); ("test_coverage", PNum 0.2)]
            [("tech_maturity", PNum 0.7)] _ _));
    repeat constructor; intros q [= <-]; vm_compute; discriminate.
Defined.

Lemma pipeline_maturity (M : models) (p : project_data) :
  calculate_maturity_score
    (Features.extract_features (feature_extractor M) p)
    (Tech.analyze_tech_stack (tech_lister M) (tech_stack_analyzer M)
       (tech_vectorizer M) p)
  == 50.
Proof.
  unfold calculate_maturity_score, Py.dget.
  rewrite (RiskFacts.od_mem_false_get _ _
             (RiskFacts.not_tech_analysis_key _ _ _ p "tech_maturity" eq_refl)).
  rewrite (RiskFacts.not_feature_key _ p "documentation_score" eq_refl).
  rewrite (RiskFacts.not_feature_key _ p "test_coverage" eq_refl).
  vm_compute. reflexivity.
Qed.

(** X12: the maturity score of the analysis bundle is 50 for every
    project, whether the models load or not: the keys [tech_maturity],
    [documentation_score] and [test_coverage] it is computed from are never
    set by the technology analysis and the feature extraction. *)
Theorem maturity_score_is_constant (str_of_num : Q -> string)
    (str_of_value : pyval -> string) (loaded : exn models)
    (p : project_data) :
  exists q,
    od_get (analyze_project str_of_num str_of_value loaded p)
           "maturity_score" = Some (PNum q)
    /\ q == 50.
Proof.
  destruct loaded as [M|e].
  - eexists. split; [reflexivity|]. apply pipeline_maturity.
  - eexists. split; [reflexivity|]. reflexivity.
Qed.

Lemma clamp_id (x : Q) : 0 <= x <= 100 -> Num.clamp x == x.
Proof.
  intros [H0 H1]. unfold Num.clamp.
  rewrite Q.max_l by exact H0. apply Q.min_l. exact H1.
Qed.

Lemma pipeline_complexity (M : models) (p : project_data) :
  calculate_complexity_score
    (Features.extract_features (feature_extractor M) p)
    (Tech.analyze_tech_stack (tech_lister M) (tech_stack_analyzer M)
       (tech_vectorizer M) p)
  == 50 + Qmin (Num.of_nat
                  (length (Tech.detect_technologies (tech_lister M)
                             (tech_stack_analyzer M) p)) * 5) 25.
Proof.
  unfold calculate_complexity_score.
  destruct (TechFacts.analyze_tech_stack_Ok (tech_lister M)
              (tech_stack_analyzer M) (tech_vectorizer M) p)
    as (recs & _ & ->).
  unfold od_mem, Py.dget.
  rewrite (RiskFacts.od_mem_false_get _ _
             (RiskFacts.not_feature_key _ p "architecture_complexity" eq_refl)).
  cbn [od_get String.eqb Ascii.eqb Bool.eqb Py.len mbind exn_bind bind].
  rewrite length_map.
  set (n := length _).
  assert (Hn : 0 <= Qmin (Num.of_nat n * 5) 25 <= 25).
  { split; [|apply Q.le_min_r].
    apply Q.min_glb; [|discriminate].
    pose proof (NumFacts.of_nat_nonneg n). lra. }
  destruct (FeaturesExtra.extract_features_project_size
              (feature_extractor M) p)
    as [[_ Hs]|[_ (s & Hs & Hclass)]]; rewrite Hs.
  - cbn [mbind exn_bind bind catch]. apply clamp_id. lra.
  - assert (E : Py.gt (PNum s) 1000 = Ok false
                /\ Py.gt (PNum s) 500 = Ok false
                /\ Py.gt (PNum s) 100 = Ok false).
    { destruct Hclass as [[_ ->]|[[_ ->]|[[_ ->]|[_ ->]]]];
        repeat split; reflexivity. }
    destruct E as (-> & -> & ->).
    cbn [mbind exn_bind bind catch]. apply clamp_id. lra.
Qed.

(** X13: the complexity score of the analysis bundle depends on the
    number of detected technologies only: it is 50 plus 5 per technology,
    capped at 75.  The size bonuses are never given, since the size class
    of the feature bundle is at most 3, and the bundle has no architecture
    complexity. *)
Theorem complexity_score_counts_technologies (str_of_num : Q -> string)
    (str_of_value : pyval -> string) (M : models) (p : project_data) :
  exists q,
    od_get (analyze_project str_of_num str_of_value (Ok M) p)
           "complexity_score" = Some (PNum q)
    /\ q == 50 + Qmin (Num.of_nat
                         (length (Tech.detect_technologies (tech_lister M)
                                    (tech_stack_analyzer M) p)) * 5) 25
    /\ 50 <= q <= 75.
Proof.
  eexists. split; [reflexivity|].
  pose proof (pipeline_complexity M p) as H. split; [exact H|].
  rewrite H.
  set (n := length _).
  pose proof (NumFacts.of_nat_nonneg n) as Hn.
  pose proof (Q.le_min_r (Num.of_nat n * 5) 25) as Hr.
  assert (H0 : 0 <= Qmin (Num.of_nat n * 5) 25)
    by (apply Q.min_glb; [lra | discriminate]).
  lra.
Qed.

(** *** Recommendations *)

(** X14: [generate_recommendations] gives at most ten recommendations and
    at least three, unless a value it compares is not a number, in which
    case it gives the single stock sentence of its handler. *)
Theorem recommendations_count (str_of_num : Q -> string)
    (str_of_value : pyval -> string)
    (features tech_analysis category_result : odict pyval) :
  let recs :=
    generate_recommendations str_of_num str_of_value features tech_analysis
      category_result in
  (length recs <= 10)%nat
  /\ ((3 <= length recs)%nat
      \/ recs = ["系统分析中，请稍后查看详细建议"]).
Proof.
  cbv zeta. unfold generate_recommendations.
  match goal with |- context [catch ?m _] => destruct m as [r|e] eqn:E end;
    cbn [catch].
  - bind_inv E; injection E as <-;
      match goal with
      | |- context [take 10 (if (length ?recs <? 3)%nat then _ else _)] =>
          pose proof (TechExtra.pad_and_cut_length 10 recs
            [ "实施持续集成/持续部署(CI/CD)流程"; "添加性能监控和日志记录";
              "定期进行代码审查和重构"; "考虑容器化部署以提高可移植性" ]
            ltac:(lia) ltac:(simpl; lia)) as H
      end; cbv zeta in H; split; [apply H | left; apply H].
  - split; [simpl; lia | right; reflexivity].
Qed.

Lemma pipeline_recommendations (str_of_num : Q -> string)
    (str_of_value : pyval -> string) (M : models) (p : project_data)
    (category_result : odict pyval) :
  length
    (generate_recommendations str_of_num str_of_value
       (Features.extract_features (feature_extractor M) p)
       (Tech.analyze_tech_stack (tech_lister M) (tech_stack_analyzer M)
          (tech_vectorizer M) p)
       category_result) = 3%nat.
Proof.
  unfold generate_recommendations, Py.dget.
  rewrite (RiskFacts.od_mem_false_get _ _
             (RiskFacts.not_tech_analysis_key _ _ _ p
                "outdated_technologies" eq_refl)).
  rewrite (RiskFacts.not_feature_key _ p "documentation_score" eq_refl).
  rewrite (RiskFacts.not_feature_key _ p "test_coverage" eq_refl).
  rewrite (RiskFacts.not_feature_key _ p "security_issues" eq_refl).
  cbn [Py.iter mbind exn_bind bind catch map].
  destruct (Py.eq_str _ "web_development"); [reflexivity|].
  destruct (Py.eq_str _ "machine_learning"); reflexivity.
Qed.

(** X15: when the models are loaded, the analysis bundle of every project
    carries exactly three recommendations: the two of its category, if it
    is web development or machine learning, completed from the stock of
    general ones.  No recommendation on outdated technology,
    documentation, tests or security is ever given, since the keys they
    are read from are never set. *)
Theorem bundle_has_three_recommendations (str_of_num : Q -> string)
    (str_of_value : pyval -> string) (M : models) (p : project_data) :
  exists recs : list string,
    od_get (analyze_project str_of_num str_of_value (Ok M) p)
           "recommendations" = Some (PList (map PStr recs))
    /\ length recs = 3%nat
    /\ Forall (fun r =>
          r ∈ [ "考虑使用现代前端框架如React或Vue.js";
                "实施响应式设计以支持移动设备";
                "考虑使用PyTorch或TensorFlow进行模型开发";
                "添加模型评估和监控机制";
                "实施持续集成/持续部署(CI/CD)流程";
                "添加性能监控和日志记录";
                "定期进行代码审查和重构" ]) recs.
Proof.
  eexists. split; [reflexivity|]. split.
  - apply pipeline_recommendations.
  - unfold generate_recommendations, Py.dget.
    rewrite (RiskFacts.od_mem_false_get _ _
               (RiskFacts.not_tech_analysis_key _ _ _ p
                  "outdated_technologies" eq_refl)).
    rewrite (RiskFacts.not_feature_key _ p "documentation_score" eq_refl).
    rewrite (RiskFacts.not_feature_key _ p "test_coverage" eq_refl).
    rewrite (RiskFacts.not_feature_key _ p "security_issues" eq_refl).
    cbn [Py.iter mbind exn_bind bind catch map].
    destruct (Py.eq_str _ "web_development");
      [|destruct (Py.eq_str _ "machine_learning")];
      cbn; repeat constructor; set_solver.
Qed.

(** *** Risk level *)

(** X16: the risk level is set by the last check that fires, not by the
    most severe one.  With a positive number of security issues the
    level is high when the maintenance score is at least 0.3, but a
    maintenance score below 0.3 sets it back to medium, both factors
    being listed. *)
Theorem risk_level_is_last_finding (str_of_num : Q -> string)
    (str_of_value : pyval -> string)
    (features tech_analysis : odict pyval) (issues maintenance : Q) :
  od_get tech_analysis "outdated_technologies" = None ->
  od_get tech_analysis "dependencies" = None ->
  od_get features "security_issues" = Some (PNum issues) ->
  od_get features "maintenance_score" = Some (PNum maintenance) ->
  0 < issues ->
  let result :=
    assess_risks str_of_num str_of_value features tech_analysis in
  let finding := "存在安全漏洞: " +:+ str_of_num issues +:+ "个" in
  (0.3 <= maintenance ->
   od_get result "level" = Some (PStr "high")
   /\ od_get result "factors" = Some (PList [PStr finding]))
  /\ (maintenance < 0.3 ->
      od_get result "level" = Some (PStr "medium")
      /\ od_get result "factors"
         = Some (PList [PStr finding; PStr "维护困难"])).
Proof.
  intros Ho Hd Hs Hm Hpos result finding. subst result finding.
  unfold assess_risks, Py.dget, od_mem. rewrite Ho, Hd, Hs, Hm.
  cbn [Py.truthy Py.len length mbind exn_bind bind Nat.ltb Nat.leb
       Py.gt Py.lt Py.as_num].
  assert (E1 : negb (Qle_bool issues 0) = true)
    by (apply NumFacts.gt_spec; exact Hpos).
  rewrite E1. cbn [mbind exn_bind bind fst snd app format].
  split; intros Hmaint.
  - assert (E2 : negb (Qle_bool 0.3 maintenance) = false)
      by (apply NumFacts.gt_false; exact Hmaint).
    rewrite E2. split; reflexivity.
  - assert (E2 : negb (Qle_bool 0.3 maintenance) = true)
      by (apply NumFacts.gt_spec; exact Hmaint).
    rewrite E2. split; reflexivity.
Qed.

Lemma risk_level_is_last_finding_witness :
  let features := [ ("security_issues", PNum 2);
                    ("maintenance_score", PNum 0.1) ] in
  let result := assess_risks (fun _ => "2") (fun _ => "") features [] in
  od_get result "level" = Some (PStr "medium")
  /\ od_get result "factors"
     = Some (PList [PStr "存在安全漏洞: 2个"; PStr "维护困难"]).
Proof.
  cbv zeta.
  refine (proj2 (risk_level_is_last_finding (fun _ => "2") (fun _ => "")
                   [ ("security_issues", PNum 2);
                     ("maintenance_score", PNum 0.1) ] [] 2 0.1
                   eq_refl eq_refl eq_refl eq_refl _) _);
    reflexivity.
Defined.

End AnalysisExtra.

(** ** Scoring algorithms *)

Module ScoringExtra.
Import Scoring Spec.

Lemma clamp'_shift (b d lo hi : Q) :
  ranged b -> lo <= d -> d <= hi -> lo <= 0 -> 0 <= hi ->
  b + lo <= Num.clamp' (b + d) <= b + hi.
Proof.
  intros [Hb0 Hb1] Hlo Hhi Hl Hh. unfold Num.clamp'. split.
  - eapply Qle_trans; [|apply Q.le_max_r]. apply Q.min_glb; lra.
  - apply Q.max_lub; [lra|].
    eapply Qle_trans; [apply Q.le_min_r|]. lra.
Qed.

(** The adjusted result stays within fixed distances of the base
    result. *)
Lemma adjustments_bounds (version : string) (base : ScoringResult)
    (ar : odict pyval) :
  all_ranged base ->
  let r := apply_advanced_adjustments version base ar in
  quality_score base - 15 <= quality_score r <= quality_score base
  /\ innovation_score base - 6 <= innovation_score r <= innovation_score base
  /\ feasibility_score base - 30 <= feasibility_score r
     <= feasibility_score base + 10
  /\ business_value_score base - 2 <= business_value_score r
     <= business_value_score base + 8.
Proof.
  intros (Hq & Hi & Hf & Hb & _) r. subst r.
  unfold apply_advanced_adjustments.
  destruct (adjustments_body version base ar) as [r|e] eqn:E; cbn [catch];
    [|repeat split; lra].
  unfold adjustments_body in E.
  repeat match goal with
  | H : mbind _ ?m = Ok _ |- _ =>
      let x := fresh "x" in let Hx := fresh "Hx" in
      apply bind_Ok in H as (x & Hx & H)
  | H : (if ?c then _ else _) = Ok _ |- _ => destruct c
  | H : Ok _ = Ok ?y |- _ => is_var y; injection H as <-
  end;
    apply ScoringFacts.new_ScoringResult_inv in E as [-> _];
    ScoringFacts.fields;
    repeat match goal with
           | |- context [if ?c then _ else _] => destruct c
           end;
    (split; [|split; [|split]]);
    match goal with
    | |- ?x - ?lo <= Num.clamp' (?x + ?d) <= ?x + ?hi =>
        apply (clamp'_shift x d (- lo) hi); try assumption;
        vm_compute; discriminate
    | |- ?x - ?lo <= Num.clamp' (?x + ?d) <= ?x =>
        cut (x + - lo <= Num.clamp' (x + d) <= x + 0); [lra|];
        apply (clamp'_shift x d (- lo) 0); try assumption;
        vm_compute; discriminate
    end.
Qed.

(** X17: the advanced algorithm never raises the quality or the
    innovation score of the base algorithm.  It lowers quality by at most
    15 and innovation by at most 6, moves feasibility by at most 30 down
    and 10 up, and business value by at most 2 down and 8 up. *)
Theorem advanced_stays_near_base (now : string) (ar : odict pyval) :
  let base := base_calculate_score "advanced" "2.0.0" now ar in
  let adv := advanced_calculate_score now ar in
  quality_score base - 15 <= quality_score adv <= quality_score base
  /\ innovation_score base - 6 <= innovation_score adv
     <= innovation_score base
  /\ feasibility_score base - 30 <= feasibility_score adv
     <= feasibility_score base + 10
  /\ business_value_score base - 2 <= business_value_score adv
     <= business_value_score base + 8.
Proof.
  cbv zeta. rewrite ScoringFacts.advanced_calculate_score_eq.
  apply adjustments_bounds, ScoringFacts.base_ranged.
Qed.

(** *** Simulated prediction *)

Ltac pick_value :=
  solve [ vm_compute; reflexivity | left; pick_value | right; pick_value ].

(** X18: the simulated prediction of the ML-based algorithm never moves
    the business value from 50, and takes the other scores from small
    sets: quality is 45, 47, 50 or 60, innovation 50 or 65, feasibility
    35, 40, 45, 50 or 55.  These are the scores the ML-based algorithm
    returns whenever its feature extraction succeeds. *)
Theorem simulated_prediction_values :
  (forall features : odict pyval,
      let s := simulate_ml_prediction features in
      ds_business_value s == 50
      /\ (ds_innovation s == 50 \/ ds_innovation s == 65)
      /\ (ds_quality s == 45 \/ ds_quality s == 47
          \/ ds_quality s == 50 \/ ds_quality s == 60)
      /\ (ds_feasibility s == 35 \/ ds_feasibility s == 40
          \/ ds_feasibility s == 45 \/ ds_feasibility s == 50
          \/ ds_feasibility s == 55))
  /\ (forall (now : string) (ar ml_features : odict pyval),
        extract_ml_features ar = Ok ml_features ->
        let r := ml_calculate_score now None ar in
        let s := simulate_ml_prediction ml_features in
        quality_score r = ds_quality s
        /\ innovation_score r = ds_innovation s
        /\ feasibility_score r = ds_feasibility s
        /\ business_value_score r = ds_business_value s).
Proof.
  split.
  - intros features. cbv zeta. unfold simulate_ml_prediction.
    destruct (simulate_body features) as [s|e] eqn:E; cbn [catch];
      [|repeat split; pick_value].
    unfold simulate_body in E.
    repeat match goal with
    | H : mbind _ ?m = Ok _ |- _ =>
        let x := fresh "x" in let Hx := fresh "Hx" in
        apply bind_Ok in H as (x & Hx & H)
    | H : (if ?c then _ else _) = Ok _ |- _ => destruct c
    | H : Ok _ = Ok ?y |- _ => is_var y; injection H as <-
    end;
      cbn [ds_quality ds_innovation ds_feasibility ds_business_value];
      repeat match goal with
             | |- context [if ?c then _ else _] => destruct c
             end;
      repeat split; pick_value.
  - intros now ar fs Hfs. cbv zeta. unfold ml_calculate_score, ml_body.
    rewrite Hfs. cbn [mbind exn_bind bind ml_load_model Py.truthy].
    set (s := simulate_ml_prediction fs).
    assert (Hs : ranged (ds_quality s) /\ ranged (ds_innovation s)
                 /\ ranged (ds_feasibility s)
                 /\ ranged (ds_business_value s)).
    { subst s. unfold simulate_ml_prediction.
      destruct (simulate_body fs) as [s|e] eqn:E; cbn [catch];
        [|repeat split; discriminate].
      unfold simulate_body in E. bind_inv E; injection E as <-;
        cbn [ds_quality ds_innovation ds_feasibility ds_business_value];
        repeat split; apply ScoringFacts.clamp'_ranged. }
    destruct Hs as (Hq & Hi & Hf & Hb).
    rewrite ScoringFacts.new_ScoringResult_Ok
      by auto using ScoringFacts.overall_default_ranged.
    cbn [catch]. ScoringFacts.fields. auto.
Qed.

Lemma simulated_prediction_values_witness :
  let r := ml_calculate_score "" None [] in
  quality_score r == 45 /\ innovation_score r == 50
  /\ feasibility_score r == 50 /\ business_value_score r == 50.
Proof.
  cbv zeta.
  destruct (proj2 simulated_prediction_values "" [] _ eq_refl)
    as (-> & -> & -> & ->).
  vm_compute. repeat split; reflexivity.
Defined.

(** *** Weights *)

(** X19: with weights that are not negative and sum to at most 1 (the
    defaults of 0.25 counted for the keys the map lacks) the overall
    score lies in [0,100], like the four dimension scores. *)
Theorem overall_in_range_for_convex_weights (now : string)
    (ar : odict pyval) (algorithm : ScoringAlgorithm) (w : odict Q)
    (options : odict pyval) :
  0 <= weight_of w "quality" -> 0 <= weight_of w "innovation" ->
  0 <= weight_of w "feasibility" -> 0 <= weight_of w "business_value" ->
  weight_of w "quality" + weight_of w "innovation"
  + weight_of w "feasibility" + weight_of w "business_value" <= 1 ->
  all_ranged (score_analysis now ar algorithm (Some w) options).
Proof.
  intros Hq Hi Hf Hb Hsum.
  destruct w as [|kv w].
  { apply ScoringFacts.score_analysis_default_ranged. auto. }
  pose proof (ScoringFacts.score_analysis_dims_ranged now ar algorithm
                (Some (kv :: w)) options) as Hd.
  cbv zeta in Hd. destruct Hd as (Rq & Ri & Rf & Rb).
  unfold all_ranged. repeat (split; [assumption|]).
  pose proof (ScoringFacts.score_analysis_weighted now ar algorithm
                (Some (kv :: w)) options) as Hw.
  unfold overall_weighted in Hw.
  cut (ranged (Num.round2
                 (weighted_sum
                    (quality_score (score_analysis now ar algorithm
                                      (Some (kv :: w)) options))
                    (innovation_score (score_analysis now ar algorithm
                                         (Some (kv :: w)) options))
                    (feasibility_score (score_analysis now ar algorithm
                                          (Some (kv :: w)) options))
                    (business_value_score (score_analysis now ar algorithm
                                             (Some (kv :: w)) options))
                    (effective_weights (Some (kv :: w)))))).
  { unfold ranged. rewrite <- Hw. auto. }
  apply ScoringFacts.round2_ranged.
  unfold weighted_sum, effective_weights.
  destruct Rq as [Rq0 Rq1], Ri as [Ri0 Ri1], Rf as [Rf0 Rf1],
    Rb as [Rb0 Rb1].
  set (q := quality_score _) in *. set (i := innovation_score _) in *.
  set (f := feasibility_score _) in *.
  set (b := business_value_score _) in *.
  set (wq := weight_of _ "quality") in *.
  set (wi := weight_of _ "innovation") in *.
  set (wf := weight_of _ "feasibility") in *.
  set (wb := weight_of _ "business_value") in *.
  split; nra.
Qed.

Lemma overall_in_range_for_convex_weights_witness :
  let analyze := Analysis.analyze_project (fun _ => "") (fun _ => "")
                   (Ok Demo.models) in
  all_ranged (score_analysis "" (analyze Demo.project_x) BASIC
                (Some Demo.fine_weights) []).
Proof.
  cbv zeta.
  apply overall_in_range_for_convex_weights; vm_compute; discriminate.
Defined.



End ScoringExtra.

(** ** Risk level and scores *)

Module RiskScoring.
Import Scoring Spec ScoringFacts Analysis.

Lemma pipeline_bundle f g (M : models) (p : project_data) :
  let ar := analyze_project f g (Ok M) p in
  od_get ar "features"
  = Some (PDict (Features.extract_features (feature_extractor M) p))
  /\ od_get ar "tech_stack_analysis"
     = Some (PDict (Tech.analyze_tech_stack (tech_lister M)
                      (tech_stack_analyzer M) (tech_vectorizer M) p))
  /\ od_get ar "risk_assessment" = Some (PDict no_risk).
Proof.
  cbv zeta. split; [reflexivity|]. split; [reflexivity|].
  unfold analyze_project.
  cbn [mbind exn_bind bind catch od_get String.eqb Ascii.eqb Bool.eqb].
  rewrite (RiskFacts.assess_risks_no_risk f g _ _
             (RiskFacts.not_tech_analysis_key _ _ _ p
                "outdated_technologies" eq_refl)
             (RiskFacts.not_tech_analysis_key _ _ _ p "dependencies" eq_refl)
             (RiskFacts.not_feature_key _ p "security_issues" eq_refl)
             (RiskFacts.not_feature_key _ p "maintenance_score" eq_refl)).
  reflexivity.
Qed.

Lemma pipeline_maturity_read L a v p (ar : odict pyval) :
  od_get ar "tech_stack_analysis"
  = Some (PDict (Tech.analyze_tech_stack L a v p)) ->
  exists m,
    Py.get3 ar "tech_stack_analysis" "analysis" "maturity" (PNum 0.5)
    = Ok (PNum m)
    /\ m = Py.fnum (Tech.analyze_tech_features a v
                      (Tech.detect_technologies L a p)) "maturity" 0.5.
Proof.
  intros H. unfold Py.get3, Py.dget, Py.fnum. rewrite H.
  destruct (TechFacts.analyze_tech_stack_Ok L a v p) as (recs & _ & ->).
  cbn [Py.get od_get String.eqb Ascii.eqb Bool.eqb mbind exn_bind bind].
  destruct (Tech.detect_technologies L a p); eexists; split; reflexivity.
Qed.

(** The feasibility score of the base algorithm on the bundle of a
    project: the bonus of the low risk level is part of it. *)
Lemma pipeline_feasibility f g (M : models) (p : project_data) :
  let ar := analyze_project f g (Ok M) p in
  let features := Features.extract_features (feature_extractor M) p in
  let analysis :=
    Tech.analyze_tech_features (tech_stack_analyzer M) (tech_vectorizer M)
      (Tech.detect_technologies (tech_lister M) (tech_stack_analyzer M) p) in
  let complexity := Py.fnum features "overall_complexity" 0.5 in
  let maturity := Py.fnum analysis "maturity" 0.5 in
  let size := Py.fnum features "project_size" 0 in
  let maintainability := Py.fnum features "maintainability_score" 0 in
  calculate_feasibility_score (PDict features) ar
  == Num.clamp (50 - (complexity - 0.5) * 30 + (maturity - 0.5) * 25
                - (if Qeq_bool size 3 then 15
                   else if Qeq_bool size 2 then 5 else 0)
                + 5 + maintainability * 15).
Proof.
  cbv zeta.
  destruct (pipeline_bundle f g M p) as (Hf & Ht & Hr). cbv zeta in *.
  destruct (pipeline_maturity_read _ _ _ _ _ Ht) as (m & Hm & Em).
  rewrite <- Em.
  unfold calculate_feasibility_score, add_feature, Py.contains, Py.getitem,
    Py.get, od_mem, Py.fnum.
  rewrite Hm. unfold Py.get2, Py.dget. rewrite Hr.
  cbn [Py.get no_risk od_get String.eqb Ascii.eqb Bool.eqb Py.eq_str].
  destruct (FeaturesExtra.extract_features_reads (feature_extractor M) p)
    as [(-> & -> & ->)|(c & s & t & -> & -> & ->)];
    cbn [mbind exn_bind bind Py.as_num catch Py.eq_num];
    change (Py.eq_str (PStr "low") "high") with false;
    change (Py.eq_str (PStr "low") "medium") with false;
    change (Py.eq_str (PStr "low") "low") with true; cbv iota.
  - change (Qeq_bool 0 3) with false. change (Qeq_bool 0 2) with false.
    cbv iota. apply clamp_comp. ring.
  - destruct (Qeq_bool s 3); [apply clamp_comp; ring|].
    destruct (Qeq_bool s 2); apply clamp_comp; ring.
Qed.

Lemma base_feasibility name version now (ar : odict pyval) fs :
  od_get ar "features" = Some (PDict fs) ->
  feasibility_score (base_calculate_score name version now ar)
  = calculate_feasibility_score (PDict fs) ar.
Proof.
  intros H. unfold base_calculate_score.
  assert (Hd : Py.dget ar "features" (PDict []) = PDict fs)
    by (unfold Py.dget; rewrite H; reflexivity).
  destruct (base_body_Ok name version now ar (od_keys fs)) as [d ->].
  { cbv zeta. rewrite Hd. reflexivity. }
  cbn [catch]. fields. rewrite Hd. reflexivity.
Qed.

(** With the risk level low the adjustment pass never takes the 10
    points off the quality score and the 15 points off the feasibility
    score that it reserves for a high risk. *)
Lemma low_risk_adjustments (version : string) (base : ScoringResult)
    (ar : odict pyval) :
  all_ranged base ->
  Py.get2 ar "risk_assessment" "level" (PStr "medium") = Ok (PStr "low") ->
  let r := apply_advanced_adjustments version base ar in
  quality_score base - 5 <= quality_score r <= quality_score base
  /\ feasibility_score base - 10 <= feasibility_score r
     <= feasibility_score base + 10.
Proof.
  intros (Hq & Hi & Hf & Hb & _) Hlevel r. subst r.
  unfold apply_advanced_adjustments.
  destruct (adjustments_body version base ar) as [r|e] eqn:E; cbn [catch];
    [|repeat split; lra].
  unfold adjustments_body in E.
  repeat match goal with
  | H : Py.get2 _ "risk_assessment" _ _ = Ok ?y |- _ =>
      rewrite Hlevel in H; injection H as <-
  | H : mbind _ ?m = Ok _ |- _ =>
      let x := fresh "x" in let Hx := fresh "Hx" in
      apply bind_Ok in H as (x & Hx & H)
  | H : (if ?c then _ else _) = Ok _ |- _ => destruct c
  | H : Ok _ = Ok ?y |- _ => is_var y; injection H as <-
  end;
    apply new_ScoringResult_inv in E as [-> _];
    fields;
    change (Py.eq_str (PStr "low") "high") with false;
    change (Py.eq_str (PStr "low") "low") with true; cbv iota;
    repeat match goal with
           | |- context [if ?c then _ else _] => destruct c
           end;
    split;
    match goal with
    | |- ?x - ?lo <= Num.clamp' (?x + ?d) <= ?x + ?hi =>
        apply (ScoringExtra.clamp'_shift x d (- lo) hi); try assumption;
        vm_compute; discriminate
    | |- ?x - ?lo <= Num.clamp' (?x + ?d) <= ?x =>
        cut (x + - lo <= Num.clamp' (x + d) <= x + 0); [lra|];
        apply (ScoringExtra.clamp'_shift x d (- lo) 0); try assumption;
        vm_compute; discriminate
    end.
Qed.

(** C10: when the models are loaded, the risk assessment of the analysis
    bundle of every project is level low with no factor: the feature
    bundle has neither of the keys security_issues and maintenance_score,
    the technology analysis has neither of the keys outdated_technologies
    and dependencies, so no branch of [assess_risks] that raises the level
    is taken.  The risk penalties of the scoring algorithms are therefore
    never applied.  The feasibility score of the base algorithm is
    [_calculate_feasibility_score] on the bundle and carries the 5 points
    of a low risk, not the deduction of 20 or 10 of a high or medium one.
    The adjustment pass of the advanced algorithm lowers the quality
    score by at most 5 and the feasibility score by at most 10: the 10
    and 15 points it takes off at high risk are never taken. *)
Theorem risk_always_low (str_of_num : Q -> string)
    (str_of_value : pyval -> string) (M : Analysis.models)
    (p : project_data) (now : string) :
  let features := Features.extract_features (Analysis.feature_extractor M) p in
  let tech_analysis :=
    Tech.analyze_tech_stack (Analysis.tech_lister M)
      (Analysis.tech_stack_analyzer M) (Analysis.tech_vectorizer M) p in
  let analysis :=
    Tech.analyze_tech_features (Analysis.tech_stack_analyzer M)
      (Analysis.tech_vectorizer M)
      (Tech.detect_technologies (Analysis.tech_lister M)
         (Analysis.tech_stack_analyzer M) p) in
  let ar := Analysis.analyze_project str_of_num str_of_value (Ok M) p in
  let base := calculate_score now BASIC ar in
  let advanced_base := base_calculate_score "advanced" "2.0.0" now ar in
  let advanced := calculate_score now ADVANCED ar in
  let complexity := Py.fnum features "overall_complexity" 0.5 in
  let maturity := Py.fnum analysis "maturity" 0.5 in
  let size := Py.fnum features "project_size" 0 in
  let maintainability := Py.fnum features "maintainability_score" 0 in
  od_mem features "security_issues" = false
  /\ od_mem features "maintenance_score" = false
  /\ od_mem tech_analysis "outdated_technologies" = false
  /\ od_mem tech_analysis "dependencies" = false
  /\ od_get ar "risk_assessment" = Some (PDict no_risk)
  /\ Py.get2 ar "risk_assessment" "level" (PStr "medium") = Ok (PStr "low")
  /\ Py.get2 ar "risk_assessment" "factors" PNone = Ok (PList [])
  /\ feasibility_score base = calculate_feasibility_score (PDict features) ar
  /\ feasibility_score base
     == Num.clamp (50 - (complexity - 0.5) * 30 + (maturity - 0.5) * 25
                   - (if Qeq_bool size 3 then 15
                      else if Qeq_bool size 2 then 5 else 0)
                   + 5 + maintainability * 15)
  /\ quality_score advanced_base - 5 <= quality_score advanced
     <= quality_score advanced_base
  /\ feasibility_score advanced_base - 10 <= feasibility_score advanced
     <= feasibility_score advanced_base + 10.
Proof.
  cbv zeta.
  destruct (pipeline_bundle str_of_num str_of_value M p) as (Hf & Ht & Hr).
  cbv zeta in Hf, Ht, Hr.
  assert (Hlevel : Py.get2 (analyze_project str_of_num str_of_value (Ok M) p)
                     "risk_assessment" "level" (PStr "medium")
                   = Ok (PStr "low")).
  { unfold Py.get2, Py.dget. rewrite Hr. reflexivity. }
  split; [exact (RiskFacts.not_feature_key _ p "security_issues" eq_refl)|].
  split; [exact (RiskFacts.not_feature_key _ p "maintenance_score" eq_refl)|].
  split; [exact (RiskFacts.not_tech_analysis_key _ _ _ p
                   "outdated_technologies" eq_refl)|].
  split; [exact (RiskFacts.not_tech_analysis_key _ _ _ p
                   "dependencies" eq_refl)|].
  split; [exact Hr|]. split; [exact Hlevel|].
  split; [unfold Py.get2, Py.dget; rewrite Hr; reflexivity|].
  split; [exact (base_feasibility _ _ _ _ _ Hf)|].
  split.
  - unfold calculate_score. rewrite (base_feasibility _ _ _ _ _ Hf).
    apply pipeline_feasibility.
  - unfold calculate_score. rewrite advanced_calculate_score_eq.
    apply low_risk_adjustments; [apply base_ranged | exact Hlevel].
Qed.

End RiskScoring.

(** ** Rule-based text analyses *)

Module NlpFacts.
Import NlpRules.

(** *** Sentiment *)

Lemma fold_insert_const {V} (P : V -> Prop) (c : V) (l : list string)
    (m : gmap string V) :
  P c ->
  (forall k v, m !! k = Some v -> P v) ->
  forall k v, fold_left (fun acc word => <[word := c]> acc) l m !! k = Some v ->
              P v.
Proof.
  intros Hc. revert m. induction l as [|w l IH]; simpl; intros m Hm k v.
  - apply Hm.
  - apply IH. intros k' v'. rewrite lookup_insert.
    case_decide; [intros [= <-]; exact Hc | apply Hm].
Qed.

(** Every word of the lexicon weighs 1 or -1. *)
Lemma lexicon_values (word : string) (s : Q) :
  sentiment_lexicon !! word = Some s -> s = 1 \/ s = - (1).
Proof.
  unfold sentiment_lexicon. cbv zeta.
  apply (fold_insert_const (fun s => s = 1 \/ s = - (1))); [auto|].
  apply (fold_insert_const (fun s => s = 1 \/ s = - (1))); [auto|].
  intros k v. rewrite lookup_empty. discriminate.
Qed.

(** The score moves by at most one per word. *)
Lemma sentiment_fold_bound (words : list string) (acc : Q * list string) :
  let acc' := fold_left sentiment_step words acc in
  fst acc - Num.of_nat (length words) <= fst acc'
  /\ fst acc' <= fst acc + Num.of_nat (length words)
  /\ (length (snd acc') <= length (snd acc) + length words)%nat.
Proof.
  revert acc. induction words as [|w words IH]; intros acc; cbv zeta.
  - change (Num.of_nat (length [])) with 0. simpl. split; [lra|].
    split; [lra | lia].
  - cbn [fold_left length]. rewrite NumFacts.of_nat_S.
    specialize (IH (sentiment_step acc w)). cbv zeta in IH.
    destruct IH as (H1 & H2 & H3).
    assert (Hs : fst acc - 1 <= fst (sentiment_step acc w) <= fst acc + 1
                 /\ (length (snd (sentiment_step acc w))
                     <= S (length (snd acc)))%nat).
    { unfold sentiment_step.
      destruct (sentiment_lexicon !! w) as [s|] eqn:E.
      - apply lexicon_values in E. cbn [fst snd]. rewrite length_app.
        simpl. destruct E as [-> | ->]; split; try lia; split; lra.
      - split; [split; lra | lia]. }
    destruct Hs as ([Hs1 Hs2] & Hs3).
    split; [lra|]. split; [lra | lia].
Qed.

Lemma label_cases (q : Q) :
  let label :=
    if negb (Qle_bool q 0.1) then "positive"
    else if negb (Qle_bool (- (0.1)) q) then "negative"
    else "neutral" in
  (label = "positive" <-> 0.1 < q)
  /\ (label = "negative" <-> q < - (0.1))
  /\ (label = "neutral" <-> - (0.1) <= q <= 0.1).
Proof.
  cbv zeta.
  destruct (negb (Qle_bool q 0.1)) eqn:E1.
  - apply NumFacts.gt_spec in E1.
    repeat split; intros; try discriminate; try lra.
  - apply NumFacts.gt_false in E1.
    destruct (negb (Qle_bool (- (0.1)) q)) eqn:E2.
    + apply NumFacts.gt_spec in E2.
      repeat split; intros; try discriminate; try lra.
    + apply NumFacts.gt_false in E2.
      repeat split; intros; try discriminate; try lra.
Qed.

(** X21: whatever the tokenizer returns, the sentiment score lies between
    -1 and 1, the intensity is its absolute value, and the label is
    positive exactly above 0.1, negative exactly below -0.1 and neutral
    in between.  When the tokenizer raises, the score is 0 and the label
    neutral. *)
Theorem sentiment_score_bounded (word_tokenize : string -> exn (list string))
    (text : string) :
  let result := analyze_sentiment word_tokenize text in
  exists (q : Q) (label : string),
    od_get result "score" = Some (PNum q)
    /\ od_get result "intensity" = Some (PNum (Qabs q))
    /\ od_get result "label" = Some (PStr label)
    /\ - (1) <= q <= 1
    /\ (label = "positive" <-> 0.1 < q)
    /\ (label = "negative" <-> q < - (0.1))
    /\ (label = "neutral" <-> - (0.1) <= q <= 0.1)
    /\ (raises (word_tokenize (Str.lower text)) ->
        q = 0 /\ label = "neutral").
Proof.
  cbv zeta. unfold analyze_sentiment.
  destruct (word_tokenize (Str.lower text)) as [words|e];
    cbn [mbind exn_bind bind catch].
  - do 2 eexists. split; [reflexivity|]. split; [reflexivity|].
    split; [reflexivity|].
    cut (let q := if (0 <? length words)%nat
                  then fst (fold_left sentiment_step words (0, []))
                       / Num.of_nat (length words)
                  else 0 in - (1) <= q <= 1).
    { cbv zeta. intros Hq. split; [exact Hq|].
      pose proof (label_cases
                    (if (0 <? length words)%nat
                     then fst (fold_left sentiment_step words (0, []))
                          / Num.of_nat (length words)
                     else 0)) as (L1 & L2 & L3).
      repeat (split; [assumption|]). intros []. }
    cbv zeta.
    pose proof (sentiment_fold_bound words (0, [])) as H.
    cbv zeta in H. cbn [fst snd] in H. destruct H as (H1 & H2 & _).
    destruct words as [|w words']; [simpl; lra|].
    set (ws := w :: words') in *.
    replace (0 <? length ws)%nat with true by reflexivity.
    assert (Hp : 0 < Num.of_nat (length ws))
      by (apply NumFacts.of_nat_pos; simpl; lia).
    split.
    + apply Qle_shift_div_l; [exact Hp|]. lra.
    + apply Qle_shift_div_r; [exact Hp|]. lra.
  - exists 0, "neutral". repeat split; intros; try discriminate; try lra.
Qed.

(** *** Shares of keyword counts *)

Lemma of_nat_list_sum (l : list nat) :
  Num.of_nat (list_sum l) == Num.sum (map Num.of_nat l).
Proof.
  induction l as [|n l IH].
  - reflexivity.
  - change (list_sum (n :: l)) with (n + list_sum l)%nat. cbn [map].
    rewrite NumFacts.of_nat_add, NumFacts.sum_cons, IH. reflexivity.
Qed.

Lemma shares_sum (counts : odict nat) (total : nat) :
  Num.sum (map snd (shares counts total))
  == Num.of_nat (list_sum (map snd counts)) / Num.of_nat total.
Proof.
  unfold shares. induction counts as [|[k n] counts IH].
  - reflexivity.
  - cbn [map snd fst].
    change (list_sum (n :: map snd counts))
      with (n + list_sum (map snd counts))%nat.
    rewrite NumFacts.sum_cons, IH, NumFacts.of_nat_add.
    unfold Qdiv. ring.
Qed.

(** The shares of positive counts sum to 1. *)
Lemma shares_sum_one (counts : odict nat) :
  (0 < list_sum (map snd counts))%nat ->
  Num.sum (map snd (shares counts (list_sum (map snd counts)))) == 1.
Proof.
  intros H. rewrite shares_sum. apply NumFacts.of_nat_pos in H.
  field. intros Hz. rewrite Hz in H. apply (Qlt_irrefl 0), H.
Qed.

Lemma found_keywords_length (text_lower : string) (keywords : list string) :
  (length (found_keywords text_lower keywords) <= length keywords)%nat.
Proof. apply length_filter. Qed.

(** *** Topics *)

(** The item chosen by [max] has the largest value, and the items before
    it have smaller ones. *)
Lemma max_by_value_spec (rest : list (string * nat)) (first : string * nat) :
  let m := max_by_value first rest in
  exists pre post,
    first :: rest = pre ++ m :: post
    /\ Forall (fun item => (snd item < snd m)%nat) pre
    /\ Forall (fun item => (snd item <= snd m)%nat) post.
Proof.
  cbv zeta. unfold max_by_value. revert first.
  induction rest as [|x rest IH]; intros first.
  - exists [], []. repeat constructor.
  - cbn [fold_left]. destruct (snd first <? snd x)%nat eqn:E.
    + apply Nat.ltb_lt in E.
      destruct (IH x) as (pre & post & Hdec & Hpre & Hpost).
      set (m := fold_left _ rest x) in *.
      assert (Hx : (snd x <= snd m)%nat).
      { destruct pre as [|y pre]; simpl in Hdec.
        - injection Hdec as <- _. lia.
        - injection Hdec as <- _. apply Forall_inv in Hpre.
          cbn beta in Hpre. lia. }
      exists (first :: pre), post. rewrite Hdec. split; [reflexivity|].
      split; [|exact Hpost]. constructor; [lia | exact Hpre].
    + apply Nat.ltb_ge in E.
      destruct (IH first) as (pre & post & Hdec & Hpre & Hpost).
      set (m := fold_left _ rest first) in *.
      destruct pre as [|y pre]; simpl in Hdec.
      * injection Hdec as Hm Hrest. exists [], (x :: post).
        rewrite <- Hm, Hrest. split; [reflexivity|].
        split; [constructor|]. constructor; [lia|].
        rewrite <- Hm in Hpost. exact Hpost.
      * injection Hdec as <- Hrest.
        exists (first :: x :: pre), post. rewrite Hrest.
        split; [reflexivity|]. split; [|exact Hpost].
        pose proof (Forall_inv Hpre) as Hf. cbn beta in Hf.
        constructor; [exact Hf|]. constructor; [lia|].
        apply Forall_inv_tail in Hpre. exact Hpre.
Qed.

(** X22: the main topic of a text is one of the five topics of the
    table, namely the first one, in the order of the table, whose number
    of keywords found in the text is the largest.  It is never the
    fallback "general", and a text without any topic keyword is filed
    under "technology". *)
Theorem main_topic_is_first_maximum (text : string) :
  let result := analyze_topics text in
  let hits := fun entry : string * list string =>
                length (found_keywords (Str.lower text) (snd entry)) in
  exists main pre post,
    topics = pre ++ main :: post
    /\ od_get result "main_topic" = Some (PStr (fst main))
    /\ od_get result "main_topic_score" = Some (Features.num (hits main))
    /\ Forall (fun entry => (hits entry < hits main)%nat) pre
    /\ Forall (fun entry => (hits entry <= hits main)%nat) post
    /\ (hits main = 0%nat -> fst main = "technology").
Proof.
  cbv zeta. unfold analyze_topics. cbn [catch].
  set (hits := fun entry : string * list string =>
                 length (found_keywords (Str.lower text) (snd entry))).
  set (scores := map _ (map _ topics)).
  assert (Hscores : scores = map (fun entry => (fst entry, hits entry)) topics).
  { subst scores. rewrite map_map. reflexivity. }
  destruct scores as [|first rest] eqn:E; [discriminate|].
  destruct (max_by_value_spec rest first) as (pre' & post' & Hdec & Hpre & Hpost).
  set (m := max_by_value first rest) in *.
  rewrite Hscores in Hdec.
  apply fmap_app_inv in Hdec as (pre & tl & Epre & Etl & Htopics).
  symmetry in Etl.
  apply fmap_cons_inv in Etl as (main & post & Em & Epost & ->).
  exists main, pre, post. split; [exact Htopics|].
  cbn [od_get String.eqb Ascii.eqb Bool.eqb].
  rewrite Em. cbn [fst snd]. split; [reflexivity|]. split; [reflexivity|].
  rewrite Em in Hpre, Hpost. cbn [snd] in Hpre, Hpost.
  rewrite Epre, Forall_fmap in Hpre. rewrite Epost, Forall_fmap in Hpost.
  split; [exact Hpre|]. split; [exact Hpost|].
  intros Hzero. destruct pre as [|x pre].
  - simpl in Htopics. unfold topics in Htopics.
    injection Htopics as <- _. reflexivity.
  - apply Forall_inv in Hpre. cbn in Hpre.
    change (hits main = 0%nat) in Hzero. lia.
Qed.

Lemma elem_le_list_sum (n : nat) (l : list nat) :
  n ∈ l -> (n <= list_sum l)%nat.
Proof.
  induction l as [|x l IH]; intros H; [inversion H|].
  change (list_sum (x :: l)) with (x + list_sum l)%nat.
  apply elem_of_cons in H as [->|H]; [lia|]. specialize (IH H). lia.
Qed.

(** Shares are either absent or a distribution. *)
Lemma shares_distribution (counts : odict nat) :
  let total := list_sum (map snd counts) in
  let d := if (0 <? total)%nat then shares counts total else [] in
  (total = 0%nat /\ d = [])
  \/ (map fst d = map fst counts
      /\ Forall (fun x => 0 <= x <= 1) (map snd d)
      /\ Num.sum (map snd d) == 1).
Proof.
  cbv zeta. destruct (0 <? _)%nat eqn:E.
  - apply Nat.ltb_lt in E. right. split; [|split].
    + unfold shares. rewrite map_map. reflexivity.
    + unfold shares. rewrite map_map. apply Forall_forall. intros x Hx.
      apply list_elem_of_fmap in Hx as ([k n] & -> & Hin). cbn [snd].
      apply NumFacts.ratio_unit; [|exact E].
      apply elem_le_list_sum. apply list_elem_of_fmap.
      exists (k, n). auto.
    + apply shares_sum_one, E.
  - apply Nat.ltb_ge in E. left. split; [lia | reflexivity].
Qed.

(** X23: the topic distribution of a text and the category weights of its
    keywords are either empty, when no keyword occurs, or shares between 0
    and 1, one per topic or category in the order of the table, that sum
    to 1. *)
Theorem keyword_shares_are_distributions :
  (forall text : string,
      exists d : odict Q,
        od_get (analyze_topics text) "distribution" = Some (Py.num_dict d)
        /\ (d = []
            \/ (map fst d = map fst topics
                /\ Forall (fun x => 0 <= x <= 1) (map snd d)
                /\ Num.sum (map snd d) == 1)))
  /\ (forall (word_tokenize : string -> exn (list string))
             (pos_tag : list string -> exn (list (string * string)))
             (text : string),
        exists d : odict Q,
          od_get (extract_keywords word_tokenize pos_tag text)
                 "category_weights" = Some (Py.num_dict d)
          /\ (d = []
              \/ (map fst d = map fst keyword_categories
                  /\ Forall (fun x => 0 <= x <= 1) (map snd d)
                  /\ Num.sum (map snd d) == 1))).
Proof.
  split.
  - intros text. unfold analyze_topics. cbn [catch].
    eexists. split; [reflexivity|].
    match goal with
    | |- context [shares ?c _] => destruct (shares_distribution c) as [[_ H]|H]
    end.
    + left. exact H.
    + right. cbv zeta in H. rewrite !map_map in H. cbn [fst] in H.
      rewrite !map_map. exact H.
  - intros word_tokenize pos_tag text. unfold extract_keywords.
    destruct (word_tokenize (Str.lower text)) as [words|e];
      cbn [mbind exn_bind bind catch].
    + eexists. split; [reflexivity|].
      match goal with
      | |- context [shares ?c _] =>
          destruct (shares_distribution c) as [[_ H]|H]
      end.
      * left. exact H.
      * right. cbv zeta in H. rewrite !map_map in H. cbn [fst] in H.
        rewrite !map_map. exact H.
    + exists []. split; [reflexivity | left; reflexivity].
Qed.

(** *** Readability *)

(** A counted vowel needs a character before it that is no vowel. *)
Lemma vowel_groups_bound (l : list ascii) :
  (2 * vowel_groups true l <= length l)%nat
  /\ (2 * vowel_groups false l <= length l + 1)%nat.
Proof.
  induction l as [|c l [IH1 IH2]]; [simpl; lia|].
  cbn [vowel_groups length]. destruct (is_vowel c); cbn [andb negb]; lia.
Qed.

Lemma syllables_in_bound (word_lower : string) :
  (1 <= syllables_in word_lower)%nat
  /\ (2 * syllables_in word_lower <= Nat.max 2 (String.length word_lower))%nat.
Proof.
  unfold syllables_in. cbv zeta.
  pose proof (vowel_groups_bound (Str.chars word_lower)) as [H _].
  rewrite StrFacts.chars_length in H.
  destruct (vowel_groups true (Str.chars word_lower) =? 0)%nat eqn:E.
  - split; lia.
  - apply Nat.eqb_neq in E. split; lia.
Qed.

Lemma syllables_positive (word : string) : (1 <= syllables word)%nat.
Proof.
  unfold syllables. destruct (_ <=? 3)%nat; [lia|].
  apply syllables_in_bound.
Qed.

Lemma syllable_count_bound (words : list string) (count : nat) :
  (count + length words
   <= fold_left (fun count word => (count + syllables word)%nat) words count)%nat.
Proof.
  revert count. induction words as [|w words IH]; intros count; simpl; [lia|].
  specialize (IH (count + syllables w)%nat).
  pose proof (syllables_positive w). lia.
Qed.

Lemma complex_count_bound (words : list string) (count : nat) :
  (fold_left
     (fun complex_count word =>
        if (3 <? syllables_in (Str.lower word))%nat
        then S complex_count else complex_count) words count
   <= count + length (filter (fun word => (8 <=? String.length word)%nat) words))%nat.
Proof.
  revert count. induction words as [|w words IH]; intros count; [simpl; lia|].
  cbn [fold_left]. rewrite filter_cons.
  destruct (3 <? syllables_in (Str.lower w))%nat eqn:E.
  - apply Nat.ltb_lt in E.
    pose proof (syllables_in_bound (Str.lower w)) as [_ H].
    rewrite StrFacts.lower_length in H.
    assert (Hlong : (8 <=? String.length w)%nat = true)
      by (apply Nat.leb_le; lia).
    rewrite decide_True by (rewrite Hlong; exact I).
    specialize (IH (S count)). cbn [length]. lia.
  - specialize (IH count). case_decide; cbn [length]; lia.
Qed.

Lemma readability_level_known (flesch_score : Q) :
  readability_level flesch_score <> "Unknown".
Proof.
  unfold readability_level.
  repeat match goal with
         | |- context [if ?c then _ else _] => destruct c
         end; discriminate.
Qed.

(** X24: when the two tokenizers succeed, the readability analysis counts
    at least one syllable per word and counts as complex only words of at
    least eight characters; the Flesch score stays below 122.235, and the
    level is "Unknown" exactly when there is no sentence or no word. *)
Theorem readability_counts
    (word_tokenize sent_tokenize : string -> exn (list string))
    (text : string) (sentences words : list string) :
  sent_tokenize text = Ok sentences ->
  word_tokenize text = Ok words ->
  let result := analyze_readability word_tokenize sent_tokenize text in
  exists (syllable_count complex_words : nat) (flesch_score : Q)
         (level : string),
    od_get result "syllable_count" = Some (Features.num syllable_count)
    /\ od_get result "complex_words" = Some (Features.num complex_words)
    /\ od_get result "flesch_score" = Some (PNum flesch_score)
    /\ od_get result "readability_level" = Some (PStr level)
    /\ (length words <= syllable_count)%nat
    /\ (complex_words
        <= length (filter (fun word => (8 <=? String.length word)%nat)
                          words))%nat
    /\ flesch_score < 122.235
    /\ (level = "Unknown" <-> sentences = [] \/ words = []).
Proof.
  intros Hs Hw result. subst result. unfold analyze_readability.
  rewrite Hs, Hw. cbn [mbind exn_bind bind catch].
  do 4 eexists. split; [reflexivity|]. split; [reflexivity|].
  split; [reflexivity|]. split; [reflexivity|].
  split; [apply (syllable_count_bound words 0)|].
  split; [apply (complex_count_bound words 0)|].
  pose proof (syllable_count_bound words 0) as Hsyl. cbn [Nat.add] in Hsyl.
  set (syl := fold_left _ words 0%nat) in *.
  destruct sentences as [|s sentences]; cbn [length Nat.ltb Nat.leb andb fst snd].
  { split; [reflexivity|]. split; auto. }
  destruct words as [|w words]; cbn [length Nat.ltb Nat.leb andb fst snd].
  { split; [reflexivity|]. split; auto. }
  split.
  - cbn [length] in Hsyl.
    set (nw := S (length words)) in *. set (ns := S (length sentences)).
    assert (Hnw : 0 < Num.of_nat nw) by (apply NumFacts.of_nat_pos; lia).
    assert (Hns : 0 < Num.of_nat ns) by (apply NumFacts.of_nat_pos; lia).
    assert (H1 : 0 < Num.of_nat nw / Num.of_nat ns).
    { apply Qlt_shift_div_l; [exact Hns | lra]. }
    assert (H2 : 1 <= Num.of_nat syl / Num.of_nat nw).
    { apply Qle_shift_div_l; [exact Hnw|].
      apply NumFacts.of_nat_le in Hsyl. lra. }
    lra.
  - split; [|intros [H|H]; discriminate].
    intros H. exfalso. eapply readability_level_known. exact H.
Qed.

Lemma readability_counts_witness :
  let word_tokenize := fun s => Ok (Str.split s) in
  let sent_tokenize := fun s => Ok [s] in
  let result :=
    analyze_readability word_tokenize sent_tokenize
      "An unbelievably sophisticated categorisation" in
  od_get result "syllable_count" = Some (PNum 16)
  /\ od_get result "complex_words" = Some (PNum 3)
  /\ od_get result "readability_level" = Some (PStr "Very Difficult").
Proof.
  cbv zeta.
  destruct (readability_counts (fun s => Ok (Str.split s)) (fun s => Ok [s])
              "An unbelievably sophisticated categorisation"
              ["An unbelievably sophisticated categorisation"]
              ["An"; "unbelievably"; "sophisticated"; "categorisation"]
              eq_refl eq_refl)
    as (n & c & f & l & Hn & Hc & _ & Hl & _).
  vm_compute. repeat split; reflexivity.
Defined.

(** *** Similarity *)

(** X25: the similarity of two texts is a number between 0 and 1 and does
    not depend on their order; it is 0 when a text is empty or the
    tokenizer raises, and a text that has a word outside the stop words
    is at similarity 1 from itself. *)
Theorem text_similarity_properties
    (word_tokenize : string -> exn (list string)) (stop_words : gset string) :
  (forall text1 text2,
      0 <= calculate_text_similarity word_tokenize stop_words text1 text2 <= 1)
  /\ (forall text1 text2,
        calculate_text_similarity word_tokenize stop_words text1 text2
        = calculate_text_similarity word_tokenize stop_words text2 text1)
  /\ (forall text, calculate_text_similarity word_tokenize stop_words text "" = 0)
  /\ (forall text,
        raises (word_tokenize (Str.lower text)) ->
        forall other,
          calculate_text_similarity word_tokenize stop_words text other = 0)
  /\ (forall text tokens word,
        text <> "" ->
        word_tokenize (Str.lower text) = Ok tokens ->
        word ∈ tokens -> word ∉ stop_words ->
        calculate_text_similarity word_tokenize stop_words text text == 1).
Proof.
  split; [|split; [|split; [|split]]].
  - intros text1 text2. unfold calculate_text_similarity.
    destruct (Str.is_empty text1 || Str.is_empty text2);
      cbn [catch]; [lra|].
    destruct (word_tokenize (Str.lower text1)) as [t1|e1];
      cbn [mbind exn_bind bind catch]; [|lra].
    destruct (word_tokenize (Str.lower text2)) as [t2|e2];
      cbn [mbind exn_bind bind catch]; [|lra].
    destruct (_ =? 0)%nat eqn:E; cbn [catch]; [lra|].
    apply Nat.eqb_neq in E. apply NumFacts.ratio_unit; [|lia].
    apply subseteq_size.
    etrans; [apply intersection_subseteq_l | apply union_subseteq_l].
  - intros text1 text2. unfold calculate_text_similarity.
    rewrite (orb_comm (Str.is_empty text2)).
    destruct (Str.is_empty text1 || Str.is_empty text2); [reflexivity|].
    destruct (word_tokenize (Str.lower text1)) as [t1|e1],
             (word_tokenize (Str.lower text2)) as [t2|e2];
      cbn [mbind exn_bind bind catch]; try reflexivity.
    set (words1 := list_to_set t1 ∖ stop_words : gset string).
    set (words2 := list_to_set t2 ∖ stop_words : gset string).
    assert (Hi : words2 ∩ words1 = words1 ∩ words2)
      by (apply leibniz_equiv, intersection_comm).
    assert (Hu : words2 ∪ words1 = words1 ∪ words2)
      by (apply leibniz_equiv, union_comm).
    rewrite Hi, Hu. reflexivity.
  - intros text. unfold calculate_text_similarity.
    rewrite orb_true_r. reflexivity.
  - intros text Hraise other. unfold calculate_text_similarity.
    destruct (Str.is_empty text || Str.is_empty other); [reflexivity|].
    destruct (word_tokenize (Str.lower text)); [destruct Hraise | reflexivity].
  - intros text tokens word Hne Htok Hin Hstop.
    unfold calculate_text_similarity.
    destruct text as [|c text]; [congruence|]. cbn [Str.is_empty orb].
    rewrite Htok. cbn [mbind exn_bind bind].
    set (words := list_to_set tokens ∖ stop_words : gset string).
    assert (Hi : words ∩ words = words)
      by (apply leibniz_equiv, intersection_idemp).
    assert (Hu : words ∪ words = words)
      by (apply leibniz_equiv, union_idemp).
    rewrite Hi, Hu.
    assert (Hsize : (0 < size words)%nat).
    { destruct (size _) eqn:E; [|lia]. apply size_empty_inv in E.
      exfalso. apply (not_elem_of_empty (C:=gset string) word).
      apply E. subst words. apply elem_of_difference.
      split; [apply elem_of_list_to_set; exact Hin | exact Hstop]. }
    destruct (_ =? 0)%nat eqn:E; [apply Nat.eqb_eq in E; lia|].
    cbn [catch]. apply NumFacts.of_nat_pos in Hsize.
    field. intros Hz. rewrite Hz in Hsize. apply (Qlt_irrefl 0), Hsize.
Qed.

Lemma text_similarity_properties_witness :
  let word_tokenize := fun s => Ok (Str.split s) in
  let stop_words : gset string := {[ "the"; "a" ]} in
  calculate_text_similarity word_tokenize stop_words "The Prover" "The Prover"
  == 1.
Proof.
  cbv zeta.
  refine (proj2 (proj2 (proj2 (proj2
            (text_similarity_properties (fun s => Ok (Str.split s))
               {[ "the"; "a" ]}))))
            "The Prover" ["the"; "prover"] "prover" _ eq_refl _ _).
  - discriminate.
  - apply list_elem_of_In. simpl. auto.
  - rewrite elem_of_union, !elem_of_singleton.
    intros [H|H]; discriminate.
Defined.

End NlpFacts.

(** ** Request models *)

Module SchemaFacts.
Import Schemas.

(** *** Project names *)

(** X26: a project name is rejected when it is longer than 255
    characters or consists of white space only (the empty name
    included), and an ASCII name is rejected in these cases only.  An
    accepted ASCII name is stored stripped: it is not empty, has no
    white space at either end, is at most 255 characters long, and is
    accepted unchanged when validated again.  A name given in an update
    is validated in the same way, and an update without name passes. *)
Theorem project_name_validation :
  (forall v : string,
      (255 < Str.len v)%nat \/ Spec.blank v = true ->
      raises (ProjectCreate_name v))
  /\ (forall v : string,
        Str.is_ascii v = true ->
        raises (ProjectCreate_name v) ->
        (255 < Str.len v)%nat \/ Spec.blank v = true)
  /\ (forall v n : string,
        Str.is_ascii v = true ->
        ProjectCreate_name v = Ok n ->
        n = Str.strip v /\ n <> "" /\ Str.strip n = n
        /\ (Str.len n <= 255)%nat
        /\ ProjectCreate_name n = Ok n)
  /\ ProjectUpdate_name None = Ok None
  /\ (forall v : string,
        ProjectUpdate_name (Some v)
        = (n ← ProjectCreate_name v; Ok (Some n))).
Proof.
  assert (Hlen0 : forall v, (String.length v <? 1)%nat = true -> v = "").
  { intros [|c v] H; [reflexivity|]. simpl in H. discriminate. }
  split; [|split; [|split; [|split]]].
  - intros v H. unfold ProjectCreate_name, validate_name.
    destruct (Str.len v <? 1)%nat; [exact I|].
    destruct (255 <? Str.len v)%nat eqn:E2; cbn [orb]; [exact I|].
    apply Nat.ltb_ge in E2. destruct H as [H|H]; [lia|].
    apply StrFacts.strip_empty_iff in H. rewrite H. exact I.
  - intros v Ha. unfold ProjectCreate_name, validate_name.
    rewrite (StrFacts.len_ascii v Ha).
    destruct (String.length v <? 1)%nat eqn:E1.
    { apply Hlen0 in E1. subst v. right. reflexivity. }
    destruct (255 <? String.length v)%nat eqn:E2; cbn [orb raises].
    { apply Nat.ltb_lt in E2. tauto. }
    destruct (Str.is_empty (Str.strip v)) eqn:E3; cbn [raises]; [|tauto].
    apply TextFacts.is_empty_spec, StrFacts.strip_empty_iff in E3. tauto.
  - intros v n Ha H. unfold ProjectCreate_name, validate_name in H.
    rewrite (StrFacts.len_ascii v Ha) in H.
    destruct (String.length v <? 1)%nat; [discriminate|].
    destruct (255 <? String.length v)%nat eqn:E2; [discriminate|].
    cbn [orb] in H. apply Nat.ltb_ge in E2.
    destruct (Str.is_empty (Str.strip v)) eqn:E3; [discriminate|].
    injection H as <-.
    assert (Hne : Str.strip v <> "").
    { intros H. rewrite H in E3. discriminate. }
    pose proof (StrFacts.strip_length v) as Hl.
    pose proof (StrFacts.len_ascii (Str.strip v)
                  (StrFacts.strip_ascii v Ha)) as Hlen.
    split; [reflexivity|]. split; [exact Hne|].
    split; [apply StrFacts.strip_idempotent|]. split; [lia|].
    unfold ProjectCreate_name, validate_name.
    rewrite StrFacts.strip_idempotent, E3, Hlen.
    replace (String.length (Str.strip v) <? 1)%nat with false.
    2:{ symmetry. apply Nat.ltb_ge. destruct (Str.strip v); [congruence|].
        simpl. lia. }
    replace (255 <? String.length (Str.strip v))%nat with false
      by (symmetry; apply Nat.ltb_ge; lia).
    reflexivity.
  - reflexivity.
  - intros v. unfold ProjectUpdate_name, ProjectCreate_name,
      validate_update_name, validate_name.
    destruct (Str.len v <? 1)%nat eqn:E1; [reflexivity|].
    destruct (255 <? Str.len v)%nat; [reflexivity|]. cbn [orb].
    destruct (Str.is_empty (Str.strip v)); [reflexivity|].
    destruct v; [discriminate | reflexivity].
Qed.

Lemma project_name_validation_witness :
  ProjectCreate_name "  Rate System " = Ok "Rate System"
  /\ ProjectCreate_name "Rate System" = Ok "Rate System".
Proof.
  assert (H : ProjectCreate_name "  Rate System " = Ok "Rate System")
    by (vm_compute; reflexivity).
  split; [exact H|].
  exact (proj2 (proj2 (proj2 (proj2
           (proj1 (proj2 (proj2 project_name_validation))
              "  Rate System " "Rate System" eq_refl H))))).
Defined.

End SchemaFacts.

(** ** Batch scoring *)

Module BatchFacts.
Import Scoring Batch.

Section route.
Context {DB : Type}.
Variable score_project : ScoringRequest -> DB -> exn ScoringResponse * DB.

(** The loop files each project id under exactly one of the two lists. *)
Lemma batch_fold_counts (request : BatchScoringRequest) (ids : list Z)
    (state : list ScoringResponse * list Z * DB) :
  let state' := fold_left (batch_step score_project request) ids state in
  (length (fst (fst state')) + length (snd (fst state'))
   = length (fst (fst state)) + length (snd (fst state)) + length ids)%nat
  /\ exists failed,
       snd (fst state') = snd (fst state) ++ failed /\ sublist failed ids.
Proof.
  revert state. induction ids as [|project_id ids IH]; intros state; cbv zeta.
  - cbn [fold_left length]. split; [lia|]. exists []. rewrite app_nil_r.
    split; [reflexivity | constructor].
  - cbn [fold_left length].
    specialize (IH (batch_step score_project request state project_id)).
    cbv zeta in IH. destruct IH as (Hcount & failed & Hfailed & Hsub).
    rewrite Hcount, Hfailed. clear Hcount Hfailed.
    unfold batch_step.
    destruct (new_ScoringRequest _ _ _ _) as [req|e].
    + destruct (score_project req (snd state)) as [[resp|e] db'];
        cbn [fst snd].
      * rewrite length_app. cbn [length]. split; [lia|].
        exists failed. split; [reflexivity|]. apply sublist_cons. exact Hsub.
      * rewrite length_app. cbn [length]. split; [lia|].
        exists (project_id :: failed). rewrite <- app_assoc.
        split; [reflexivity|]. apply sublist_skip. exact Hsub.
    + cbn [fst snd]. rewrite length_app. cbn [length]. split; [lia|].
      exists (project_id :: failed). rewrite <- app_assoc.
      split; [reflexivity|]. apply sublist_skip. exact Hsub.
Qed.


End route.

(** X27: the batch endpoint accounts for every requested project: the
    number of results and the number of failed ids add up to the total,
    which is the number of ids in the request, the success count is the
    number of results, and the failed ids are ids of the request, in
    their order. *)
Theorem batch_accounts_for_every_project {DB : Type}
    (score_project : ScoringRequest -> DB -> exn ScoringResponse * DB)
    (batch_request : BatchScoringRequest) (db : DB) :
  let response := fst (batch_score_projects score_project batch_request db) in
  total response = length (project_ids batch_request)
  /\ success response = length (results response)
  /\ (success response + length (failed_projects response))%nat
     = total response
  /\ sublist (failed_projects response) (project_ids batch_request).
Proof.
  cbv zeta. unfold batch_score_projects.
  cbn [fst total success results failed_projects].
  pose proof (batch_fold_counts score_project batch_request
                (project_ids batch_request) ([], [], db)) as H.
  cbv zeta in H. cbn [fst snd length app Nat.add] in H.
  destruct H as (Hcount & failed & Hfailed & Hsub).
  split; [reflexivity|]. split; [reflexivity|].
  split; [exact Hcount|]. rewrite Hfailed. exact Hsub.
Qed.



End BatchFacts.

(** ** Classification *)

Module ClassifierFacts.
Import Classifier.

(** *** Ranking *)











(** *** Cleaning *)

(** What [runs] returns: non-empty words of characters satisfying [p]. *)
Lemma runs_words (p : ascii -> bool) (l cur : list ascii) :
  Forall (fun c => p c = true) cur ->
  Forall (fun w => w <> "" /\ Forall (fun c => p c = true) (Str.chars w))
         (Str.runs p cur l).
Proof.
  revert cur. induction l as [|c l IH]; intros cur Hcur; cbn [Str.runs].
  - destruct cur as [|c' cur']; [constructor|]. repeat constructor.
    + intros H. apply (f_equal Str.chars) in H.
      rewrite StrFacts.chars_of_chars in H. simpl in H.
      destruct (rev cur'); discriminate.
    + rewrite StrFacts.chars_of_chars. apply Forall_rev. exact Hcur.
  - destruct (p c) eqn:E.
    + apply IH. constructor; assumption.
    + destruct cur as [|c' cur']; [apply IH; constructor|].
      constructor; [|apply IH; constructor]. split.
      * intros H. apply (f_equal Str.chars) in H.
        rewrite StrFacts.chars_of_chars in H. simpl in H.
        destruct (rev cur'); discriminate.
      * rewrite StrFacts.chars_of_chars. apply Forall_rev. exact Hcur.
Qed.

(** Reading a word, and the separator after it. *)
Lemma runs_word (p : ascii -> bool) (w rest cur : list ascii) :
  Forall (fun c => p c = true) w ->
  Str.runs p cur (w ++ rest) = Str.runs p (rev w ++ cur) rest.
Proof.
  revert cur. induction w as [|c w IH]; intros cur Hw; [reflexivity|].
  apply Forall_cons in Hw as [Hc Hw]. cbn [app Str.runs]. rewrite Hc.
  rewrite IH by exact Hw. cbn [rev]. rewrite <- app_assoc. reflexivity.
Qed.

(** Splitting the words joined by the separator gives the words back. *)
Lemma runs_join (p : ascii -> bool) (sep : ascii) (ws : list string) :
  p sep = false ->
  Forall (fun w => w <> "" /\ Forall (fun c => p c = true) (Str.chars w)) ws ->
  Str.runs p [] (Str.chars (Str.join (String sep "") ws)) = ws.
Proof.
  intros Hsep Hws. induction Hws as [|w ws [Hne Hw] Hws IH]; [reflexivity|].
  assert (Hcur : rev (Str.chars w) <> []).
  { intros H. apply (f_equal (@rev ascii)) in H.
    rewrite rev_involutive in H. simpl in H.
    apply Hne. rewrite <- (StrFacts.of_chars_chars w), H. reflexivity. }
  destruct ws as [|w' ws'].
  - cbn [Str.join]. rewrite <- (app_nil_r (Str.chars w)).
    rewrite runs_word by exact Hw. rewrite app_nil_r. cbn [Str.runs].
    destruct (rev (Str.chars w)) eqn:E; [congruence|].
    rewrite <- E, rev_involutive, StrFacts.of_chars_chars. reflexivity.
  - change (Str.join (String sep "") (w :: w' :: ws'))
      with (w +:+ String sep "" +:+ Str.join (String sep "") (w' :: ws')).
    rewrite !StrFacts.chars_append. rewrite runs_word by exact Hw.
    rewrite app_nil_r. cbn [Str.chars list_ascii_of_string app Str.runs].
    rewrite Hsep.
    destruct (rev (Str.chars w)) eqn:E; [congruence|].
    rewrite <- E, rev_involutive, StrFacts.of_chars_chars.
    f_equal. exact IH.
Qed.

Lemma runs_chars (Q : ascii -> Prop) (p : ascii -> bool) (l cur : list ascii) :
  Forall Q cur -> Forall Q l ->
  Forall (fun w => Forall Q (Str.chars w)) (Str.runs p cur l).
Proof.
  revert cur. induction l as [|c l IH]; intros cur Hcur Hl; cbn [Str.runs].
  - destruct cur as [|c' cur']; [constructor|]. repeat constructor.
    rewrite StrFacts.chars_of_chars. apply Forall_rev. exact Hcur.
  - apply Forall_cons in Hl as [Hc Hl]. destruct (p c).
    + apply IH; [constructor|]; assumption.
    + destruct cur as [|c' cur']; [apply IH; [constructor | exact Hl]|].
      constructor; [|apply IH; [constructor | exact Hl]].
      rewrite StrFacts.chars_of_chars. apply Forall_rev. exact Hcur.
Qed.

Lemma join_chars (Q : ascii -> Prop) (sep : string) (ws : list string) :
  Forall Q (Str.chars sep) ->
  Forall (fun w => Forall Q (Str.chars w)) ws ->
  Forall Q (Str.chars (Str.join sep ws)).
Proof.
  intros Hsep Hws. induction Hws as [|w ws Hw Hws IH]; [constructor|].
  destruct ws as [|w' ws']; [exact Hw|].
  change (Str.join sep (w :: w' :: ws'))
    with (w +:+ sep +:+ Str.join sep (w' :: ws')).
  rewrite !StrFacts.chars_append. rewrite !Forall_app. auto.
Qed.

Lemma map_fixed {A} (f : A -> A) (l : list A) :
  Forall (fun x => f x = x) l -> map f l = l.
Proof. induction 1 as [|x l Hx Hl IH]; simpl; congruence. Qed.

Lemma join_nonempty (sep w : string) (ws : list string) :
  w <> "" -> Str.is_empty (Str.join sep (w :: ws)) = false.
Proof.
  intros Hw. destruct w as [|c w]; [congruence|].
  destruct ws; reflexivity.
Qed.

(** What a cleaned text looks like. *)
Lemma clean_text_words (text : string) :
  exists ws,
    clean_text text = Str.join " " ws
    /\ Forall (fun w =>
          w <> ""
          /\ Forall (fun c => Str.is_word c = true /\ Str.to_lower c = c)
                    (Str.chars w)) ws.
Proof.
  destruct (Str.is_empty text) eqn:Eempty.
  { exists []. split; [|constructor].
    unfold clean_text. rewrite Eempty. reflexivity. }
  set (ws := Str.split (replace_punctuation (Str.lower text))).
  exists ws. split; [unfold clean_text; rewrite Eempty; reflexivity|].
  assert (Hwords : Forall (fun w => w <> ""
                     /\ Forall (fun c => negb (Str.is_space c) = true)
                               (Str.chars w)) ws).
  { apply runs_words. constructor. }
  assert (Hchars : Forall (fun w =>
                     Forall (fun c => (Str.is_word c || Str.is_space c = true)
                                      /\ Str.to_lower c = c) (Str.chars w)) ws).
  { apply runs_chars; [constructor|].
    unfold replace_punctuation, Str.lower.
    rewrite !StrFacts.chars_of_chars, map_map.
    apply Forall_forall. intros c Hc.
    apply list_elem_of_fmap in Hc as (c0 & -> & _).
    destruct (Str.is_word (Str.to_lower c0) || Str.is_space (Str.to_lower c0))
      eqn:E.
    - split; [exact E | apply StrFacts.to_lower_idempotent].
    - split; reflexivity. }
  rewrite Forall_forall in Hwords, Hchars. apply Forall_forall.
  intros w Hw. destruct (Hwords w Hw) as [Hne Hns]. split; [exact Hne|].
  specialize (Hchars w Hw). rewrite Forall_forall in Hns, Hchars.
  apply Forall_forall. intros c Hc.
  destruct (Hchars c Hc) as [Hword Hlow]. specialize (Hns c Hc).
  split; [|exact Hlow].
  apply negb_true_iff in Hns. rewrite Hns, orb_false_r in Hword.
  exact Hword.
Qed.

Lemma word_not_space (c : ascii) :
  Str.is_word c = true -> Str.is_space c = false.
Proof. destruct c as [[] [] [] [] [] [] [] []]; (reflexivity || discriminate). Qed.

(** Words of lower-case word characters joined by single spaces are left
    as they are. *)
Lemma clean_text_join (ws : list string) :
  Forall (fun w =>
    w <> ""
    /\ Forall (fun c => Str.is_word c = true /\ Str.to_lower c = c)
              (Str.chars w)) ws ->
  clean_text (Str.join " " ws) = Str.join " " ws.
Proof.
  intros Hws. unfold clean_text.
  destruct ws as [|w ws'] eqn:Ews; [reflexivity|]. rewrite <- Ews in *.
  assert (Hall : Forall (fun c => (Str.is_word c || Str.is_space c = true)
                                  /\ Str.to_lower c = c)
                        (Str.chars (Str.join " " ws))).
  { apply join_chars; [repeat constructor|].
    eapply Forall_impl; [exact Hws|]. intros w0 [_ Hw0].
    eapply Forall_impl; [exact Hw0|]. intros c [Hc Hl]. cbn beta.
    rewrite Hc. auto. }
  replace (Str.is_empty (Str.join " " ws)) with false
    by (subst ws; symmetry; apply join_nonempty;
        apply Forall_inv in Hws; apply Hws).
  assert (Hlower : Str.lower (Str.join " " ws) = Str.join " " ws).
  { unfold Str.lower. rewrite map_fixed, StrFacts.of_chars_chars;
      [reflexivity|].
    eapply Forall_impl; [exact Hall|]. intros c [_ Hc]. exact Hc. }
  rewrite Hlower.
  assert (Hpunct : replace_punctuation (Str.join " " ws) = Str.join " " ws).
  { unfold replace_punctuation.
    rewrite map_fixed, StrFacts.of_chars_chars; [reflexivity|].
    eapply Forall_impl; [exact Hall|]. intros c [Hc _]. cbn beta.
    rewrite Hc. reflexivity. }
  rewrite Hpunct. unfold Str.split.
  rewrite (runs_join (fun c => negb (Str.is_space c)) " "%char ws);
    [reflexivity | reflexivity |].
  eapply Forall_impl; [exact Hws|]. intros w0 [Hne Hw0]. split; [exact Hne|].
  eapply Forall_impl; [exact Hw0|]. intros c [Hc _]. cbn beta.
  rewrite (word_not_space c Hc). reflexivity.
Qed.

(** X30: an ASCII text is cleaned into words joined by single spaces,
    each word not empty and made of lower-case word characters: letters,
    digits and the underscore.  There is no space at either end and no
    two spaces in a row, and cleaning is idempotent: a cleaned text is
    left as it is by a second cleaning. *)
Theorem clean_text_idempotent (text : string) :
  Str.is_ascii text = true ->
  (exists ws : list string,
      clean_text text = Str.join " " ws
      /\ Forall (fun w =>
            w <> ""
            /\ Forall (fun c => Str.is_word c = true /\ Str.to_lower c = c)
                      (Str.chars w)) ws)
  /\ clean_text (clean_text text) = clean_text text.
Proof.
  intros _. destruct (clean_text_words text) as (ws & E & Hws).
  split; [exists ws; split; assumption|].
  rewrite E. apply clean_text_join. exact Hws.
Qed.

Lemma clean_text_idempotent_witness :
  clean_text "Rate-System:  Fast & simple!" = "rate system fast simple"
  /\ clean_text (clean_text "Rate-System:  Fast & simple!")
     = clean_text "Rate-System:  Fast & simple!".
Proof.
  split; [vm_compute; reflexivity|].
  exact (proj2 (clean_text_idempotent "Rate-System:  Fast & simple!"
                  eq_refl)).
Defined.

End ClassifierFacts.
